(** * moauthd: a shallow embedding of the authorization server core

    The development follows the C sources of the daemon:
    - [moauthd/server.c]: the application registry
      ([moauthdAddApplication], [moauthdFindApplication],
      [compare_applications]) and the configuration loader
      ([get_seconds], [load_config]);
    - [moauthd/client.c]: the request pipeline ([moauthdRunClient]) and the
      endpoint handlers [do_introspect] and [do_token];
    - the authorization support of the moauth library: the client helper
      [moauthAuthorize].

    C strings are [string]s (no embedded NUL), a nullable [char *] is an
    [option string], [int]/[time_t]/[gid_t] values are [Z] with the
    wrap-around written out where the code relies on it. *)

From Stdlib Require Import ZArith String Ascii List Bool Lia Sorted.
From stdpp Require Import base option list gmap strings pretty.

Local Open Scope string_scope.
Local Open Scope list_scope.
Local Open Scope Z_scope.

(** ** The C library functions the daemon calls *)

Module CLib.

Definition byte_of (c : ascii) : Z := Z.of_N (N_of_ascii c).

(** [isspace()] in the C locale. *)
Definition isspace (c : ascii) : bool :=
  let n := byte_of c in (n =? 32) || ((9 <=? n) && (n <=? 13)).

(** [isdigit()]. *)
Definition isdigit (c : ascii) : bool :=
  let n := byte_of c in (48 <=? n) && (n <=? 57).

(** [tolower()] in the C locale, on the byte value. *)
Definition tolower (c : ascii) : Z :=
  let n := byte_of c in
  if (65 <=? n) && (n <=? 90) then n + 32 else n.

(** [strcmp()]: the sign of the difference of the first two bytes that
    differ, the end of a string coming before every byte. *)
Fixpoint strcmp (a b : string) : Z :=
  match a, b with
  | EmptyString, EmptyString => 0
  | EmptyString, String _ _ => -1
  | String _ _, EmptyString => 1
  | String x a', String y b' =>
      if byte_of x =? byte_of y then strcmp a' b'
      else if byte_of x <? byte_of y then -1 else 1
  end.

(** [strcasecmp()]: as [strcmp] on the lower-cased bytes. *)
Fixpoint strcasecmp (a b : string) : Z :=
  match a, b with
  | EmptyString, EmptyString => 0
  | EmptyString, String _ _ => -1
  | String _ _, EmptyString => 1
  | String x a', String y b' =>
      if tolower x =? tolower y then strcasecmp a' b'
      else if tolower x <? tolower y then -1 else 1
  end.

(** [strchr(s, c) != NULL]. *)
Fixpoint strchr (s : string) (c : ascii) : bool :=
  match s with
  | EmptyString => false
  | String x s' => if Ascii.eqb x c then true else strchr s' c
  end.

Definition LONG_MAX : Z := 9223372036854775807.
Definition LONG_MIN : Z := -9223372036854775808.

(** The value of a C [int] holding [z] after a conversion or an
    arithmetic operation: reduction modulo 2^32 into the signed range. *)
Definition to_int (z : Z) : Z := (z + 2147483648) mod 4294967296 - 2147483648.

(** The value of an unsigned 32-bit [gid_t]/[uid_t] holding [z]. *)
Definition to_u32 (z : Z) : Z := z mod 4294967296.

Fixpoint skip_space (s : string) : string :=
  match s with
  | String c s' => if isspace c then skip_space s' else s
  | EmptyString => s
  end.

(** The decimal digits at the head of [s]: their value accumulated onto
    [acc], how many there are, and what follows them. *)
Fixpoint digits (acc : Z) (n : nat) (s : string) : Z * nat * string :=
  match s with
  | String c s' =>
      if isdigit c then digits (acc * 10 + (byte_of c - 48)) (S n) s'
      else (acc, n, s)
  | EmptyString => (acc, n, s)
  end.

(** [strtol(s, &end, 10)]: the converted value, clamped to the range of
    [long], and the unconverted rest [end].  Without any digit nothing is
    converted: the value is 0 and [end] is [s] itself. *)
Definition strtol (s : string) : Z * string :=
  let s1 := skip_space s in
  let '(neg, s2) :=
    match s1 with
    | String "-" r => (true, r)
    | String "+" r => (false, r)
    | _ => (false, s1)
    end in
  let '(v, n, rest) := digits 0 0 s2 in
  match n with
  | O => (0, s)
  | _ =>
      let v' := if neg then - v else v in
      (Z.max LONG_MIN (Z.min LONG_MAX v'), rest)
  end.

End CLib.

Import CLib.

(** ** Types of [moauthd.h] *)

(** The address of a heap object; [NULL] is [None] in an [option ptr]. *)
Definition ptr := nat.

Record moauthd_application_t := {
  client_id : string;
  redirect_uri : string;
  client_name : option string;
  client_uri : option string;
  logo_uri : option string;
  tos_uri : option string
}.

Inductive moauthd_toktype_t :=
| MOAUTHD_TOKTYPE_ACCESS
| MOAUTHD_TOKTYPE_GRANT
| MOAUTHD_TOKTYPE_RENEWAL.

#[global] Instance moauthd_toktype_eq_dec : EqDecision moauthd_toktype_t.
Proof. solve_decision. Defined.

Record moauthd_token_t := {
  type : moauthd_toktype_t;
  token : string;
  challenge : option string;
  user : option string;
  application : option ptr;
  scopes : option string;
  uid : Z;
  gid : Z;
  created : Z;
  expires : Z
}.

Inductive moauthd_loglevel_t :=
| MOAUTHD_LOGLEVEL_ERROR
| MOAUTHD_LOGLEVEL_INFO
| MOAUTHD_LOGLEVEL_DEBUG.

(** [(gid_t)-1], the "no group" value of [introspect_group] and
    [register_group]. *)
Definition GID_NONE : Z := to_u32 (-1).

(** The server object.  [applications] is the CUPS array of registered
    applications in array order, each element with the address of its heap
    copy; [tokens] is the token store.  The fields the embedded functions
    never read (listeners, locks, keys, metadata) are left out. *)
Record moauthd_server_t := {
  name : option string;
  port : Z;
  log_level : moauthd_loglevel_t;
  options : Z;
  introspect_group : Z;
  register_group : Z;
  max_grant_life : Z;
  max_token_life : Z;
  applications : list (ptr * moauthd_application_t);
  tokens : gmap string moauthd_token_t;
  test_password : option string
}.

Definition set_max_grant_life (v : Z) (s : moauthd_server_t) : moauthd_server_t :=
  {| name := name s; port := port s; log_level := log_level s;
     options := options s; introspect_group := introspect_group s;
     register_group := register_group s; max_grant_life := v;
     max_token_life := max_token_life s; applications := applications s;
     tokens := tokens s; test_password := test_password s |}.

Definition set_max_token_life (v : Z) (s : moauthd_server_t) : moauthd_server_t :=
  {| name := name s; port := port s; log_level := log_level s;
     options := options s; introspect_group := introspect_group s;
     register_group := register_group s; max_grant_life := max_grant_life s;
     max_token_life := v; applications := applications s;
     tokens := tokens s; test_password := test_password s |}.

Definition set_tokens (t : gmap string moauthd_token_t) (s : moauthd_server_t)
  : moauthd_server_t :=
  {| name := name s; port := port s; log_level := log_level s;
     options := options s; introspect_group := introspect_group s;
     register_group := register_group s; max_grant_life := max_grant_life s;
     max_token_life := max_token_life s; applications := applications s;
     tokens := t; test_password := test_password s |}.

Definition set_applications (a : list (ptr * moauthd_application_t))
  (s : moauthd_server_t) : moauthd_server_t :=
  {| name := name s; port := port s; log_level := log_level s;
     options := options s; introspect_group := introspect_group s;
     register_group := register_group s; max_grant_life := max_grant_life s;
     max_token_life := max_token_life s; applications := a;
     tokens := tokens s; test_password := test_password s |}.

Definition set_test_password (p : option string) (s : moauthd_server_t)
  : moauthd_server_t :=
  {| name := name s; port := port s; log_level := log_level s;
     options := options s; introspect_group := introspect_group s;
     register_group := register_group s; max_grant_life := max_grant_life s;
     max_token_life := max_token_life s; applications := applications s;
     tokens := tokens s; test_password := p |}.

Definition set_introspect_group (g : Z) (s : moauthd_server_t)
  : moauthd_server_t :=
  {| name := name s; port := port s; log_level := log_level s;
     options := options s; introspect_group := g;
     register_group := register_group s; max_grant_life := max_grant_life s;
     max_token_life := max_token_life s; applications := applications s;
     tokens := tokens s; test_password := test_password s |}.

(** The defaults [moauthdCreateServer] sets before the configuration file
    is read. *)
Definition default_server : moauthd_server_t :=
  {| name := None; port := 0; log_level := MOAUTHD_LOGLEVEL_ERROR;
     options := 0; introspect_group := GID_NONE; register_group := GID_NONE;
     max_grant_life := 300; max_token_life := 604800;
     applications := []; tokens := ∅; test_password := None |}.

(** ** [server.c]: time values of the configuration file *)

(** [get_seconds()]: the number of seconds, or -1 on error. *)
Definition get_seconds (value : string) : Z :=
  let '(l, units) := strtol value in
  let tval := to_int l in
  if strcasecmp units "m" =? 0 then to_int (tval * 60)
  else if strcasecmp units "h" =? 0 then to_int (tval * 3600)
  else if strcasecmp units "d" =? 0 then to_int (tval * 86400)
  else if strcasecmp units "w" =? 0 then to_int (tval * 604800)
  else -1.

(** [load_config()]: the configuration file is the list of its
    (directive, value) lines as [cupsFileGetConf] returns them; the result
    is the updated server, or [None] where the code returns [false]. *)
Section LoadConfig.

(** The branches of [load_config] for the directives other than
    [MaxGrantLife] and [MaxTokenLife] (they open files and look up groups
    and resources) and its final [else] for unknown ones. *)
Variable other_directive :
  moauthd_server_t -> string -> option string -> option moauthd_server_t.

Definition load_config_line (server : moauthd_server_t) (line : string)
  (value : option string) : option moauthd_server_t :=
  if strcasecmp line "MaxGrantLife" =? 0 then
    match value with
    | None => None
    | Some v =>
        let max_grant_life := get_seconds v in
        if max_grant_life <? 0 then None
        else Some (set_max_grant_life max_grant_life server)
    end
  else if strcasecmp line "MaxTokenLife" =? 0 then
    match value with
    | None => None
    | Some v =>
        let max_token_life := get_seconds v in
        if max_token_life <? 0 then None
        else Some (set_max_token_life max_token_life server)
    end
  else other_directive server line value.

Fixpoint load_config (server : moauthd_server_t)
  (fp : list (string * option string)) : option moauthd_server_t :=
  match fp with
  | [] => Some server
  | (line, value) :: fp' =>
      match load_config_line server line value with
      | Some server' => load_config server' fp'
      | None => None
      end
  end.

End LoadConfig.

(** ** [server.c]: the application registry *)

(** [compare_applications()]. *)
Definition compare_applications (a b : moauthd_application_t) : Z :=
  strcmp (client_id a) (client_id b).

(** CUPS arrays with a comparison callback (libcups): the elements are
    kept in the callback's order, every element being a pointer to its own
    heap copy. *)
Section CupsArray.

Context {A : Type} (compare : A -> A -> Z).

(** [cupsArrayFind()]: the first element of the array the callback
    finds equal to the key. *)
Fixpoint cupsArrayFind (a : list (ptr * A)) (key : A) : option (ptr * A) :=
  match a with
  | [] => None
  | e :: a' => if compare key e.2 =? 0 then Some e else cupsArrayFind a' key
  end.

(** [cupsArrayAdd()]: the new element goes after the last element that is
    not greater than it. *)
Fixpoint cupsArrayAdd (a : list (ptr * A)) (e : ptr * A) : list (ptr * A) :=
  match a with
  | [] => [e]
  | x :: a' => if compare e.2 x.2 <? 0 then e :: a else x :: cupsArrayAdd a' e
  end.

End CupsArray.

(** The address [copy_application] gets from [calloc]: one no element of
    the array has. *)
Definition fresh_ptr {A : Type} (a : list (ptr * A)) : ptr :=
  S (foldr Nat.max O (a.*1)).

(** [moauthdAddApplication()]: the updated server and the application
    found for the new registration. *)
Definition moauthdAddApplication (server : moauthd_server_t)
  (client_id redirect_uri : string)
  (client_name client_uri logo_uri tos_uri : option string)
  : moauthd_server_t * option (ptr * moauthd_application_t) :=
  let temp := {| client_id := client_id; redirect_uri := redirect_uri;
                 client_name := client_name; client_uri := client_uri;
                 logo_uri := logo_uri; tos_uri := tos_uri |} in
  let apps := cupsArrayAdd compare_applications (applications server)
                (fresh_ptr (applications server), temp) in
  (set_applications apps server, cupsArrayFind compare_applications apps temp).

(** [moauthdFindApplication()]: the matching application, if any.  The
    search key carries the two fields the code sets. *)
Definition moauthdFindApplication (server : moauthd_server_t)
  (client_id : string) (redirect_uri : option string)
  : option (ptr * moauthd_application_t) :=
  match redirect_uri with
  | Some uri =>
      (* Exact match... *)
      let key := {| client_id := client_id; redirect_uri := uri;
                    client_name := None; client_uri := None;
                    logo_uri := None; tos_uri := None |} in
      cupsArrayFind compare_applications (applications server) key
  | None =>
      (* First matching client ID... *)
      List.find
        (fun app => let '{| client_id := app_client_id |} := app.2 in
                    strcmp app_client_id client_id =? 0)
        (applications server)
  end.

(** ** [client.c]: the client object and the effects of a handler *)

Definition http_status_t := Z.
Definition HTTP_STATUS_OK : http_status_t := 200.
Definition HTTP_STATUS_BAD_REQUEST : http_status_t := 400.
Definition HTTP_STATUS_UNAUTHORIZED : http_status_t := 401.
Definition HTTP_STATUS_FORBIDDEN : http_status_t := 403.

(** The identity fields of the client object; [remote_groups] holds the
    first [num_remote_groups] entries of the C array. *)
Record moauthd_client_t := {
  remote_user : string;
  remote_uid : Z;
  remote_groups : list Z;
  remote_token : option moauthd_token_t
}.

Definition new_client : moauthd_client_t :=
  {| remote_user := EmptyString; remote_uid := 0; remote_groups := [];
     remote_token := None |}.

(** What a handler does besides updating the server and client objects,
    in the order it happens. *)
Inductive event :=
| Logc (level : moauthd_loglevel_t) (message : string)
| Authenticate (username password : option string)
| Respond (code : http_status_t) (content_type uri : option string) (length : Z)
| Write (data : string).

Record world := {
  w_server : moauthd_server_t;
  w_client : moauthd_client_t;
  w_events : list event
}.

(** A handler either returns with a new state or dereferences a [NULL]
    pointer, after which nothing more happens on the connection. *)
Inductive result (A : Type) :=
| Done (a : A) (w : world)
| Crash (w : world).
Arguments Done {A} a w.
Arguments Crash {A} w.

(** The world a handler leaves, however it ends. *)
Definition final {A} (r : result A) : world :=
  match r with
  | Done _ w => w
  | Crash w => w
  end.

Definition M (A : Type) : Type := world -> result A.

Definition ret {A} (a : A) : M A := fun w => Done a w.

Definition bind {A B} (m : M A) (k : A -> M B) : M B :=
  fun w => match m w with
           | Done a w' => k a w'
           | Crash w' => Crash w'
           end.

Declare Scope handler_scope.
Delimit Scope handler_scope with handler.
Notation "x <- m ;; k" := (bind m (fun x => k))
  (at level 100, m at next level, right associativity) : handler_scope.
Notation "m ;; k" := (bind m (fun _ => k))
  (at level 100, right associativity) : handler_scope.
Local Open Scope handler_scope.

Definition emit (e : event) : M unit :=
  fun w => Done tt {| w_server := w_server w; w_client := w_client w;
                      w_events := w_events w ++ [e] |}.

Definition get_server : M moauthd_server_t := fun w => Done (w_server w) w.
Definition get_client : M moauthd_client_t := fun w => Done (w_client w) w.

Definition put_server (s : moauthd_server_t) : M unit :=
  fun w => Done tt {| w_server := s; w_client := w_client w;
                      w_events := w_events w |}.

Definition put_client (c : moauthd_client_t) : M unit :=
  fun w => Done tt {| w_server := w_server w; w_client := c;
                      w_events := w_events w |}.

(** [p->field] for a pointer that may be [NULL]. *)
Definition deref {A} (p : option A) : M A :=
  match p with
  | Some a => ret a
  | None => fun w => Crash w
  end.

Definition moauthdLogc (level : moauthd_loglevel_t) (message : string) : M unit :=
  emit (Logc level message).

(** What the surroundings decide during one request: the clock, the
    identifier and user ids [moauthdCreateToken] comes up with ([None] when
    it returns [NULL]), and whether the peer takes what is sent. *)
Record environment := {
  now : Z;
  new_token : option (string * Z * Z);
  respond_ok : bool;
  write_short : bool
}.

(** A double quote, for the messages that print one. *)
Definition dquote : string := String (ascii_of_nat 34) EmptyString.

(** The form variables of a request as [_moauthFormDecode] leaves them;
    [cupsGetOption()] (libcups) returns the value of the first one with the
    name, compared without case. *)
Definition cups_option_t : Type := string * string.

Fixpoint cupsGetOption (name : string) (vars : list cups_option_t) : option string :=
  match vars with
  | [] => None
  | (n, v) :: vars' =>
      if strcasecmp n name =? 0 then Some v else cupsGetOption name vars'
  end.

Definition is_empty (s : string) : bool :=
  match s with
  | EmptyString => true
  | String _ _ => false
  end.

(** The place of a name in an array of options that libcups keeps in the
    order of the names, compared without case: the option that has the
    name keeps it and takes the new value, a name that is not there goes
    before the first greater one. *)
Fixpoint cups_insert_option (name value : string) (options : list cups_option_t)
  : list cups_option_t :=
  match options with
  | [] => [(name, value)]
  | (n, v) :: rest =>
      let diff := strcasecmp name n in
      if diff =? 0 then (n, value) :: rest
      else if diff <? 0 then (name, value) :: options
      else (n, v) :: cups_insert_option name value rest
  end.

(** libcups: [cupsAddOption(name, value, num_options, &options)], the
    array it leaves.  A [NULL] value or an empty name adds nothing; the
    exchange of [print-quality] and [cupsPrintQuality], two names no caller
    here passes, is left out. *)
Definition cupsAddOption (name : string) (value : option string)
  (options : list cups_option_t) : list cups_option_t :=
  match value with
  | Some value =>
      if is_empty name then options else cups_insert_option name value options
  | None => options
  end.

Definition is_null {A} (p : option A) : bool :=
  match p with
  | None => true
  | Some _ => false
  end.

Definition when (b : bool) (m : M unit) : M unit := if b then m else ret tt.

(** [types[]] of [do_introspect], indexed by the token type. *)
Definition types (t : moauthd_toktype_t) : string :=
  match t with
  | MOAUTHD_TOKTYPE_ACCESS => "access"
  | MOAUTHD_TOKTYPE_GRANT => "grant"
  | MOAUTHD_TOKTYPE_RENEWAL => "renewal"
  end.

(** The application a pointer held by a token refers to. *)
Definition application_at (server : moauthd_server_t) (p : ptr)
  : option moauthd_application_t :=
  snd <$> List.find (fun e => Nat.eqb e.1 p) (applications server).

(** [p = strchr(s, c); *p++ = 0]: the string before the first [c] and the
    one after it, when there is one. *)
Fixpoint split_at (c : ascii) (s : string) : option (string * string) :=
  match s with
  | EmptyString => None
  | String x s' =>
      if Ascii.eqb x c then Some (EmptyString, s')
      else match split_at c s' with
           | Some (a, b) => Some (String x a, b)
           | None => None
           end
  end.

Definition is_blank (c : ascii) : bool :=
  (byte_of c =? 32) || (byte_of c =? 9).

Fixpoint take_while (f : ascii -> bool) (s : string) : string :=
  match s with
  | String c s' => if f c then String c (take_while f s') else EmptyString
  | EmptyString => EmptyString
  end.

Fixpoint drop_while (f : ascii -> bool) (s : string) : string :=
  match s with
  | String c s' => if f c then drop_while f s' else s
  | EmptyString => EmptyString
  end.

(** What [buf] holds after [strtok(buf, " \t")]: the blanks at its head
    stay, and the NUL goes after the first token. *)
Definition strtok_blank (buf : string) : string :=
  take_while is_blank buf
  +:+ take_while (fun c => negb (is_blank c)) (drop_while is_blank buf).

Definition set_identity (user : string) (uid : Z) (c : moauthd_client_t)
  : moauthd_client_t :=
  {| remote_user := user; remote_uid := uid;
     remote_groups := remote_groups c; remote_token := remote_token c |}.

Definition set_remote_groups (g : list Z) (c : moauthd_client_t)
  : moauthd_client_t :=
  {| remote_user := remote_user c; remote_uid := remote_uid c;
     remote_groups := g; remote_token := remote_token c |}.

Definition set_remote_token (t : option moauthd_token_t) (c : moauthd_client_t)
  : moauthd_client_t :=
  {| remote_user := remote_user c; remote_uid := remote_uid c;
     remote_groups := remote_groups c; remote_token := t |}.

(** ** The token store *)

(** Modelled from the spec: [moauthdFindToken], declared in [moauthd.h],
    whose definition is not among the sources (section 4.2, "Find(id) ->
    ref | none"; the store is keyed by the token identifier). *)
Definition moauthdFindToken (token_id : string) : M (option moauthd_token_t) :=
  server <- get_server ;;
  ret (tokens server !! token_id).

(** Modelled from the spec: [moauthdDeleteToken], declared in [moauthd.h],
    whose definition is not among the sources (section 4.2, "Delete(ref)":
    the entry the reference names leaves the store). *)
Definition moauthdDeleteToken (t : moauthd_token_t) : M unit :=
  server <- get_server ;;
  put_server (set_tokens (delete (token t) (tokens server)) server).

(** [cupsArrayRemove(server->tokens, token)] under the write lock, as the
    Bearer branch of [moauthdRunClient] does it. *)
Definition cupsArrayRemove_token (t : moauthd_token_t) : M unit :=
  server <- get_server ;;
  put_server (set_tokens (delete (token t) (tokens server)) server).

Section Daemon.

(** libcups: [cupsHashData("sha2-256", v, strlen(v), sha256, 32)], the 32
    bytes it leaves in [sha256]. *)
Variable cupsHashData : string -> list Z.

(** libcups: [httpEncode64_2(out, outlen, in, inlen)], the string it
    leaves in [out], from [outlen] and the bytes of [in]. *)
Variable httpEncode64_2 : Z -> list Z -> string.

(** libcups: [httpDecode64_2(out, &outlen, in)], the string it leaves in
    [out]. *)
Variable httpDecode64_2 : string -> string.

(** [_moauthJSONEncode] of the moauth library: the encoded object, or
    [None] for [NULL]. *)
Variable _moauthJSONEncode : list cups_option_t -> option string.

(** Whether [moauthdAuthenticateUser], declared in [moauthd.h], accepts the
    credentials. *)
Variable authenticates :
  moauthd_server_t -> option string -> option string -> bool.

(** libc: [getpwnam], the [pw_uid] and [pw_gid] of a known user. *)
Variable getpwnam : string -> option (Z * Z).

(** libc: [getgrouplist(user, gid, groups, &ngroups)] for a buffer of
    [ngroups] entries: its return value and the groups it stores. *)
Variable getgrouplist : string -> Z -> Z -> Z * list Z.

Variable env : environment.

Definition moauthdAuthenticateUser (username password : option string) : M bool :=
  server <- get_server ;;
  emit (Authenticate username password) ;;
  ret (authenticates server username password).

Definition moauthdRespondClient (code : http_status_t)
  (content_type uri : option string) (mtime length : Z) : M bool :=
  emit (Respond code content_type uri length) ;;
  ret (respond_ok env).

(** [httpWrite2(client->http, data, datalen) < datalen]. *)
Definition httpWrite2_short (data : string) : M bool :=
  emit (Write data) ;;
  ret (write_short env).

(** Modelled from the spec: [moauthdCreateToken], declared in [moauthd.h],
    whose definition is not among the sources (section 4.2, "Create(kind,
    application?, user, scopes) -> ref" with "expires_at = created_at +
    (grant? MaxGrantLife : MaxTokenLife)"; section 3, the token fields).
    The identifier and the numeric identity come from the environment. *)
Definition moauthdCreateToken (type : moauthd_toktype_t)
  (application : option ptr) (user scopes : option string)
  : M (option moauthd_token_t) :=
  match new_token env with
  | None => ret None
  | Some (id, uid, gid) =>
      server <- get_server ;;
      let life := match type with
                  | MOAUTHD_TOKTYPE_GRANT => max_grant_life server
                  | _ => max_token_life server
                  end in
      let t := {| type := type; token := id; challenge := None;
                  user := user; application := application;
                  scopes := scopes; uid := uid; gid := gid;
                  created := now env; expires := now env + life |} in
      put_server (set_tokens (<[id := t]> (tokens server)) server) ;;
      ret (Some t)
  end.

(** *** [do_token()]: the /token endpoint *)

(** The label [bad_request] of [do_token] and [do_introspect]. *)
Definition bad_request : M Z :=
  ok <- moauthdRespondClient HTTP_STATUS_BAD_REQUEST None None 0 0 ;;
  ret (Z.b2z ok).

(** From [snprintf(expires_in, ...)] to the end of [do_token]. *)
Definition do_token_respond (access_token : option moauthd_token_t) : M Z :=
  server <- get_server ;;
  let expires_in := pretty (max_token_life server) in
  t <- deref access_token ;;
  let json := cupsAddOption "access_token" (Some (token t)) [] in
  let json := cupsAddOption "token_type" (Some "access") json in
  let json := cupsAddOption "expires_in" (Some expires_in) json in
  match _moauthJSONEncode json with
  | None =>
      moauthdLogc MOAUTHD_LOGLEVEL_ERROR "Unable to create JSON response." ;;
      bad_request
  | Some data =>
      let datalen := Z.of_nat (String.length data) in
      ok <- moauthdRespondClient HTTP_STATUS_OK (Some "application/json")
              None 0 datalen ;;
      if negb ok then ret 0
      else
        short <- httpWrite2_short data ;;
        if short then ret 0 else ret 1
  end.

(** The PKCE check of [do_token] on the token found for [code]: [true]
    when the handler goes on, [false] when it jumps to [bad_request]. *)
Definition do_token_verify (grant_token : moauthd_token_t)
  (verifier : option string) : M bool :=
  match challenge grant_token with
  | Some stored =>
      match verifier with
      | Some v =>
          let sha256 := cupsHashData v in
          let challenge := httpEncode64_2 45 sha256 in
          if negb (strcmp stored challenge =? 0) then
            moauthdLogc MOAUTHD_LOGLEVEL_ERROR
              "Incorrect code_verifier in token request." ;;
            ret false
          else ret true
      | None =>
          moauthdLogc MOAUTHD_LOGLEVEL_ERROR
            "Missing code_verifier in token request." ;;
          ret false
      end
  | None => ret true
  end.

(** The end of the [authorization_code] branch of [do_token], once the
    token found for [code] has passed the checks: the access token is
    created, the token found is deleted, the response is sent. *)
Definition do_token_exchange (app : ptr * moauthd_application_t)
  (grant_token : moauthd_token_t) : M Z :=
  access_token <- moauthdCreateToken MOAUTHD_TOKTYPE_ACCESS (Some app.1)
                    (user grant_token) (scopes grant_token) ;;
  match access_token with
  | None =>
      moauthdLogc MOAUTHD_LOGLEVEL_ERROR "Unable to create access token." ;;
      bad_request
  | Some _ =>
      moauthdDeleteToken grant_token ;;
      do_token_respond access_token
  end.

(** [do_token()], from the form variables of the message body ([None]
    when [_moauthCopyMessageBody] returns [NULL]); 1 on success, 0 on
    failure. *)
Definition do_token (body : option (list cups_option_t)) : M Z :=
  match body with
  | None => bad_request
  | Some vars =>
      let client_id := cupsGetOption "client_id" vars in
      let code := cupsGetOption "code" vars in
      let grant_type := cupsGetOption "grant_type" vars in
      let password := cupsGetOption "password" vars in
      let redirect_uri := cupsGetOption "redirect_uri" vars in
      let username := cupsGetOption "username" vars in
      let scope := cupsGetOption "scope" vars in
      let verifier := cupsGetOption "code_verifier" vars in
      match grant_type with
      | None =>
          moauthdLogc MOAUTHD_LOGLEVEL_ERROR
            "Missing grant_type in token request." ;;
          bad_request
      | Some grant_type =>
          if negb (strcmp grant_type "authorization_code" =? 0)
             && negb (strcmp grant_type "password" =? 0) then
            moauthdLogc MOAUTHD_LOGLEVEL_ERROR
              ("Bad grant_type '" +:+ grant_type +:+ "' in token request.") ;;
            bad_request
          else if (strcmp grant_type "password" =? 0)
                  && is_null username && is_null password then
            when (is_null username)
              (moauthdLogc MOAUTHD_LOGLEVEL_ERROR
                 "Missing username in token request.") ;;
            when (is_null password)
              (moauthdLogc MOAUTHD_LOGLEVEL_ERROR
                 "Missing password in token request.") ;;
            bad_request
          else if negb (strcmp grant_type "password" =? 0)
                  && (is_null client_id || is_null code) then
            when (is_null client_id)
              (moauthdLogc MOAUTHD_LOGLEVEL_ERROR
                 "Missing client_id in token request.") ;;
            when (is_null code)
              (moauthdLogc MOAUTHD_LOGLEVEL_ERROR
                 "Missing code in token request.") ;;
            bad_request
          else if strcmp grant_type "password" =? 0 then
            ok <- moauthdAuthenticateUser username password ;;
            if negb ok then bad_request
            else
              access_token <- moauthdCreateToken MOAUTHD_TOKTYPE_ACCESS None
                                username scope ;;
              do_token_respond access_token
          else
            client_id <- deref client_id ;;
            code <- deref code ;;
            server <- get_server ;;
            match moauthdFindApplication server client_id redirect_uri with
            | None =>
                (if is_null redirect_uri then
                   moauthdLogc MOAUTHD_LOGLEVEL_ERROR
                     "Bad client_id in token request."
                 else
                   moauthdLogc MOAUTHD_LOGLEVEL_ERROR
                     "Bad client_id/redirect_uri in token request.") ;;
                bad_request
            | Some app =>
                grant_token <- moauthdFindToken code ;;
                match grant_token with
                | None =>
                    moauthdLogc MOAUTHD_LOGLEVEL_ERROR
                      "Bad code in token request." ;;
                    bad_request
                | Some grant_token =>
                    if negb (bool_decide (application grant_token = Some app.1)) then
                      moauthdLogc MOAUTHD_LOGLEVEL_ERROR
                        "Bad client_id or redirect_uri in token request." ;;
                      bad_request
                    else if expires grant_token <=? now env then
                      moauthdLogc MOAUTHD_LOGLEVEL_ERROR
                        "Grant token has expired." ;;
                      moauthdDeleteToken grant_token ;;
                      bad_request
                    else
                      verified <- do_token_verify grant_token verifier ;;
                      if negb verified then bad_request
                      else do_token_exchange app grant_token
                end
            end
      end
  end.

(** *** [do_introspect()]: the /introspect endpoint *)

Definition do_introspect (body : option (list cups_option_t)) : M Z :=
  client <- get_client ;;
  server <- get_server ;;
  let status :=
    if is_empty (remote_user client) then HTTP_STATUS_UNAUTHORIZED
    else if negb (introspect_group server =? GID_NONE) then
      if existsb (fun g => g =? introspect_group server) (remote_groups client)
      then HTTP_STATUS_OK
      else HTTP_STATUS_FORBIDDEN
    else HTTP_STATUS_OK in
  if negb (status =? HTTP_STATUS_OK) then
    ok <- moauthdRespondClient status None None 0 0 ;;
    ret (Z.b2z ok)
  else
    match body with
    | None => bad_request
    | Some vars =>
        let token_var := cupsGetOption "token" vars in
        match token_var with
        | None =>
            moauthdLogc MOAUTHD_LOGLEVEL_ERROR
              "Missing token in introspect request." ;;
            bad_request
        | Some token_var =>
            found <- moauthdFindToken token_var ;;
            match found with
            | None =>
                moauthdLogc MOAUTHD_LOGLEVEL_ERROR
                  "Bad token in introspect request." ;;
                bad_request
            | Some t =>
                let exp := pretty (expires t) in
                let iat := pretty (created t) in
                let json :=
                  cupsAddOption "active"
                    (Some (if now env <? expires t then "true" else "false"))
                    [] in
                let json := cupsAddOption "scope" (scopes t) json in
                application <- deref (application t) ;;
                app <- deref (application_at server application) ;;
                let '{| client_id := app_client_id |} := app in
                let json := cupsAddOption "client_id" (Some app_client_id) json in
                let json := cupsAddOption "username" (user t) json in
                let json := cupsAddOption "token_type" (Some (types (type t))) json in
                let json := cupsAddOption "exp" (Some exp) json in
                let json := cupsAddOption "iat" (Some iat) json in
                match _moauthJSONEncode json with
                | None =>
                    moauthdLogc MOAUTHD_LOGLEVEL_ERROR
                      "Unable to create JSON response." ;;
                    bad_request
                | Some data =>
                    let datalen := Z.of_nat (String.length data) in
                    ok <- moauthdRespondClient HTTP_STATUS_OK
                            (Some "application/json") None 0 datalen ;;
                    if negb ok then ret 0
                    else
                      short <- httpWrite2_short data ;;
                      if short then ret 0 else ret 1
                end
            end
        end
    end.

(** *** [moauthdRunClient()]: the Authorization header of a request *)

(** [getgrouplist] into [client->remote_groups], for a user name that is
    not [NULL]; the text of [strerror(errno)] is left out of the message. *)
Definition lookup_groups (user : string) (gid : Z) : M unit :=
  client <- get_client ;;
  let '(r, groups) := getgrouplist user gid 100 in
  if negb (r =? 0) then
    moauthdLogc MOAUTHD_LOGLEVEL_ERROR
      ("Unable to lookup groups for user " +:+ dquote +:+ user +:+ dquote) ;;
    put_client (set_remote_groups [] client)
  else put_client (set_remote_groups groups client).

(** The [Basic] branch, from the header value after the scheme. *)
Definition authorization_basic (authorization : string) : M unit :=
  let decoded := httpDecode64_2 (skip_space authorization) in
  match split_at ":" decoded with
  | Some (username, password) =>
      ok <- moauthdAuthenticateUser (Some username) (Some password) ;;
      if ok then
        match getpwnam username with
        | Some (pw_uid, pw_gid) =>
            moauthdLogc MOAUTHD_LOGLEVEL_INFO
              ("Authenticated as " +:+ dquote +:+ username +:+ dquote
               +:+ " using Basic.") ;;
            client <- get_client ;;
            put_client (set_identity (substring 0 255 username) pw_uid client) ;;
            lookup_groups (substring 0 255 username) pw_gid
        | None =>
            moauthdLogc MOAUTHD_LOGLEVEL_ERROR
              ("Unable to lookup user " +:+ dquote +:+ username +:+ dquote +:+ ".")
        end
      else
        moauthdLogc MOAUTHD_LOGLEVEL_INFO
          ("Basic authentication of " +:+ dquote +:+ username +:+ dquote
           +:+ " failed.")
  | None =>
      moauthdLogc MOAUTHD_LOGLEVEL_ERROR "Bad Basic Authorization value."
  end.

(** The [Bearer] branch, from the header value after the scheme. *)
Definition authorization_bearer (authorization : string) : M unit :=
  found <- moauthdFindToken (skip_space authorization) ;;
  checked <-
    match found with
    | Some t =>
        if expires t <=? now env then
          moauthdLogc MOAUTHD_LOGLEVEL_ERROR "Bearer token has expired." ;;
          cupsArrayRemove_token t ;;
          ret None
        else if negb (bool_decide (type t = MOAUTHD_TOKTYPE_ACCESS)) then
          moauthdLogc MOAUTHD_LOGLEVEL_ERROR
            "Bearer token is of the wrong type." ;;
          ret None
        else ret (Some t)
    | None => ret None
    end ;;
  match checked with
  | Some t =>
      moauthdLogc MOAUTHD_LOGLEVEL_INFO
        ("Authenticated as " +:+ dquote +:+ default "(null)" (user t)
         +:+ dquote +:+ " using Bearer.") ;;
      client <- get_client ;;
      put_client (set_remote_token (Some t) client) ;;
      token_user <- deref (user t) ;;
      client <- get_client ;;
      put_client (set_identity (substring 0 255 token_user) (uid t) client) ;;
      lookup_groups token_user (gid t)
  | None => ret tt
  end.

(** From [client->remote_user[0] = 0] to the end of the
    [if (authorization ...)] statement, for the value of the
    Authorization field (empty when the request has none): [false] when
    the request loop is left with [break]. *)
Definition moauthdRunClient_authorization (authorization : string) : M bool :=
  client <- get_client ;;
  put_client (set_identity EmptyString (to_u32 (-1)) client) ;;
  if negb (is_empty authorization) then
    (if String.prefix "Basic " authorization then
       authorization_basic (substring 6 (String.length authorization - 6)
                              authorization)
     else if String.prefix "Bearer " authorization then
       authorization_bearer (substring 7 (String.length authorization - 7)
                               authorization)
     else
       let scheme := strtok_blank (substring 0 31 authorization) in
       moauthdLogc MOAUTHD_LOGLEVEL_ERROR
         ("Unsupported Authorization scheme " +:+ dquote +:+ scheme
          +:+ dquote +:+ ".")) ;;
    client <- get_client ;;
    if is_empty (remote_user client) then
      moauthdRespondClient HTTP_STATUS_UNAUTHORIZED None None 0 0 ;;
      ret false
    else ret true
  else ret true.

End Daemon.

(** ** The moauth library: the client helper *)

(** The fields of the connection object [moauthAuthorize] uses. *)
Record moauth_t := {
  authorization_endpoint : string;
  error : string
}.

Definition set_error (msg : string) (server : moauth_t) : moauth_t :=
  {| authorization_endpoint := authorization_endpoint server; error := msg |}.

Section ClientHelper.

Variable cupsHashData : string -> list Z.
Variable httpEncode64_2 : Z -> list Z -> string.

(** [_moauthFormEncode] of the moauth library. *)
Variable _moauthFormEncode : list cups_option_t -> string.

(** libcups: [httpSeparateURI], the host, port and resource of a URI. *)
Variable httpSeparateURI : string -> string * Z * string.

(** Whether the platform-specific end of the function, which hands the
    URL to [LSOpenCFURLRef] or to a spawned [xdg-open], leaves [status]
    at 1. *)
Variable open_url : string -> bool.

(** The text [snprintf] writes for the authorization URL. *)
Definition moauthAuthorize_url (host : string) (port : Z)
  (resource formdata : string) : string :=
  "https://" +:+ host +:+ ":" +:+ pretty port +:+ resource
  +:+ (if strchr resource "?" then "&" else "?") +:+ formdata.

(** The form variables [moauthAuthorize] puts in the authorization URL. *)
Definition moauthAuthorize_vars (redirect_uri client_id : string)
  (state code_verifier scope : option string)
  : list cups_option_t :=
  let vars := cupsAddOption "response_type" (Some "code") [] in
  let vars := cupsAddOption "client_id" (Some client_id) vars in
  let vars := cupsAddOption "redirect_uri" (Some redirect_uri) vars in
  let vars := if is_null scope then vars
              else cupsAddOption "scope" scope vars in
  let vars := if is_null state then vars
              else cupsAddOption "state" state vars in
  match code_verifier with
  | Some code_verifier =>
      let sha256 := cupsHashData code_verifier in
      let code_challenge := httpEncode64_2 64 sha256 in
      cupsAddOption "code_challenge" (Some code_challenge) vars
  | None => vars
  end.

(** [moauthAuthorize()]: 1 on success, 0 on error, with the connection
    object as the call leaves it and the URL handed to the platform. *)
Definition moauthAuthorize (server : option moauth_t)
  (redirect_uri client_id state code_verifier scope : option string)
  : Z * option moauth_t * option string :=
  match server, redirect_uri, client_id with
  | Some server, Some redirect_uri, Some client_id =>
      let '(host, port, resource) :=
        httpSeparateURI (authorization_endpoint server) in
      let vars := moauthAuthorize_vars redirect_uri client_id state
                    code_verifier scope in
      let formdata := _moauthFormEncode vars in
      let url := moauthAuthorize_url host port resource formdata in
      if 2048 <=? Z.of_nat (String.length url) then
        (0, Some (set_error "Unable to create authorization URL." server), None)
      else if open_url url then (1, Some server, Some url)
      else (0, Some (set_error "Unable to open authorization URL." server),
            Some url)
  | Some server, _, _ =>
      (0, Some (set_error "Bad arguments to function." server), None)
  | None, _, _ => (0, None, None)
  end.

End ClientHelper.

(** ** Exchanges of a grant code by workers running in parallel *)

(** [do_token] takes no lock itself: on the [authorization_code] path the
    shared registries are reached through [moauthdFindApplication],
    [moauthdFindToken], [moauthdCreateToken] and [moauthdDeleteToken], one
    call after the other.  A worker thread is followed from one of these
    calls to the next; what lies in between reads the thread's own
    variables only.  Each thread has its own connection, so its own client
    object and events; the server object is shared. *)

Record exchange := {
  x_client_id : string;
  x_redirect_uri : option string;
  x_code : string;
  x_verifier : option string
}.

(** The form variables of the request of an exchange. *)
Definition exchange_body (x : exchange) : list cups_option_t :=
  [("grant_type", "authorization_code"); ("client_id", x_client_id x);
   ("code", x_code x)]
  ++ match x_redirect_uri x with Some u => [("redirect_uri", u)] | None => [] end
  ++ match x_verifier x with Some v => [("code_verifier", v)] | None => [] end.

(** Where a thread is in [do_token]: the call it makes next, with the
    local variables set so far. *)
Inductive pc :=
| AtFindApplication
| AtFindToken (app : ptr * moauthd_application_t)
| AtDeleteExpired (grant_token : moauthd_token_t)
| AtCreateToken (app : ptr * moauthd_application_t) (grant_token : moauthd_token_t)
| AtDeleteToken (grant_token access_token : moauthd_token_t)
| Returned (value : Z)
| Faulted.

Section Exchange.

Variable cupsHashData : string -> list Z.
Variable httpEncode64_2 : Z -> list Z -> string.
Variable _moauthJSONEncode : list cups_option_t -> option string.

Definition returning (m : M Z) : M pc :=
  v <- m ;; ret (Returned v).

(** One call into a registry and the code of [do_token] up to the next
    one. *)
Definition exchange_step (env : environment) (x : exchange) (p : pc) : M pc :=
  match p with
  | AtFindApplication =>
      server <- get_server ;;
      match moauthdFindApplication server (x_client_id x) (x_redirect_uri x) with
      | None =>
          returning
            ((if is_null (x_redirect_uri x) then
                moauthdLogc MOAUTHD_LOGLEVEL_ERROR
                  "Bad client_id in token request."
              else
                moauthdLogc MOAUTHD_LOGLEVEL_ERROR
                  "Bad client_id/redirect_uri in token request.") ;;
             bad_request env)
      | Some app => ret (AtFindToken app)
      end
  | AtFindToken app =>
      grant_token <- moauthdFindToken (x_code x) ;;
      match grant_token with
      | None =>
          returning
            (moauthdLogc MOAUTHD_LOGLEVEL_ERROR "Bad code in token request." ;;
             bad_request env)
      | Some grant_token =>
          if negb (bool_decide (application grant_token = Some app.1)) then
            returning
              (moauthdLogc MOAUTHD_LOGLEVEL_ERROR
                 "Bad client_id or redirect_uri in token request." ;;
               bad_request env)
          else if expires grant_token <=? now env then
            moauthdLogc MOAUTHD_LOGLEVEL_ERROR "Grant token has expired." ;;
            ret (AtDeleteExpired grant_token)
          else
            verified <- do_token_verify cupsHashData httpEncode64_2
                          grant_token (x_verifier x) ;;
            if negb verified then returning (bad_request env)
            else ret (AtCreateToken app grant_token)
      end
  | AtDeleteExpired grant_token =>
      returning (moauthdDeleteToken grant_token ;; bad_request env)
  | AtCreateToken app grant_token =>
      access_token <- moauthdCreateToken env MOAUTHD_TOKTYPE_ACCESS
                        (Some app.1) (user grant_token) (scopes grant_token) ;;
      match access_token with
      | None =>
          returning
            (moauthdLogc MOAUTHD_LOGLEVEL_ERROR
               "Unable to create access token." ;;
             bad_request env)
      | Some access_token => ret (AtDeleteToken grant_token access_token)
      end
  | AtDeleteToken grant_token access_token =>
      returning
        (moauthdDeleteToken grant_token ;;
         do_token_respond _moauthJSONEncode env (Some access_token))
  | Returned v => ret (Returned v)
  | Faulted => ret Faulted
  end.

(** A thread left alone until it returns: four calls at most. *)
Definition exchange_alone (env : environment) (x : exchange) : M Z :=
  p <- exchange_step env x AtFindApplication ;;
  p <- exchange_step env x p ;;
  p <- exchange_step env x p ;;
  p <- exchange_step env x p ;;
  match p with
  | Returned v => ret v
  | _ => fun w => Crash w
  end.

Record thread := {
  th_env : environment;
  th_exchange : exchange;
  th_pc : pc;
  th_client : moauthd_client_t;
  th_events : list event
}.

Definition new_thread (env : environment) (x : exchange) : thread :=
  {| th_env := env; th_exchange := x; th_pc := AtFindApplication;
     th_client := new_client; th_events := [] |}.

(** The thread of an exchange at [p], with the client object and the
    events of [w]. *)
Definition thread_at (env : environment) (x : exchange) (p : pc) (w : world)
  : thread :=
  {| th_env := env; th_exchange := x; th_pc := p; th_client := w_client w;
     th_events := w_events w |}.

(** A thread makes its next call on the shared server object. *)
Definition thread_step (server : moauthd_server_t) (t : thread)
  : moauthd_server_t * thread :=
  match exchange_step (th_env t) (th_exchange t) (th_pc t)
          {| w_server := server; w_client := th_client t;
             w_events := th_events t |} with
  | Done p w =>
      (w_server w,
       {| th_env := th_env t; th_exchange := th_exchange t; th_pc := p;
          th_client := w_client w; th_events := w_events w |})
  | Crash w =>
      (w_server w,
       {| th_env := th_env t; th_exchange := th_exchange t; th_pc := Faulted;
          th_client := w_client w; th_events := w_events w |})
  end.

(** The server and its worker threads; a schedule names, call after call,
    the thread that goes next. *)
Definition system : Type := moauthd_server_t * list thread.

Definition system_step (sys : system) (i : nat) : system :=
  match sys.2 !! i with
  | Some t =>
      let '(server, t') := thread_step sys.1 t in
      (server, <[i := t']> sys.2)
  | None => sys
  end.

Definition run (schedule : list nat) (sys : system) : system :=
  foldl system_step sys schedule.

End Exchange.

(** The schedule that lets each of [n] threads make its four calls before
    the next thread starts. *)
Definition one_by_one (n : nat) : list nat :=
  flat_map (fun i => [i; i; i; i]) (seq 0 n).

(** The status codes of the responses among the events. *)
Definition statuses (events : list event) : list http_status_t :=
  omap (fun e => match e with
                 | Respond code _ _ _ => Some code
                 | _ => None
                 end) events.

(** The calls of the Authenticator among the events. *)
Definition authentications (events : list event) : list event :=
  List.filter (fun e => match e with Authenticate _ _ => true | _ => false end)
    events.

(** ** Exchanges handled one after the other *)

Section Turns.

Variable cupsHashData : string -> list Z.
Variable httpEncode64_2 : Z -> list Z -> string.
Variable _moauthJSONEncode : list cups_option_t -> option string.
Variable authenticates :
  moauthd_server_t -> option string -> option string -> bool.

(** One exchange on a connection of its own: the server it leaves and
    the status codes it answers with. *)
Definition turn (server : moauthd_server_t) (q : environment * exchange)
  : moauthd_server_t * list http_status_t :=
  let r := do_token cupsHashData httpEncode64_2 _moauthJSONEncode
             authenticates q.1 (Some (exchange_body q.2))
             {| w_server := server; w_client := new_client;
                w_events := [] |} in
  (w_server (final r), statuses (w_events (final r))).

(** The answers to exchanges none of which starts before the one before
    it has returned. *)
Fixpoint in_turn (server : moauthd_server_t)
  (qs : list (environment * exchange)) : list (list http_status_t) :=
  match qs with
  | [] => []
  | q :: qs' => (turn server q).2 :: in_turn (turn server q).1 qs'
  end.

End Turns.

(** ** A reference platform

    Concrete functions for what the daemon takes from its libraries, used
    for the examples and where a statement is about what the library
    computes: SHA-256 (FIPS 180-4) for [cupsHashData] with ["sha2-256"],
    base64 (RFC 4648, section 4) written into a buffer of a given size for
    [httpEncode64_2], a plain JSON object encoder, a password table. *)

Module Reference.

Definition w32 (z : Z) : Z := z mod 4294967296.
Definition add32 (a b : Z) : Z := w32 (a + b).
Definition rotr (n x : Z) : Z :=
  Z.lor (Z.shiftr x n) (w32 (Z.shiftl x (32 - n))).
Definition not32 (x : Z) : Z := 4294967295 - x.

(** The primes below 312, the first 64 of them. *)
Definition is_prime (n : nat) : bool :=
forallb (fun d => negb (Nat.eqb (n mod d) 0)) (seq 2 (n - 2)).

Definition primes : list Z :=
map Z.of_nat (List.filter is_prime (seq 2 310)).

(** The largest [r] below [2 ^ bits] (above what [r] holds already) whose
    cube is at most [n]. *)
Fixpoint cube_root (bits : nat) (n r : Z) : Z :=
match bits with
| O => r
| S bits' =>
    let r' := r + 2 ^ Z.of_nat bits' in
    cube_root bits' n (if r' * r' * r' <=? n then r' else r)
end.

(** The round constants: the first 32 bits of the fractional parts of the
    cube roots of the primes. *)
Definition K : list Z :=
map (fun p => w32 (cube_root 40 (p * 2 ^ 96) 0)) primes.

Definition state : Type := Z * Z * Z * Z * Z * Z * Z * Z.

(** The initial hash value: the first 32 bits of the fractional parts of
    the square roots of the first eight primes. *)
Definition H0 : state :=
let h := fun i : nat => w32 (Z.sqrt (nth i primes 0 * 2 ^ 64)) in
(h 0%nat, h 1%nat, h 2%nat, h 3%nat, h 4%nat, h 5%nat, h 6%nat, h 7%nat).

Definition bytes_of_string (s : string) : list Z :=
  map byte_of (list_ascii_of_string s).

(** The message, the bit 1, zeros up to 56 modulo 64, the bit length. *)
Definition pad (msg : list Z) : list Z :=
  let n := Z.of_nat (length msg) in
  let zeros := Z.to_nat ((55 - n) mod 64) in
  let bits := n * 8 in
  msg ++ [128] ++ repeat 0 zeros
  ++ map (fun i => Z.shiftr bits (8 * (7 - Z.of_nat i)) mod 256) (seq 0 8).

Fixpoint words (n : nat) (bytes : list Z) : list Z :=
  match n, bytes with
  | S n', a :: b :: c :: d :: rest =>
      (((a * 256 + b) * 256 + c) * 256 + d) :: words n' rest
  | _, _ => []
  end.

Fixpoint blocks (n : nat) (bytes : list Z) : list (list Z) :=
  match n, bytes with
  | S n', _ :: _ => words 16 bytes :: blocks n' (drop 64 bytes)
  | _, _ => []
  end.

Definition sigma0 (x : Z) := Z.lxor (Z.lxor (rotr 7 x) (rotr 18 x)) (Z.shiftr x 3).
Definition sigma1 (x : Z) := Z.lxor (Z.lxor (rotr 17 x) (rotr 19 x)) (Z.shiftr x 10).
Definition Sigma0 (x : Z) := Z.lxor (Z.lxor (rotr 2 x) (rotr 13 x)) (rotr 22 x).
Definition Sigma1 (x : Z) := Z.lxor (Z.lxor (rotr 6 x) (rotr 11 x)) (rotr 25 x).
Definition Ch (x y z : Z) := Z.lxor (Z.land x y) (Z.land (not32 x) z).
Definition Maj (x y z : Z) :=
  Z.lxor (Z.lxor (Z.land x y) (Z.land x z)) (Z.land y z).

(** The message schedule: [n] more words after the ones in [w]. *)
Fixpoint schedule (n : nat) (w : list Z) : list Z :=
  match n with
  | O => w
  | S n' =>
      let i := length w in
      let at_ k := nth (i - k) w 0 in
      schedule n'
        (w ++ [add32 (add32 (sigma1 (at_ 2%nat)) (at_ 7%nat))
                     (add32 (sigma0 (at_ 15%nat)) (at_ 16%nat))])
  end.

Definition round (st : state) (kw : Z * Z) : state :=
  let '(a, b, c, d, e, f, g, h) := st in
  let t1 := add32 (add32 (add32 h (Sigma1 e)) (Ch e f g)) (add32 kw.1 kw.2) in
  let t2 := add32 (Sigma0 a) (Maj a b c) in
  (add32 t1 t2, a, b, c, add32 d t1, e, f, g).

Definition compress (st : state) (block : list Z) : state :=
  let '(a, b, c, d, e, f, g, h) := st in
  let '(a', b', c', d', e', f', g', h') :=
    foldl round st (zip K (schedule 48 block)) in
  (add32 a a', add32 b b', add32 c c', add32 d d',
   add32 e e', add32 f f', add32 g g', add32 h h').

Definition word_bytes (x : Z) : list Z :=
  [Z.shiftr x 24 mod 256; Z.shiftr x 16 mod 256; Z.shiftr x 8 mod 256; x mod 256].

Definition state_bytes (st : state) : list Z :=
  let '(a, b, c, d, e, f, g, h) := st in
  word_bytes a ++ word_bytes b ++ word_bytes c ++ word_bytes d
  ++ word_bytes e ++ word_bytes f ++ word_bytes g ++ word_bytes h.

Definition sha256 (msg : list Z) : list Z :=
  let padded := pad msg in
  state_bytes (foldl compress H0 (blocks (length padded) padded)).

(** [cupsHashData("sha2-256", ...)] on a C string. *)
Definition cupsHashData (v : string) : list Z := sha256 (bytes_of_string v).

Definition base64 : string :=
  "ABCDEFGHIJKLMNOPQRSTUVWXYZabcdefghijklmnopqrstuvwxyz0123456789+/".

Definition base64_char (i : Z) : ascii :=
  default "A"%char (String.get (Z.to_nat i) base64).

(** All of the base64 text of the bytes, padded with [=]. *)
Fixpoint encode64 (input : list Z) : list ascii :=
  match input with
  | [] => []
  | [a] =>
      [base64_char (Z.shiftr a 2);
       base64_char (Z.land (Z.shiftl a 4) 63); "="; "="]%char
  | [a; b] =>
      [base64_char (Z.shiftr a 2);
       base64_char (Z.land (Z.lor (Z.shiftl a 4) (Z.shiftr b 4)) 63);
       base64_char (Z.land (Z.shiftl b 2) 63); "="]%char
  | a :: b :: c :: rest =>
      [base64_char (Z.shiftr a 2);
       base64_char (Z.land (Z.lor (Z.shiftl a 4) (Z.shiftr b 4)) 63);
       base64_char (Z.land (Z.lor (Z.shiftl b 2) (Z.shiftr c 6)) 63);
       base64_char (Z.land c 63)]
      ++ encode64 rest
  end.

(** [httpEncode64_2]: the characters that fit in [outlen] bytes with the
    terminating NUL. *)
Definition httpEncode64_2 (outlen : Z) (input : list Z) : string :=
  string_of_list_ascii (take (Z.to_nat (outlen - 1)) (encode64 input)).

(** The 6-bit value of a base64 character. *)
Definition base64_value (c : ascii) : option Z :=
  let n := byte_of c in
  if (65 <=? n) && (n <=? 90) then Some (n - 65)
  else if (97 <=? n) && (n <=? 122) then Some (n - 71)
  else if (48 <=? n) && (n <=? 57) then Some (n + 4)
  else if n =? 43 then Some 62
  else if n =? 47 then Some 63
  else None.

Fixpoint base64_values (s : string) : list Z :=
  match s with
  | String c s' =>
      match base64_value c with
      | Some v => v :: base64_values s'
      | None => []
      end
  | EmptyString => []
  end.

Fixpoint decode64 (n : nat) (values : list Z) : list Z :=
  match n, values with
  | S n', a :: b :: c :: d :: rest =>
      [a * 4 + Z.shiftr b 4; (b mod 16) * 16 + Z.shiftr c 2; (c mod 4) * 64 + d]
      ++ decode64 n' rest
  | _, [a; b; c] => [a * 4 + Z.shiftr b 4; (b mod 16) * 16 + Z.shiftr c 2]
  | _, [a; b] => [a * 4 + Z.shiftr b 4]
  | _, _ => []
  end.

Fixpoint until_nul (bytes : list Z) : list Z :=
  match bytes with
  | b :: rest => if b =? 0 then [] else b :: until_nul rest
  | [] => []
  end.

(** [httpDecode64_2] into a buffer read as a C string. *)
Definition httpDecode64_2 (input : string) : string :=
  let values := base64_values input in
  string_of_list_ascii
    (map (fun b => ascii_of_N (Z.to_N b))
       (until_nul (decode64 (length values) values))).

(** A JSON object of string members. *)
Definition _moauthJSONEncode (vars : list cups_option_t) : option string :=
  Some ("{"
        +:+ String.concat ","
              (map (fun kv : cups_option_t =>
                      dquote +:+ kv.1 +:+ dquote +:+ ":"
                      +:+ dquote +:+ kv.2 +:+ dquote)
                 vars)
        +:+ "}").

(** The users of the machine: name, uid, gid, supplementary groups. *)
Definition passwd : list (string * (Z * Z * list Z)) :=
  [("alice", (1000, 1000, [27])); ("bob", (1001, 1001, []))].

Definition getpwnam (user : string) : option (Z * Z) :=
  (fun e : string * (Z * Z * list Z) => (e.2.1.1, e.2.1.2))
    <$> List.find (fun e => String.eqb e.1 user) passwd.

(** [getgrouplist]: 0 and the groups, or -1 when they do not fit. *)
Definition getgrouplist (user : string) (gid ngroups : Z) : Z * list Z :=
  match List.find (fun e : string * (Z * Z * list Z) => String.eqb e.1 user)
          passwd with
  | Some e =>
      let groups := gid :: e.2.2 in
      if Z.of_nat (length groups) <=? ngroups then (0, groups) else (-1, [])
  | None => if 1 <=? ngroups then (0, [gid]) else (-1, [])
  end.

(** Authentication against the [TestPassword] of the configuration. *)
Definition authenticates (server : moauthd_server_t)
  (username password : option string) : bool :=
  match username, password with
  | Some u, Some p =>
      bool_decide (test_password server = Some p)
      && negb (is_null (getpwnam u))
  | _, _ => false
  end.

End Reference.

(** ** Notions the statements use *)

Fixpoint all_digits (s : string) : bool :=
  match s with
  | EmptyString => true
  | String c s' => isdigit c && all_digits s'
  end.

(** A bare non-negative integer: decimal digits, at least one, and nothing
    else. *)
Definition bare_integer (value : string) : bool :=
  negb (is_empty value) && all_digits value.


(** The option [cupsAddOption] adds for a value that may be [NULL]: none
    for [NULL]. *)
Definition optional (name : string) (value : option string)
  : list cups_option_t :=
  match value with
  | Some v => [(name, v)]
  | None => []
  end.

(** Every token of the store is kept under its own identifier. *)
Definition store_ok (m : gmap string moauthd_token_t) : Prop :=
  forall k t, m !! k = Some t -> token t = k.

(** The status codes a handler started in [w] has answered with. *)
Definition responses {A} (w : world) (r : result A) : list http_status_t :=
  statuses (drop (length (w_events w)) (w_events (final r))).



(** The PKCE check of [do_token] as a condition on the token and the
    [code_verifier] of the request: a token with a challenge asks for a
    verifier whose recomputed challenge is the stored one. *)
Definition pkce_accepts (cupsHashData : string -> list Z)
  (httpEncode64_2 : Z -> list Z -> string) (t : moauthd_token_t)
  (code_verifier : option string) : bool :=
  match challenge t with
  | None => true
  | Some stored =>
      match code_verifier with
      | Some v => bool_decide (httpEncode64_2 45 (cupsHashData v) = stored)
      | None => false
      end
  end.

(** The caller of /introspect is authenticated and, when an
    [IntrospectGroup] is configured, a member of it. *)
Definition introspect_allowed (server : moauthd_server_t)
  (client : moauthd_client_t) : bool :=
  negb (is_empty (remote_user client))
  && ((introspect_group server =? GID_NONE)
      || existsb (fun g => g =? introspect_group server) (remote_groups client)).

(** A request is refused: the handler answers 400 and nothing else, and
    leaves the server and client objects as they were. *)
Definition refused (w : world) (r : result Z) : Prop :=
  exists v ev,
    r = Done v {| w_server := w_server w; w_client := w_client w;
                  w_events := w_events w ++ ev |}
    /\ statuses ev = [HTTP_STATUS_BAD_REQUEST].

(** The access token [do_token] issues for the token [t] found for the
    code. *)
Definition access_token_for (env : environment) (server : moauthd_server_t)
  (app : ptr) (t : moauthd_token_t) (id : string) (uid gid : Z)
  : moauthd_token_t :=
  {| type := MOAUTHD_TOKTYPE_ACCESS; token := id; challenge := None;
     user := user t; application := Some app; scopes := scopes t;
     uid := uid; gid := gid; created := now env;
     expires := now env + max_token_life server |}.


(** The exchange of the token [t] went ahead from [w]: the creation of
    the access token was tried.  When it is created, it enters the store
    and [t] leaves it, and the answer is 200 with the encoded object, or 400
    when the object cannot be encoded; when it is not, the answer is 400
    and the store is as it was. *)
Definition exchanged (_moauthJSONEncode : list cups_option_t -> option string)
  (env : environment) (w : world) (app : ptr) (t : moauthd_token_t)
  (r : result Z) : Prop :=
  match new_token env with
  | Some (id, uid, gid) =>
      let server :=
        set_tokens
          (delete (token t)
             (<[id := access_token_for env (w_server w) app t id uid gid]>
                (tokens (w_server w))))
          (w_server w) in
      match _moauthJSONEncode
              [("access_token", id);
               ("expires_in", pretty (max_token_life (w_server w)));
               ("token_type", "access")] with
      | Some data =>
          r = Done (if respond_ok env then if write_short env then 0 else 1
                    else 0)
                {| w_server := server; w_client := w_client w;
                   w_events :=
                     w_events w
                     ++ Respond HTTP_STATUS_OK (Some "application/json") None
                          (Z.of_nat (String.length data))
                        :: (if respond_ok env then [Write data] else []) |}
      | None =>
          r = Done (Z.b2z (respond_ok env))
                {| w_server := server; w_client := w_client w;
                   w_events :=
                     w_events w
                     ++ [Logc MOAUTHD_LOGLEVEL_ERROR
                           "Unable to create JSON response.";
                         Respond HTTP_STATUS_BAD_REQUEST None None 0] |}
      end
  | None =>
      r = Done (Z.b2z (respond_ok env))
            {| w_server := w_server w; w_client := w_client w;
               w_events :=
                 w_events w
                 ++ [Logc MOAUTHD_LOGLEVEL_ERROR
                       "Unable to create access token.";
                     Respond HTTP_STATUS_BAD_REQUEST None None 0] |}
  end.

(** ** A sample installation

    One registered application, the test password, a user with a pending
    grant bound to the PKCE challenge of RFC 7636, appendix B. *)

Module Sample.

Definition server0 : moauthd_server_t :=
  set_test_password (Some "secret")
    (moauthdAddApplication default_server "app1" "https://app/cb"
       (Some "App One") None None None).1.

Definition code_verifier : string :=
  "dBjftJeZ4CVP-mB92K27uhbUJU1p1r_wW1gFWFOEjXk".

(** The challenge as [moauthAuthorize] derives it on the reference
    platform. *)
Definition code_challenge : string :=
  Reference.httpEncode64_2 64 (Reference.cupsHashData code_verifier).

Definition grant (kind : moauthd_toktype_t) : moauthd_token_t :=
  {| type := kind; token := "G1"; challenge := Some code_challenge;
     user := Some "alice"; application := Some 1%nat;
     scopes := Some "private shared"; uid := 1000; gid := 1000;
     created := 1000; expires := 1300 |}.

(** The server with the grant issued. *)
Definition server1 : moauthd_server_t :=
  set_tokens {[ "G1" := grant MOAUTHD_TOKTYPE_GRANT ]} server0.

Definition env (id : string) : environment :=
  {| now := 1100; new_token := Some (id, 1000, 1000);
     respond_ok := true; write_short := false |}.

Definition world_of (server : moauthd_server_t) : world :=
  {| w_server := server; w_client := new_client; w_events := [] |}.

(** A client object after Bearer or Basic authentication of alice. *)
Definition alice : moauthd_client_t :=
  {| remote_user := "alice"; remote_uid := 1000; remote_groups := [1000; 27];
     remote_token := None |}.

Definition do_token : environment -> option (list cups_option_t) -> M Z :=
  do_token Reference.cupsHashData Reference.httpEncode64_2
    Reference._moauthJSONEncode Reference.authenticates.

Definition do_introspect : environment -> option (list cups_option_t) -> M Z :=
  do_introspect Reference._moauthJSONEncode.

Definition moauthdRunClient_authorization : environment -> string -> M bool :=
  moauthdRunClient_authorization Reference.httpDecode64_2
    Reference.authenticates Reference.getpwnam Reference.getgrouplist.

(** The exchange of the grant, and two worker threads that each received
    it. *)
Definition exchange_G1 : exchange :=
  {| x_client_id := "app1"; x_redirect_uri := None; x_code := "G1";
     x_verifier := Some code_verifier |}.

Definition two_threads : system :=
  (server1, [new_thread (env "A1") exchange_G1;
             new_thread (env "A2") exchange_G1]).

Definition run : list nat -> system -> system :=
  run Reference.cupsHashData Reference.httpEncode64_2
    Reference._moauthJSONEncode.

End Sample.

(** ** Notions of the statements about the configuration and the registry *)

(** The number a string of decimal digits writes, 0 for no digit. *)
Definition decimal (d : string) : Z := (digits 0 0 d).1.1.

(** The unit letters of a time value, with the seconds of each. *)
Definition time_units : list (string * Z) :=
  [("m", 60); ("M", 60); ("h", 3600); ("H", 3600);
   ("d", 86400); ("D", 86400); ("w", 604800); ("W", 604800)].

(** The array of applications is in the order of [compare_applications],
    every element at an address of its own. *)
Definition registry_ok (apps : list (ptr * moauthd_application_t)) : Prop :=
  StronglySorted (fun a b => compare_applications a.2 b.2 <= 0) apps
  /\ NoDup apps.*1.

(** ** Notions of the statements about the Authorization header *)

(** The world in which the branches of the Authorization header run: the
    identity of the previous request on the connection is reset. *)
Definition anonymous (w : world) : world :=
  {| w_server := w_server w;
     w_client := set_identity EmptyString (to_u32 (-1)) (w_client w);
     w_events := w_events w |}.

(** What [moauthdRunClient] does once a branch has run: without an
    identity the request is answered 401 and the loop is left. *)
Definition identity_required (r : result unit) : result bool :=
  match r with
  | Done _ w =>
      if is_empty (remote_user (w_client w)) then
        Done false
          {| w_server := w_server w; w_client := w_client w;
             w_events :=
               w_events w ++ [Respond HTTP_STATUS_UNAUTHORIZED None None 0] |}
      else Done true w
  | Crash w => Crash w
  end.

(** The groups of the client object after [getgrouplist]. *)
Definition groups_of (getgrouplist : string -> Z -> Z -> Z * list Z)
  (user : string) (gid : Z) : list Z :=
  if (getgrouplist user gid 100).1 =? 0
  then (getgrouplist user gid 100).2 else [].

(** ** [client.c]: the /authorize endpoint and the request loop *)

Definition HTTP_STATUS_CONTINUE : http_status_t := 100.
Definition HTTP_STATUS_MOVED_TEMPORARILY : http_status_t := 302.
Definition HTTP_STATUS_NOT_FOUND : http_status_t := 404.
Definition HTTP_STATUS_EXPECTATION_FAILED : http_status_t := 417.

(** [http_state_t] of libcups, in the order of the array [states[]] of
    [moauthdRunClient], which starts at [HTTP_STATE_WAITING]. *)
Inductive http_state_t :=
| HTTP_STATE_ERROR
| HTTP_STATE_WAITING
| HTTP_STATE_OPTIONS
| HTTP_STATE_GET
| HTTP_STATE_GET_SEND
| HTTP_STATE_HEAD
| HTTP_STATE_POST
| HTTP_STATE_POST_RECV
| HTTP_STATE_POST_SEND
| HTTP_STATE_PUT
| HTTP_STATE_PUT_RECV
| HTTP_STATE_DELETE
| HTTP_STATE_TRACE
| HTTP_STATE_CONNECT
| HTTP_STATE_STATUS
| HTTP_STATE_UNKNOWN_METHOD
| HTTP_STATE_UNKNOWN_VERSION.

#[global] Instance http_state_eq_dec : EqDecision http_state_t.
Proof. solve_decision. Defined.

(** The value of a state as an [int], for the [%d] of a message. *)
Definition state_number (s : http_state_t) : Z :=
  match s with
  | HTTP_STATE_ERROR => -1
  | HTTP_STATE_WAITING => 0
  | HTTP_STATE_OPTIONS => 1
  | HTTP_STATE_GET => 2
  | HTTP_STATE_GET_SEND => 3
  | HTTP_STATE_HEAD => 4
  | HTTP_STATE_POST => 5
  | HTTP_STATE_POST_RECV => 6
  | HTTP_STATE_POST_SEND => 7
  | HTTP_STATE_PUT => 8
  | HTTP_STATE_PUT_RECV => 9
  | HTTP_STATE_DELETE => 10
  | HTTP_STATE_TRACE => 11
  | HTTP_STATE_CONNECT => 12
  | HTTP_STATE_STATUS => 13
  | HTTP_STATE_UNKNOWN_METHOD => 14
  | HTTP_STATE_UNKNOWN_VERSION => 15
  end.

(** [states[state]]; the array has no entry for [HTTP_STATE_ERROR], for
    which the loop is left before the array is read. *)
Definition states (s : http_state_t) : string :=
  match s with
  | HTTP_STATE_ERROR => EmptyString
  | HTTP_STATE_WAITING => "WAITING"
  | HTTP_STATE_OPTIONS => "OPTIONS"
  | HTTP_STATE_GET => "GET"
  | HTTP_STATE_GET_SEND => "GET_SEND"
  | HTTP_STATE_HEAD => "HEAD"
  | HTTP_STATE_POST => "POST"
  | HTTP_STATE_POST_RECV => "POST_RECV"
  | HTTP_STATE_POST_SEND => "POST_SEND"
  | HTTP_STATE_PUT => "PUT"
  | HTTP_STATE_PUT_RECV => "PUT_RECV"
  | HTTP_STATE_DELETE => "DELETE"
  | HTTP_STATE_TRACE => "TRACE"
  | HTTP_STATE_CONNECT => "CONNECT"
  | HTTP_STATE_STATUS => "STATUS"
  | HTTP_STATE_UNKNOWN_METHOD => "UNKNOWN_METHOD"
  | HTTP_STATE_UNKNOWN_VERSION => "UNKNOWN_VERSION"
  end.

(** [errno] values of Linux. *)
Definition EPIPE : Z := 32.
Definition ETIMEDOUT : Z := 110.

(** [strstr(s, sub) != NULL]. *)
Fixpoint strstr (s sub : string) : bool :=
  String.prefix sub s
  || match s with
     | String _ s' => strstr s' sub
     | EmptyString => false
     end.

(** [p = strrchr(s, c)]: the string before the last [c] and the one
    after it, when there is one. *)
Fixpoint split_at_last (c : ascii) (s : string) : option (string * string) :=
  match s with
  | EmptyString => None
  | String x s' =>
      match split_at_last c s' with
      | Some (a, b) => Some (String x a, b)
      | None => if Ascii.eqb x c then Some (EmptyString, s') else None
      end
  end.

(** [atoi()]. *)
Definition atoi (s : string) : Z := to_int (strtol s).1.

(** [s[0] == c]. *)
Definition starts_with (c : ascii) (s : string) : bool :=
  match s with
  | String x _ => Ascii.eqb x c
  | EmptyString => false
  end.

(** [s + n], for [n] up to the length of [s]. *)
Fixpoint string_drop (n : nat) (s : string) : string :=
  match n, s with
  | S n', String _ s' => string_drop n' s'
  | _, _ => s
  end.

(** [if (p > s && p[-1] == '.') p --; *p = 0] for [p] at the end of [s]:
    [s] without one dot at its end. *)
Fixpoint strip_dot (s : string) : string :=
  match s with
  | EmptyString => EmptyString
  | String c EmptyString => if Ascii.eqb c "." then EmptyString else s
  | String c s' => String c (strip_dot s')
  end.

(** The path and the query string [moauthdRunClient] leaves in
    [client->path_info] and [client->query_string] for a request target:
    a target in absolute form loses the [uri_prefix] of the server, and
    the target is cut at its first question mark. *)
Definition request_target (uri_prefix path_info : string)
  : string * option string :=
  let path_info :=
    if negb (starts_with "/" path_info)
       && String.prefix uri_prefix path_info
       && bool_decide (String.get (String.length uri_prefix) path_info
                       = Some "/"%char)
    then string_drop (String.length uri_prefix) path_info
    else path_info in
  match split_at "?" path_info with
  | Some (path, query) => (path, Some query)
  | None => (path_info, None)
  end.

(** The test of the request path: [true] when the request is refused. *)
Definition bad_request_uri (request_method : http_state_t) (path_info : string)
  : bool :=
  (negb (starts_with "/" path_info) || strstr path_info "/../")
  && (negb (strcmp path_info "*" =? 0)
      || negb (bool_decide (request_method = HTTP_STATE_OPTIONS))).

(** The host and the port of a [Host:] field as [moauthdRunClient] takes
    them apart, in the 300 bytes of [host_value]. *)
Definition host_value (field : string) : string * Z :=
  let value := substring 0 299 field in
  match split_at_last ":" value with
  | Some (host, port) => (strip_dot host, atoi port)
  | None => (strip_dot value, 443)
  end.

(** What the HTTP connection delivers for one turn of the request loop:
    the state [httpReadRequest] ends the wait with and the target it
    stores, [httpError], the status [httpUpdate] ends with, the [Host] and
    [Authorization] fields, [httpGetExpect] (0 when there is none), and the
    message body as [_moauthCopyMessageBody] and [_moauthFormDecode] give
    its form variables. *)
Record request := {
  rq_state : http_state_t;
  rq_error : Z;
  rq_path_info : string;
  rq_update : http_status_t;
  rq_host : string;
  rq_authorization : string;
  rq_expect : http_status_t;
  rq_body : option (list cups_option_t)
}.

(** The four formats [do_authorize] prints the login form with: the form
    up to its hidden fields for the client, the redirect URI, the response
    type and the scope; the hidden field of the state; the hidden field of
    the code challenge; the end of the form. *)
Inductive authorize_format :=
| FORM_OPEN
| FORM_STATE
| FORM_CODE_CHALLENGE
| FORM_CLOSE.

(** [token->challenge = strdup(challenge)] on a token of the store. *)
Definition set_challenge (c : option string) (t : moauthd_token_t)
  : moauthd_token_t :=
  {| type := type t; token := token t; challenge := c; user := user t;
     application := application t; scopes := scopes t; uid := uid t;
     gid := gid t; created := created t; expires := expires t |}.

Section Requests.

Variable cupsHashData : string -> list Z.
Variable httpEncode64_2 : Z -> list Z -> string.
Variable httpDecode64_2 : string -> string.
Variable _moauthJSONEncode : list cups_option_t -> option string.
Variable authenticates :
  moauthd_server_t -> option string -> option string -> bool.
Variable getpwnam : string -> option (Z * Z).
Variable getgrouplist : string -> Z -> Z -> Z * list Z.

(** [_moauthFormDecode] of the moauth library on the query string. *)
Variable _moauthFormDecode : option string -> list cups_option_t.

(** What [moauthdHTMLHeader], [moauthdHTMLPrintf] and [moauthdHTMLFooter],
    declared in [moauthd.h], send for a title, for a format with its
    arguments, and at the end of a page. *)
Variable moauthdHTMLHeader : string -> string.
Variable moauthdHTMLPrintf : authorize_format -> list string -> string.
Variable moauthdHTMLFooter : string.

(** [moauthdGetFile], declared in [moauthd.h]: the resource of a path is
    sent for a method, and the status is returned. *)
Variable moauthdGetFile : http_state_t -> string -> M http_status_t.

Section Request.

Variable env : environment.

(** The test of the variables of an /authorize request, with the
    messages it logs; [method] is [NULL] for POST, which does not look at
    it. *)
Definition do_authorize_missing (client_id response_type method : option string)
  : M unit :=
  when (is_null client_id)
    (moauthdLogc MOAUTHD_LOGLEVEL_ERROR
       "Missing client_id in authorize request.") ;;
  match response_type with
  | None =>
      moauthdLogc MOAUTHD_LOGLEVEL_ERROR
        "Missing response_type in authorize request."
  | Some response_type =>
      if negb (strcmp response_type "code" =? 0) then
        moauthdLogc MOAUTHD_LOGLEVEL_ERROR
          "Bad response_type in authorize request."
      else
        match method with
        | Some method =>
            when (negb (strcmp method "S256" =? 0))
              (moauthdLogc MOAUTHD_LOGLEVEL_ERROR
                 ("Bad code_challenge_method " +:+ dquote +:+ method
                  +:+ dquote +:+ " in authorize request."))
        | None => ret tt
        end
  end.

(** The messages for an application that is not found. *)
Definition do_authorize_unknown (redirect_uri query_string : option string)
  : M Z :=
  (if is_null redirect_uri then
     moauthdLogc MOAUTHD_LOGLEVEL_ERROR "Bad client_id in authorize request."
   else
     moauthdLogc MOAUTHD_LOGLEVEL_ERROR
       "Bad client_id/redirect_uri in authorize request.") ;;
  moauthdLogc MOAUTHD_LOGLEVEL_DEBUG
    ("Query string was " +:+ dquote +:+ default "(null)" query_string
     +:+ dquote +:+ ".") ;;
  bad_request env.

(** [do_authorize()] for the request method, the query string of the
    target and the form variables of the message body; 1 on success, 0 on
    failure. *)
Definition do_authorize (request_method : http_state_t)
  (query_string : option string) (body : option (list cups_option_t)) : M Z :=
  match request_method with
  | HTTP_STATE_HEAD =>
      ok <- moauthdRespondClient env HTTP_STATUS_OK (Some "text/html") None 0 0 ;;
      ret (Z.b2z ok)
  | HTTP_STATE_GET =>
      let vars := _moauthFormDecode query_string in
      let client_id := cupsGetOption "client_id" vars in
      let redirect_uri := cupsGetOption "redirect_uri" vars in
      let response_type := cupsGetOption "response_type" vars in
      let scope := cupsGetOption "scope" vars in
      let state := cupsGetOption "state" vars in
      let challenge := cupsGetOption "code_challenge" vars in
      let method := cupsGetOption "code_challenge_method" vars in
      match client_id, response_type with
      | Some client_id', Some response_type' =>
          if negb (strcmp response_type' "code" =? 0)
             || match method with
                | Some m => negb (strcmp m "S256" =? 0)
                | None => false
                end
          then
            do_authorize_missing client_id response_type method ;;
            moauthdLogc MOAUTHD_LOGLEVEL_DEBUG
              ("Query string was " +:+ dquote +:+ default "(null)" query_string
               +:+ dquote +:+ ".") ;;
            bad_request env
          else
            server <- get_server ;;
            match moauthdFindApplication server client_id' redirect_uri with
            | None => do_authorize_unknown redirect_uri query_string
            | Some app =>
                ok <- moauthdRespondClient env HTTP_STATUS_OK
                        (Some "text/html") None 0 0 ;;
                if negb ok then ret 0
                else
                  let '{| redirect_uri := app_redirect_uri |} := app.2 in
                  emit (Write (moauthdHTMLHeader "Authorization")) ;;
                  emit (Write (moauthdHTMLPrintf FORM_OPEN
                                 [client_id'; app_redirect_uri; response_type';
                                  default "private shared" scope])) ;;
                  match state with
                  | Some state =>
                      emit (Write (moauthdHTMLPrintf FORM_STATE [state]))
                  | None => ret tt
                  end ;;
                  match challenge with
                  | Some challenge =>
                      emit (Write (moauthdHTMLPrintf FORM_CODE_CHALLENGE
                                     [challenge]))
                  | None => ret tt
                  end ;;
                  emit (Write (moauthdHTMLPrintf FORM_CLOSE [])) ;;
                  emit (Write moauthdHTMLFooter) ;;
                  ret 1
            end
      | _, _ =>
          do_authorize_missing client_id response_type method ;;
          moauthdLogc MOAUTHD_LOGLEVEL_DEBUG
            ("Query string was " +:+ dquote +:+ default "(null)" query_string
             +:+ dquote +:+ ".") ;;
          bad_request env
      end
  | HTTP_STATE_POST =>
      match body with
      | None => bad_request env
      | Some vars =>
          let client_id := cupsGetOption "client_id" vars in
          let redirect_uri := cupsGetOption "redirect_uri" vars in
          let response_type := cupsGetOption "response_type" vars in
          let scope := cupsGetOption "scope" vars in
          let state := cupsGetOption "state" vars in
          let username := cupsGetOption "username" vars in
          let password := cupsGetOption "password" vars in
          let challenge := cupsGetOption "code_challenge" vars in
          match client_id, response_type with
          | Some client_id', Some response_type' =>
              if negb (strcmp response_type' "code" =? 0) then
                do_authorize_missing client_id response_type None ;;
                bad_request env
              else
                server <- get_server ;;
                match moauthdFindApplication server client_id' redirect_uri with
                | None => do_authorize_unknown redirect_uri query_string
                | Some app =>
                    redirect_uri' <- deref redirect_uri ;;
                    let prefix := if strchr redirect_uri' "?" then "&"
                                  else "?" in
                    let state_part :=
                      match state with
                      | Some state => "&state=" +:+ state
                      | None => EmptyString
                      end in
                    ok <- (if is_null username || is_null password
                           then ret false
                           else moauthdAuthenticateUser authenticates
                                  username password) ;;
                    uri <-
                      (if negb ok then
                         ret (redirect_uri' +:+ prefix
                              +:+ "error=access_denied&error_description=Bad+username+or+password."
                              +:+ state_part)
                       else
                         created_token <-
                           moauthdCreateToken env MOAUTHD_TOKTYPE_GRANT
                             (Some app.1) username scope ;;
                         match created_token with
                         | None =>
                             ret (redirect_uri' +:+ prefix
                                  +:+ "error=server_error&error_description=Unable+to+create+grant."
                                  +:+ state_part)
                         | Some created_token =>
                             match challenge with
                             | Some _ =>
                                 server <- get_server ;;
                                 put_server
                                   (set_tokens
                                      (<[token created_token :=
                                           set_challenge challenge
                                             created_token]>
                                         (tokens server))
                                      server)
                             | None => ret tt
                             end ;;
                             ret (redirect_uri' +:+ prefix +:+ "code="
                                  +:+ token created_token +:+ state_part)
                         end) ;;
                    ok <- moauthdRespondClient env HTTP_STATUS_MOVED_TEMPORARILY
                            None (Some (substring 0 2047 uri)) 0 0 ;;
                    ret (Z.b2z ok)
                end
          | _, _ =>
              do_authorize_missing client_id response_type None ;;
              bad_request env
          end
      end
  | _ => ret 0
  end.

(** The [switch] on the request method at the end of a turn of the loop
    of [moauthdRunClient]: [false] when [done] is set. *)
Definition moauthdRunClient_dispatch (request_method : http_state_t)
  (path_info : string) (query_string : option string)
  (body : option (list cups_option_t)) : M bool :=
  match request_method with
  | HTTP_STATE_OPTIONS =>
      moauthdRespondClient env HTTP_STATUS_OK None None 0 0
  | HTTP_STATE_HEAD | HTTP_STATE_GET =>
      if strcmp path_info "/authorize" =? 0 then
        r <- do_authorize request_method query_string body ;;
        ret (negb (r =? 0))
      else
        status <- moauthdGetFile request_method path_info ;;
        ret (status <? HTTP_STATUS_BAD_REQUEST)
  | HTTP_STATE_POST =>
      if strcmp path_info "/authorize" =? 0 then
        r <- do_authorize request_method query_string body ;;
        ret (negb (r =? 0))
      else if strcmp path_info "/introspect" =? 0 then
        r <- do_introspect _moauthJSONEncode env body ;;
        ret (negb (r =? 0))
      else if strcmp path_info "/token" =? 0 then
        r <- do_token cupsHashData httpEncode64_2 _moauthJSONEncode
               authenticates env body ;;
        ret (negb (r =? 0))
      else
        moauthdRespondClient env HTTP_STATUS_NOT_FOUND None None 0 0 ;;
        ret false
  | _ =>
      moauthdLogc MOAUTHD_LOGLEVEL_DEBUG
        ("Unexpected HTTP state " +:+ pretty (state_number request_method)
         +:+ ".") ;;
      moauthdRespondClient env HTTP_STATUS_BAD_REQUEST None None 0 0 ;;
      ret false
  end.

(** The [Expect] field of a request: [false] when the loop is left
    because the interim response could not be sent. *)
Definition moauthdRunClient_expect (request_method : http_state_t)
  (expect : http_status_t) : M bool :=
  if negb (expect =? 0) && bool_decide (request_method = HTTP_STATE_POST) then
    if expect =? HTTP_STATUS_CONTINUE then
      moauthdRespondClient env HTTP_STATUS_CONTINUE None None 0 0
    else
      moauthdRespondClient env HTTP_STATUS_EXPECTATION_FAILED None None 0 0
  else ret true.

(** A turn of the loop once the request line gave a method, from the
    message that logs it to the end of the [switch]. *)
Definition moauthdRunClient_method (request_method : http_state_t)
  (rq : request) : M bool :=
  server <- get_server ;;
  let uri_prefix :=
    substring 0 299 ("https://" +:+ default "(null)" (name server) +:+ ":"
                     +:+ pretty (port server)) in
  moauthdLogc MOAUTHD_LOGLEVEL_INFO
    (states request_method +:+ " " +:+ rq_path_info rq) ;;
  let '(path_info, query_string) :=
    request_target uri_prefix (rq_path_info rq) in
  if bad_request_uri request_method path_info then
    moauthdLogc MOAUTHD_LOGLEVEL_ERROR
      ("Bad request URI " +:+ dquote +:+ path_info +:+ dquote +:+ ".") ;;
    moauthdRespondClient env HTTP_STATUS_BAD_REQUEST None None 0 0 ;;
    ret false
  else if negb (rq_update rq =? HTTP_STATUS_OK) then
    moauthdLogc MOAUTHD_LOGLEVEL_DEBUG "Problem getting request headers." ;;
    moauthdRespondClient env HTTP_STATUS_BAD_REQUEST None None 0 0 ;;
    ret false
  else
    server_name <- deref (name server) ;;
    let '(host, host_port) := host_value (rq_host rq) in
    if negb (strcasecmp host server_name =? 0)
       || negb (host_port =? port server) then
      moauthdLogc MOAUTHD_LOGLEVEL_DEBUG
        ("Bad Host: header value " +:+ dquote +:+ rq_host rq +:+ dquote
         +:+ " (expected " +:+ dquote +:+ server_name +:+ ":"
         +:+ pretty (port server) +:+ dquote +:+ ").") ;;
      moauthdRespondClient env HTTP_STATUS_BAD_REQUEST None None 0 0 ;;
      ret false
    else
      go <- moauthdRunClient_authorization httpDecode64_2 authenticates
              getpwnam getgrouplist env (rq_authorization rq) ;;
      if negb go then ret false
      else
        go <- moauthdRunClient_expect request_method (rq_expect rq) ;;
        if negb go then ret false
        else moauthdRunClient_dispatch request_method path_info query_string
               (rq_body rq).

(** One turn of the loop of [moauthdRunClient], from [httpReadRequest] to
    the end of the [switch]: [false] when the loop is left, by [break] or
    with [done] set.  The text of [strerror] is left out of the message for
    a bad request line. *)
Definition moauthdRunClient_request (rq : request) : M bool :=
  match rq_state rq with
  | HTTP_STATE_ERROR =>
      (if (rq_error rq =? EPIPE) || (rq_error rq =? ETIMEDOUT)
          || (rq_error rq =? 0)
       then moauthdLogc MOAUTHD_LOGLEVEL_ERROR "Client closed connection."
       else moauthdLogc MOAUTHD_LOGLEVEL_ERROR "Bad request line.") ;;
      ret false
  | HTTP_STATE_UNKNOWN_METHOD =>
      moauthdLogc MOAUTHD_LOGLEVEL_ERROR "Bad/unknown operation." ;;
      moauthdRespondClient env HTTP_STATUS_BAD_REQUEST None None 0 0 ;;
      ret false
  | HTTP_STATE_UNKNOWN_VERSION =>
      moauthdLogc MOAUTHD_LOGLEVEL_ERROR "Bad HTTP version." ;;
      moauthdRespondClient env HTTP_STATUS_BAD_REQUEST None None 0 0 ;;
      ret false
  | request_method => moauthdRunClient_method request_method rq
  end.

End Request.

(** [moauthdDeleteClient()], as far as it shows: the message it logs. *)
Definition moauthdDeleteClient : M unit :=
  moauthdLogc MOAUTHD_LOGLEVEL_INFO "Connection closed.".

(** [moauthdRunClient()] on the requests a peer sends, each with what
    the surroundings decide during it: the loop is left at the first turn
    that says so, and the client object is deleted. *)
Fixpoint moauthdRunClient (requests : list (environment * request)) : M unit :=
  match requests with
  | [] => ret tt
  | (env, rq) :: requests' =>
      go <- moauthdRunClient_request env rq ;;
      if go then moauthdRunClient requests' else moauthdDeleteClient
  end.

End Requests.

(** ** Notions of the statements about the request loop *)

(** The states for which a turn of the loop goes past the request
    line. *)
Definition is_method (s : http_state_t) : bool :=
  match s with
  | HTTP_STATE_ERROR | HTTP_STATE_UNKNOWN_METHOD
  | HTTP_STATE_UNKNOWN_VERSION => false
  | _ => true
  end.



(** ** [server.c]: the other directives of the configuration file *)









Section LoadConfigOther.

(** libc: [getgrnam], the [gr_gid] of a known group. *)
Variable getgrnam : string -> option Z.

(** libc: [open(value, O_WRONLY | O_CREAT | O_APPEND, 0600)]. *)
Variable open_log : string -> Z.

(** libc: [stat]: whether the path is a regular file, [None] when the
    call fails. *)
Variable stat : string -> option bool.



End LoadConfigOther.

(** ** The moauth library: opening the authorization page with [xdg-open] *)

Section XdgOpen.

(** libc: [posix_spawnp(&pid, "xdg-open", NULL, NULL, argv, environ)] for
    the URL in [argv[1]]: its return value and the process identifier it
    stores. *)
Variable posix_spawnp : string -> Z * Z.

(** libc: [waitpid(pid, &estatus, 0)]: its return value and the status it
    stores. *)
Variable waitpid : Z -> Z * Z.

(** The end of [moauthAuthorize] on the platforms other than macOS:
    whether [status] is still 1 after it. *)
Definition xdg_open (url : string) : bool :=
  let '(spawned, pid) := posix_spawnp url in
  if negb (spawned =? 0) then false
  else
    let '(waited, estatus) := waitpid pid in
    if negb (waited =? 0) then false
    else if negb (estatus =? 0) then false
    else true.

End XdgOpen.

(** ** The moauth library: connecting to a server *)

Module Connection.

(** [http_trust_t] of libcups. *)
Inductive http_trust_t :=
| HTTP_TRUST_OK
| HTTP_TRUST_INVALID
| HTTP_TRUST_CHANGED
| HTTP_TRUST_EXPIRED
| HTTP_TRUST_RENEWED
| HTTP_TRUST_UNKNOWN.

Definition HTTP_URI_STATUS_OK : Z := 0.
Definition HTTP_STATUS_ERROR : http_status_t := -1.

(** What [httpSeparateURI] returns and stores for a URI. *)
Record uri_t := {
  uri_status : Z;
  scheme : string;
  host : string;
  uri_port : Z;
  resource : string
}.

(** The answer to a GET on the connection: whether [httpWriteRequest]
    sent it, the status [httpUpdate] ends with, the [Content-Type] field
    and the body [_moauthCopyMessageBody] returns. *)
Record response_t := {
  written : bool;
  status : http_status_t;
  content_type : string;
  body : option string
}.

(** The endpoints of the connection object. *)
Record moauth_t := {
  authorization_endpoint : option string;
  introspection_endpoint : option string;
  registration_endpoint : option string;
  token_endpoint : option string
}.

Section Connect.

(** libcups: [httpSeparateURI(HTTP_URI_CODING_ALL, uri, ...)]. *)
Variable httpSeparateURI : string -> uri_t.

(** libcups: whether [httpConnect] and [httpCopyPeerCredentials] give the
    credentials of the peer at a host and port, and what
    [cupsGetCredentialsTrust] says of them. *)
Variable httpCopyPeerCredentials : string -> Z -> bool.
Variable cupsGetCredentialsTrust : string -> http_trust_t.

(** A GET of a path on the connection. *)
Variable http_get : string -> response_t.

(** libcups: [cupsJSONGetString(cupsJSONFind(cupsJSONImportString(body),
    name))]. *)
Variable json_string : string -> string -> option string.

(** [_moauthConnect()]: the resource of the URI when the connection is
    made, [None] for [NULL]. *)
Definition _moauthConnect (uri : string) : option string :=
  let u := httpSeparateURI uri in
  if (uri_status u <? HTTP_URI_STATUS_OK) || negb (strcmp (scheme u) "https" =? 0)
  then None
  else if negb (httpCopyPeerCredentials (host u) (uri_port u)) then None
  else
    match cupsGetCredentialsTrust (host u) with
    | HTTP_TRUST_OK | HTTP_TRUST_RENEWED | HTTP_TRUST_UNKNOWN =>
        Some (resource u)
    | HTTP_TRUST_INVALID | HTTP_TRUST_CHANGED | HTTP_TRUST_EXPIRED => None
    end.

(** One of the two GETs of a well-known path: the content type and the
    body it leaves in the variables of [moauthConnect]. *)
Definition get_well_known (path : string) (content_type : option string)
  : option string * option string :=
  let r := http_get path in
  let status := if written r then status r else HTTP_STATUS_ERROR in
  if status =? HTTP_STATUS_OK then (Some (Connection.content_type r), body r)
  else (content_type, None).

(** An endpoint of the metadata: [None] when the function returns
    [NULL] for it, the value of the field otherwise. *)
Definition endpoint (metadata name : string) : option (option string) :=
  match json_string metadata name with
  | Some uri =>
      let u := httpSeparateURI uri in
      if (uri_status u <? HTTP_URI_STATUS_OK)
         || negb (strcmp (scheme u) "https" =? 0)
      then None
      else Some (Some uri)
  | None => Some None
  end.

(** [moauthConnect()]: the connection object, [None] for [NULL]. *)
Definition moauthConnect (oauth_uri : string) : option moauth_t :=
  match _moauthConnect oauth_uri with
  | None => None
  | Some resource =>
      let '(content_type, body) :=
        if strcmp resource "/" =? 0 then
          get_well_known "/.well-known/oauth-authorization-server" None
        else (None, None) in
      let '(content_type, body) :=
        if (strcmp resource "/" =? 0) && is_null body then
          get_well_known "/.well-known/openid-configuration" content_type
        else (content_type, body) in
      let '(content_type, body) :=
        if is_null body then
          let r := http_get resource in
          if written r then (Some (Connection.content_type r), Connection.body r)
          else (content_type, body)
        else (content_type, body) in
      let empty := {| authorization_endpoint := None;
                      introspection_endpoint := None;
                      registration_endpoint := None;
                      token_endpoint := None |} in
      let server :=
        match content_type, body with
        | Some content_type, Some body =>
            let is_json := is_empty content_type
                           || (strcmp content_type "text/json" =? 0) in
            if is_json then
              match endpoint body "authorization_endpoint" with
              | None => None
              | Some a =>
                  match endpoint body "introspection_endpoint" with
                  | None => None
                  | Some i =>
                      match endpoint body "registration_endpoint" with
                      | None => None
                      | Some r =>
                          match endpoint body "token_endpoint" with
                          | None => None
                          | Some t =>
                              Some {| authorization_endpoint := a;
                                      introspection_endpoint := i;
                                      registration_endpoint := r;
                                      token_endpoint := t |}
                          end
                      end
                  end
              end
            else Some empty
        | _, _ => Some empty
        end in
      match server with
      | None => None
      | Some server =>
          if is_null (authorization_endpoint server)
             || is_null (token_endpoint server)
          then None
          else Some server
      end
  end.

End Connect.

End Connection.

(** ** More of the sample installation *)

Module Scene.

(** The application the sample registers. *)
Definition app1 : ptr * moauthd_application_t :=
  (1%nat,
   {| client_id := "app1"; redirect_uri := "https://app/cb";
      client_name := Some "App One"; client_uri := None; logo_uri := None;
      tos_uri := None |}).

(** An access token of alice, issued when the grant was. *)
Definition access_token : moauthd_token_t :=
  {| type := MOAUTHD_TOKTYPE_ACCESS; token := "A1"; challenge := None;
     user := Some "alice"; application := Some 1%nat;
     scopes := Some "private shared"; uid := 1000; gid := 1000;
     created := 1100; expires := 605900 |}.

(** The server holding the grant and the access token. *)
Definition server2 : moauthd_server_t :=
  set_tokens (<["A1" := access_token]> (tokens Sample.server1)) Sample.server1.

(** A request that comes after both tokens have expired. *)
Definition late : environment :=
  {| now := 700000; new_token := Some ("A9", 1000, 1000);
     respond_ok := true; write_short := false |}.

(** A request during which the token store cannot create a token. *)
Definition exhausted : environment :=
  {| now := 1100; new_token := None; respond_ok := true;
     write_short := false |}.

(** The form variables of a password grant request. *)
Definition password_request (password : string) : list cups_option_t :=
  [("grant_type", "password"); ("username", "alice"); ("password", password);
   ("scope", "private")].

(** The form variables of the exchange of the grant [G1]. *)
Definition code_request : list cups_option_t :=
  [("grant_type", "authorization_code"); ("client_id", "app1");
   ("code", "G1"); ("code_verifier", Sample.code_verifier)].

(** A form decoder for plain text: the variables are separated by [&],
    a name ends at the first [=]. *)
Fixpoint form_fields (fuel : nat) (s : string) : list string :=
  match fuel with
  | O => []
  | S fuel' =>
      match split_at "&" s with
      | Some (field, rest) => field :: form_fields fuel' rest
      | None => [s]
      end
  end.

Definition _moauthFormDecode (data : option string) : list cups_option_t :=
  match data with
  | None => []
  | Some s =>
      map (fun field => match split_at "=" field with
                        | Some (n, v) => (n, v)
                        | None => (field, EmptyString)
                        end)
        (form_fields (S (String.length s)) s)
  end.

(** Pages as plain text: the title, the name of a format with its
    arguments, the end. *)
Definition moauthdHTMLHeader (title : string) : string := "[" +:+ title +:+ "]".

Definition moauthdHTMLPrintf (format : authorize_format) (args : list string)
  : string :=
  match format with
  | FORM_OPEN => "form"
  | FORM_STATE => "state"
  | FORM_CODE_CHALLENGE => "code_challenge"
  | FORM_CLOSE => "/form"
  end +:+ String.concat "," args.

Definition moauthdHTMLFooter : string := "[/]".

(** A server without resources: every file is answered 404. *)
Definition moauthdGetFile (env : environment) (request_method : http_state_t)
  (path_info : string) : M http_status_t :=
  moauthdRespondClient env HTTP_STATUS_NOT_FOUND None None 0 0 ;;
  ret HTTP_STATUS_NOT_FOUND.

(** The sample server under its name and port. *)
Definition named (s : moauthd_server_t) : moauthd_server_t :=
  {| name := Some "auth.example.com"; port := 9000; log_level := log_level s;
     options := options s; introspect_group := introspect_group s;
     register_group := register_group s; max_grant_life := max_grant_life s;
     max_token_life := max_token_life s; applications := applications s;
     tokens := tokens s; test_password := test_password s |}.

(** The form variables of a login at /authorize. *)
Definition login (password : string) : list cups_option_t :=
  [("client_id", "app1"); ("redirect_uri", "https://app/cb");
   ("response_type", "code"); ("scope", "private"); ("state", "xyz");
   ("username", "alice"); ("password", password);
   ("code_challenge",
    Reference.httpEncode64_2 45 (Reference.cupsHashData Sample.code_verifier))].

Definition do_authorize
  : environment -> http_state_t -> option string
    -> option (list cups_option_t) -> M Z :=
  do_authorize Reference.authenticates _moauthFormDecode moauthdHTMLHeader
    moauthdHTMLPrintf moauthdHTMLFooter.

Definition moauthdRunClient_request (env : environment) : request -> M bool :=
  moauthdRunClient_request Reference.cupsHashData Reference.httpEncode64_2
    Reference.httpDecode64_2 Reference._moauthJSONEncode
    Reference.authenticates Reference.getpwnam Reference.getgrouplist
    _moauthFormDecode moauthdHTMLHeader moauthdHTMLPrintf moauthdHTMLFooter
    (moauthdGetFile env) env.

Definition moauthdRunClient (requests : list (environment * request)) : M unit :=
  moauthdRunClient Reference.cupsHashData Reference.httpEncode64_2
    Reference.httpDecode64_2 Reference._moauthJSONEncode
    Reference.authenticates Reference.getpwnam Reference.getgrouplist
    _moauthFormDecode moauthdHTMLHeader moauthdHTMLPrintf moauthdHTMLFooter
    (moauthdGetFile (Sample.env "A1")) requests.

(** A request with the [Host] field of the sample server. *)
Definition request_for (method : http_state_t) (target : string)
  (expect : http_status_t) (body : option (list cups_option_t)) : request :=
  {| rq_state := method; rq_error := 0; rq_path_info := target;
     rq_update := HTTP_STATUS_OK; rq_host := "AUTH.example.COM.:9000";
     rq_authorization := EmptyString; rq_expect := expect; rq_body := body |}.

(** The form encoder for plain text the decoder above reads. *)
Definition _moauthFormEncode (vars : list cups_option_t) : string :=
  String.concat "&" (map (fun kv : cups_option_t => kv.1 +:+ "=" +:+ kv.2) vars).

(** The variables the client helper sends for the sample application. *)
Definition authorize_vars : list cups_option_t :=
  moauthAuthorize_vars Reference.cupsHashData Reference.httpEncode64_2
    "https://app/cb" "app1" (Some "xyz") (Some Sample.code_verifier) None.

(** A server that answers the RFC 8414 path with its metadata, as text
    the two endpoints are read from. *)
Definition httpSeparateURI (uri : string) : Connection.uri_t :=
  {| Connection.uri_status := 0;
     Connection.scheme := if String.prefix "https://" uri then "https"
                          else "http";
     Connection.host := "auth.example.com"; Connection.uri_port := 9000;
     Connection.resource := "/" |}.

Definition http_get (path : string) : Connection.response_t :=
  if String.eqb path "/.well-known/oauth-authorization-server" then
    {| Connection.written := true; Connection.status := HTTP_STATUS_OK;
       Connection.content_type := "text/json";
       Connection.body := Some "metadata" |}
  else
    {| Connection.written := true; Connection.status := HTTP_STATUS_NOT_FOUND;
       Connection.content_type := "text/html"; Connection.body := None |}.

Definition json_string (metadata name : string) : option string :=
  if String.eqb name "authorization_endpoint" then
    Some "https://auth.example.com:9000/authorize"
  else if String.eqb name "token_endpoint" then
    Some "https://auth.example.com:9000/token"
  else None.

Definition moauthConnect : string -> option Connection.moauth_t :=
  Connection.moauthConnect httpSeparateURI (fun _ _ => true)
    (fun _ => Connection.HTTP_TRUST_OK) http_get json_string.

End Scene.

(** * Properties *)

(** ** C strings *)

Lemma byte_of_inj (x y : ascii) : byte_of x = byte_of y -> x = y.
Proof.
  unfold byte_of. intros H.
  apply N2Z.inj in H.
  rewrite <- (ascii_N_embedding x), <- (ascii_N_embedding y).
  now rewrite H.
Qed.

Lemma strcmp_refl (a : string) : strcmp a a = 0.
Proof.
  induction a as [|x a IH]; simpl; [reflexivity|].
  now rewrite Z.eqb_refl.
Qed.

Lemma strcmp_eq (a b : string) : strcmp a b = 0 <-> a = b.
Proof.
  split; [|intros ->; apply strcmp_refl].
  revert b. induction a as [|x a IH]; intros [|y b]; simpl; try discriminate.
  - reflexivity.
  - destruct (byte_of x =? byte_of y) eqn:E.
    + intros H. apply Z.eqb_eq, byte_of_inj in E. subst y.
      now rewrite (IH b H).
    + destruct (byte_of x <? byte_of y); discriminate.
Qed.

Lemma strcmp_eqb (a b : string) : (strcmp a b =? 0) = bool_decide (a = b).
Proof.
  destruct (bool_decide_reflect (a = b)) as [->|H].
  - now rewrite strcmp_refl.
  - apply Z.eqb_neq. intros E. now apply strcmp_eq in E.
Qed.

(** ** Time values of the configuration *)

Lemma isdigit_not_space (c : ascii) : isdigit c = true -> isspace c = false.
Proof.
  unfold isdigit, isspace. cbv zeta. intros H.
  apply andb_true_iff in H as [H1 H2].
  apply Z.leb_le in H1.
  apply orb_false_iff. split.
  - apply Z.eqb_neq. lia.
  - apply andb_false_iff. right. apply Z.leb_gt. lia.
Qed.

Lemma isdigit_no_sign (c : ascii) (s : string) :
  isdigit c = true ->
  match String c s with
  | String "-" r => (true, r)
  | String "+" r => (false, r)
  | _ => (false, String c s)
  end = (false, String c s).
Proof.
  destruct c as [[] [] [] [] [] [] [] []]; intros H;
    try reflexivity; vm_compute in H; discriminate.
Qed.

Lemma digits_all (s : string) :
  all_digits s = true ->
  forall acc n, exists v, digits acc n s = (v, (n + String.length s)%nat, EmptyString).
Proof.
  induction s as [|c s IH]; simpl; intros H acc n.
  - exists acc. now rewrite Nat.add_0_r.
  - apply andb_true_iff in H as [Hc Hs]. rewrite Hc.
    destruct (IH Hs (acc * 10 + (byte_of c - 48)) (S n)) as [v Hv].
    exists v. rewrite Hv. f_equal. f_equal. lia.
Qed.

Lemma strtol_bare_integer (value : string) :
  bare_integer value = true -> exists l, strtol value = (l, EmptyString).
Proof.
  unfold bare_integer. destruct value as [|c s]; [discriminate|].
  simpl. intros H. apply andb_true_iff in H as [Hc Hs].
  unfold strtol. simpl skip_space. rewrite (isdigit_not_space c Hc).
  rewrite (isdigit_no_sign c s Hc).
  assert (Hall : all_digits (String c s) = true) by (simpl; now rewrite Hc).
  destruct (digits_all _ Hall 0 0%nat) as [v Hv]. rewrite Hv.
  simpl. eauto.
Qed.

Lemma get_seconds_bare_integer (value : string) :
  bare_integer value = true -> get_seconds value = -1.
Proof.
  intros H. destruct (strtol_bare_integer value H) as [l Hl].
  unfold get_seconds. rewrite Hl. reflexivity.
Qed.

(** C9: a [MaxGrantLife] or [MaxTokenLife] value that is a bare
    non-negative integer, which the comments of [load_config] announce as a
    number of seconds ("Default units are seconds"), is refused:
    [get_seconds] answers -1 for it and loading the configuration fails at
    that line. *)
Theorem bare_integer_time_value_refused
  (other : moauthd_server_t -> string -> option string -> option moauthd_server_t)
  (server : moauthd_server_t) (value : string)
  (fp : list (string * option string)) :
  bare_integer value = true ->
  get_seconds value = -1
  /\ load_config other server (("MaxGrantLife", Some value) :: fp) = None
  /\ load_config other server (("MaxTokenLife", Some value) :: fp) = None.
Proof.
  intros H. pose proof (get_seconds_bare_integer value H) as Hs.
  split; [exact Hs|].
  split; simpl; unfold load_config_line; simpl; rewrite Hs; reflexivity.
Qed.

Lemma bare_integer_time_value_refused_300 :
  bare_integer "300" = true
  /\ get_seconds "300" = -1
  /\ load_config (fun s _ _ => Some s) default_server
       [("MaxGrantLife", Some "300")] = None
  /\ load_config (fun s _ _ => Some s) default_server
       [("MaxTokenLife", Some "300")] = None.
Proof.
  split; [reflexivity|].
  apply (bare_integer_time_value_refused (fun s _ _ => Some s) default_server
           "300" []).
  reflexivity.
Defined.

(** ** The reference platform on a test vector *)

(** The verifier of RFC 7636, appendix B: the base64 text of its SHA-256
    hash, in the 45 bytes of [do_token] and in the 64 bytes of
    [moauthAuthorize]. *)
Example reference_code_challenge :
  Reference.httpEncode64_2 45 (Reference.cupsHashData Sample.code_verifier)
  = "E9Melhoa2OwvFrEMTJguCHaoeK1t8URWbuGJSstw+cM="
  /\ Sample.code_challenge = "E9Melhoa2OwvFrEMTJguCHaoeK1t8URWbuGJSstw+cM=".
Proof. split; vm_compute; reflexivity. Qed.

(** The reference platform keeps what the two callers of the encoder rely
    on: the hash has 32 bytes, and a buffer that holds all of the text gets
    all of it. *)

Lemma triples_ind {A} (P : list A -> Prop) :
  P [] -> (forall a, P [a]) -> (forall a b, P [a; b]) ->
  (forall a b c rest, P rest -> P (a :: b :: c :: rest)) ->
  forall l, P l.
Proof.
  intros H0 H1 H2 H3.
  assert (H : forall l, P l /\ (forall a, P (a :: l))
                        /\ (forall a b, P (a :: b :: l))).
  { induction l as [|x l (IH0 & IH1 & IH2)]; [now auto|].
    split; [apply IH1|]. split; [intros a; apply IH2|].
    intros a b. now apply H3. }
  intros l. apply H.
Qed.

Lemma encode64_length (input : list Z) :
  Z.of_nat (length (Reference.encode64 input))
  = 4 * ((Z.of_nat (length input) + 2) / 3).
Proof.
  induction input as [|a|a b|a b c rest IH] using triples_ind;
    try reflexivity.
  change (Reference.encode64 (a :: b :: c :: rest))
    with ([Reference.base64_char (Z.shiftr a 2);
           Reference.base64_char
             (Z.land (Z.lor (Z.shiftl a 4) (Z.shiftr b 4)) 63);
           Reference.base64_char
             (Z.land (Z.lor (Z.shiftl b 2) (Z.shiftr c 6)) 63);
           Reference.base64_char (Z.land c 63)]
          ++ Reference.encode64 rest).
  rewrite length_app. cbn [length].
  rewrite !Nat2Z.inj_add, IH. rewrite !Nat2Z.inj_succ.
  replace (Z.succ (Z.succ (Z.succ (Z.of_nat (length rest)))) + 2)
    with (Z.of_nat (length rest) + 2 + 1 * 3) by lia.
  rewrite Z.div_add by lia. cbn. lia.
Qed.

Lemma reference_httpEncode64_2_fits (outlen outlen' : Z) (input : list Z) :
  4 * ((Z.of_nat (length input) + 2) / 3) < outlen ->
  4 * ((Z.of_nat (length input) + 2) / 3) < outlen' ->
  Reference.httpEncode64_2 outlen input = Reference.httpEncode64_2 outlen' input.
Proof.
  intros H H'. unfold Reference.httpEncode64_2.
  rewrite <- encode64_length in H, H'.
  rewrite !take_ge by lia. reflexivity.
Qed.

Lemma reference_cupsHashData_length (v : string) :
  length (Reference.cupsHashData v) = 32%nat.
Proof.
  unfold Reference.cupsHashData, Reference.sha256.
  destruct (foldl Reference.compress Reference.H0 _)
    as [[[[[[[a b] c] d] e] f] g] h].
  reflexivity.
Qed.


(** ** The application registry *)

Lemma cupsArrayFind_compare_applications
  (apps : list (ptr * moauthd_application_t)) (k1 k2 : moauthd_application_t) :
  client_id k1 = client_id k2 ->
  cupsArrayFind compare_applications apps k1
  = cupsArrayFind compare_applications apps k2.
Proof.
  intros H. induction apps as [|e apps IH]; simpl; [reflexivity|].
  unfold compare_applications at 1 3. rewrite H, IH. reflexivity.
Qed.

(** The redirect URI of a query never reaches the comparison. *)
Lemma moauthdFindApplication_any_redirect_uri
  (server : moauthd_server_t) (id uri uri' : string) :
  moauthdFindApplication server id (Some uri)
  = moauthdFindApplication server id (Some uri').
Proof.
  unfold moauthdFindApplication.
  now apply cupsArrayFind_compare_applications.
Qed.

(** C2: with the application (app1, https://app/cb) registered, the query
    for app1 with another redirect URI, which the claim says finds no
    application, finds the registered one: [compare_applications] looks at
    the client ID only, against the "Exact match" the code announces.  The
    /token request of that client is then answered 200, not 400. *)
Theorem moauthdFindApplication_other_redirect_uri :
  moauthdFindApplication Sample.server0 "app1" (Some "https://evil.example/cb")
  = Some (1%nat,
          {| client_id := "app1"; redirect_uri := "https://app/cb";
             client_name := Some "App One"; client_uri := None;
             logo_uri := None; tos_uri := None |})
  /\ statuses
       (w_events
          (final
             (Sample.do_token (Sample.env "A1")
                (Some [("grant_type", "authorization_code");
                       ("client_id", "app1");
                       ("redirect_uri", "https://evil.example/cb");
                       ("code", "G1");
                       ("code_verifier", Sample.code_verifier)])
                (Sample.world_of Sample.server1))))
     = [HTTP_STATUS_OK].
Proof. split; vm_compute; reflexivity. Qed.

(** ** The /token endpoint *)

Lemma authentications_app (a b : list event) :
  authentications (a ++ b) = authentications a ++ authentications b.
Proof. unfold authentications. apply List.filter_app. Qed.

Lemma statuses_app (a b : list event) :
  statuses (a ++ b) = statuses a ++ statuses b.
Proof. unfold statuses. apply omap_app. Qed.

Lemma strcmp_password_code : (strcmp "password" "authorization_code" =? 0) = false.
Proof. reflexivity. Qed.

Lemma strcmp_password_password : (strcmp "password" "password" =? 0) = true.
Proof. reflexivity. Qed.

Lemma strcmp_code_code :
  (strcmp "authorization_code" "authorization_code" =? 0) = true.
Proof. reflexivity. Qed.

Lemma strcmp_code_password :
  (strcmp "authorization_code" "password" =? 0) = false.
Proof. reflexivity. Qed.

Create Rewrite HintDb grant_types.
#[local] Hint Rewrite strcmp_password_code strcmp_password_password
  strcmp_code_code strcmp_code_password : grant_types.

#[local] Arguments strcmp : simpl never.
#[local] Arguments strcasecmp : simpl never.
#[local] Arguments cupsGetOption : simpl never.
#[local] Arguments pretty : simpl never.
#[local] Arguments cupsAddOption : simpl never.

(** The arrays of the JSON responses, which [cupsAddOption] keeps in the
    order of the names whatever the order of the calls. *)
Lemma do_token_json (id expires_in : string) :
  cupsAddOption "expires_in" (Some expires_in)
    (cupsAddOption "token_type" (Some "access")
       (cupsAddOption "access_token" (Some id) []))
  = [("access_token", id); ("expires_in", expires_in);
     ("token_type", "access")].
Proof. reflexivity. Qed.

Lemma do_introspect_json (active client_id token_type exp iat : string)
  (scope username : option string) :
  cupsAddOption "iat" (Some iat)
    (cupsAddOption "exp" (Some exp)
       (cupsAddOption "token_type" (Some token_type)
          (cupsAddOption "username" username
             (cupsAddOption "client_id" (Some client_id)
                (cupsAddOption "scope" scope
                   (cupsAddOption "active" (Some active) []))))))
  = [("active", active); ("client_id", client_id); ("exp", exp); ("iat", iat)]
    ++ optional "scope" scope ++ [("token_type", token_type)]
    ++ optional "username" username.
Proof. destruct scope, username; reflexivity. Qed.

Ltac step_handler :=
  unfold do_token_exchange, do_token_respond, do_token_verify, bad_request,
    moauthdAuthenticateUser, moauthdCreateToken, moauthdDeleteToken,
    moauthdFindToken, moauthdRespondClient, httpWrite2_short, moauthdLogc,
    when, deref, emit, get_server, get_client, put_server, put_client,
    bind, ret;
  cbn.

(** C4: a password grant request that carries only one of [username] and
    [password], which the claim says is answered 400 without a call of the
    Authenticator, reaches [moauthdAuthenticateUser] with the missing
    parameter as [NULL]: the test before it asks for both to be missing,
    although it then reports each of them on its own. *)
Theorem password_grant_one_parameter_missing
  (cupsHashData : string -> list Z) (httpEncode64_2 : Z -> list Z -> string)
  (_moauthJSONEncode : list cups_option_t -> option string)
  (authenticates : moauthd_server_t -> option string -> option string -> bool)
  (env : environment) (w : world) (vars : list cups_option_t) :
  cupsGetOption "grant_type" vars = Some "password" ->
  is_null (cupsGetOption "username" vars)
  <> is_null (cupsGetOption "password" vars) ->
  authentications
    (w_events
       (final
          (do_token cupsHashData httpEncode64_2 _moauthJSONEncode authenticates
             env (Some vars) w)))
  = authentications (w_events w)
    ++ [Authenticate (cupsGetOption "username" vars)
          (cupsGetOption "password" vars)].
Proof.
  intros Hg Hone. unfold do_token. rewrite Hg.
  autorewrite with grant_types. cbn.
  assert (Hboth : is_null (cupsGetOption "username" vars)
                  && is_null (cupsGetOption "password" vars) = false).
  { destruct (is_null (cupsGetOption "username" vars)),
      (is_null (cupsGetOption "password" vars));
      first [reflexivity | congruence]. }
  rewrite Hboth. step_handler.
  destruct (authenticates _ _ _); step_handler.
  - destruct (new_token env) as [[[id uid] gid]|]; step_handler.
    + destruct (_moauthJSONEncode _); step_handler;
        [destruct (respond_ok env); step_handler;
         [destruct (write_short env); step_handler|]|];
        rewrite <- ?app_assoc, !authentications_app; cbn;
        rewrite ?app_nil_r; reflexivity.
    + rewrite !authentications_app; reflexivity.
  - rewrite <- ?app_assoc, !authentications_app; reflexivity.
Qed.

Lemma password_grant_one_parameter_missing_witness :
  let vars := [("grant_type", "password"); ("username", "alice")] in
  cupsGetOption "grant_type" vars = Some "password"
  /\ cupsGetOption "username" vars = Some "alice"
  /\ cupsGetOption "password" vars = None
  /\ authentications
       (w_events
          (final
             (Sample.do_token (Sample.env "A1") (Some vars)
                (Sample.world_of Sample.server0))))
     = [Authenticate (Some "alice") None].
Proof.
  intros vars. refine (conj eq_refl (conj eq_refl (conj eq_refl _))).
  apply (password_grant_one_parameter_missing Reference.cupsHashData
           Reference.httpEncode64_2 Reference._moauthJSONEncode
           Reference.authenticates (Sample.env "A1")
           (Sample.world_of Sample.server0) vars).
  - reflexivity.
  - vm_compute. discriminate.
Defined.

Lemma responses_done {A} (w : world) (v : A) (s : moauthd_server_t)
  (c : moauthd_client_t) (ev : list event) :
  responses w (Done v {| w_server := s; w_client := c;
                         w_events := w_events w ++ ev |}) = statuses ev.
Proof. unfold responses. cbn. now rewrite drop_app_length. Qed.

Lemma do_token_verify_spec
  (cupsHashData : string -> list Z) (httpEncode64_2 : Z -> list Z -> string)
  (t : moauthd_token_t) (verifier : option string) (w : world) :
  exists ev,
    do_token_verify cupsHashData httpEncode64_2 t verifier w
    = Done (pkce_accepts cupsHashData httpEncode64_2 t verifier)
        {| w_server := w_server w; w_client := w_client w;
           w_events := w_events w ++ ev |}
    /\ statuses ev = []
    /\ (pkce_accepts cupsHashData httpEncode64_2 t verifier = true -> ev = []).
Proof.
  unfold do_token_verify, pkce_accepts.
  destruct (challenge t) as [stored|].
  - destruct verifier as [v|].
    + rewrite strcmp_eqb.
      destruct (bool_decide_reflect (stored = httpEncode64_2 45 (cupsHashData v)))
        as [->|Hne].
      * rewrite bool_decide_eq_true_2 by reflexivity.
        exists []. step_handler. rewrite app_nil_r. destruct w; auto.
      * rewrite bool_decide_eq_false_2 by congruence.
        eexists. step_handler. split; [reflexivity|]. split; [reflexivity|].
        discriminate.
    + eexists. step_handler. split; [reflexivity|]. split; [reflexivity|].
      discriminate.
  - exists []. step_handler. rewrite app_nil_r. destruct w; auto.
Qed.

Section AuthorizationCode.

Variable cupsHashData : string -> list Z.
Variable httpEncode64_2 : Z -> list Z -> string.
Variable _moauthJSONEncode : list cups_option_t -> option string.
Variable authenticates :
  moauthd_server_t -> option string -> option string -> bool.
Variable env : environment.
Variable w : world.
Variable vars : list cups_option_t.
Variables id code : string.
Variable app : ptr * moauthd_application_t.
Variable t : moauthd_token_t.

Hypothesis Hgrant : cupsGetOption "grant_type" vars = Some "authorization_code".
Hypothesis Hclient : cupsGetOption "client_id" vars = Some id.
Hypothesis Hcode : cupsGetOption "code" vars = Some code.
Hypothesis Happ :
  moauthdFindApplication (w_server w) id (cupsGetOption "redirect_uri" vars)
  = Some app.
Hypothesis Hfound : tokens (w_server w) !! code = Some t.
Hypothesis Hbound : application t = Some app.1.
Hypothesis Hlive : now env < expires t.

(** With the application resolved and the token found, bound to it and
    not expired, [do_token] is at its PKCE check. *)
Lemma do_token_checked :
  do_token cupsHashData httpEncode64_2 _moauthJSONEncode authenticates env
    (Some vars) w
  = (verified <- do_token_verify cupsHashData httpEncode64_2 t
                   (cupsGetOption "code_verifier" vars) ;;
     if negb verified then bad_request env
     else do_token_exchange _moauthJSONEncode env app t) w.
Proof.
  unfold do_token. rewrite Hgrant. autorewrite with grant_types.
  rewrite Hclient, Hcode. cbn.
  rewrite Happ.
  unfold bind at 1. unfold moauthdFindToken. cbn.
  rewrite Hfound.
  rewrite (bool_decide_eq_true_2 _ Hbound). cbn.
  assert (Hle : (expires t <=? now env) = false) by (apply Z.leb_gt; lia).
  rewrite Hle. reflexivity.
Qed.

(** After the checks the PKCE rule decides alone. *)
Lemma do_token_pkce_cases :
  let r := do_token cupsHashData httpEncode64_2 _moauthJSONEncode
             authenticates env (Some vars) w in
  if pkce_accepts cupsHashData httpEncode64_2 t
       (cupsGetOption "code_verifier" vars)
  then r = do_token_exchange _moauthJSONEncode env app t w
  else refused w r.
Proof.
  intros r.
  destruct (do_token_verify_spec cupsHashData httpEncode64_2 t
              (cupsGetOption "code_verifier" vars) w) as (ev & E & Hs & Hnil).
  assert (Hr : r = (if negb (pkce_accepts cupsHashData httpEncode64_2 t
                               (cupsGetOption "code_verifier" vars))
                    then bad_request env
                    else do_token_exchange _moauthJSONEncode env app t)
                     {| w_server := w_server w; w_client := w_client w;
                        w_events := w_events w ++ ev |}).
  { subst r. rewrite do_token_checked. unfold bind at 1. rewrite E.
    reflexivity. }
  clearbody r. subst r. clear E.
  destruct (pkce_accepts cupsHashData httpEncode64_2 t
              (cupsGetOption "code_verifier" vars)).
  - rewrite (Hnil eq_refl), app_nil_r. cbn. destruct w; reflexivity.
  - cbn. step_handler. eexists _, _. rewrite <- app_assoc.
    split; [reflexivity|]. rewrite statuses_app, Hs. reflexivity.
Qed.

(** The exchange itself, when the token is created and the response
    encoded. *)
Lemma do_token_exchange_ok (w0 : world) (tid : string) (uid gid : Z)
  (data : string) :
  new_token env = Some (tid, uid, gid) ->
  _moauthJSONEncode
    [("access_token", tid); ("expires_in", pretty (max_token_life (w_server w0)));
     ("token_type", "access")]
  = Some data ->
  do_token_exchange _moauthJSONEncode env app t w0
  = Done (if respond_ok env then if write_short env then 0 else 1 else 0)
      {| w_server :=
           set_tokens
             (delete (token t)
                (<[tid := access_token_for env (w_server w0) app.1 t tid uid gid]>
                   (tokens (w_server w0))))
             (w_server w0);
         w_client := w_client w0;
         w_events :=
           w_events w0
           ++ Respond HTTP_STATUS_OK (Some "application/json") None
                (Z.of_nat (String.length data))
              :: (if respond_ok env then [Write data] else []) |}.
Proof.
  intros Hnew Hjson. unfold do_token_exchange, moauthdCreateToken.
  rewrite Hnew. step_handler. rewrite do_token_json.
  rewrite Hjson. step_handler.
  destruct (respond_ok env); step_handler.
  - destruct (write_short env); step_handler;
      rewrite <- app_assoc; reflexivity.
  - reflexivity.
Qed.

(** The exchange in every environment. *)
Lemma do_token_exchange_exchanged (w0 : world) :
  exchanged _moauthJSONEncode env w0 app.1 t
    (do_token_exchange _moauthJSONEncode env app t w0).
Proof.
  unfold exchanged.
  destruct (new_token env) as [[[tid uid] gid]|] eqn:Hnew.
  - cbv zeta.
    destruct (_moauthJSONEncode _) as [data|] eqn:Hjson.
    + exact (do_token_exchange_ok w0 tid uid gid data Hnew Hjson).
    + unfold do_token_exchange, moauthdCreateToken. rewrite Hnew.
      step_handler. rewrite do_token_json, Hjson. step_handler.
      rewrite <- app_assoc. reflexivity.
  - unfold do_token_exchange, moauthdCreateToken. rewrite Hnew.
    step_handler. rewrite <- app_assoc. reflexivity.
Qed.

(** C10: the checks [do_token] makes on the token named by [code] are
    its existence, its application, its expiry and its PKCE challenge;
    whatever the type of the token is, when they pass (and the new token
    is created and the response encoded) the token is exchanged: a new
    access token for its user and scopes enters the store, the token
    itself leaves it, and the answer is 200. *)
Theorem do_token_any_token_type (tid : string) (uid gid : Z) (data : string) :
  store_ok (tokens (w_server w)) ->
  pkce_accepts cupsHashData httpEncode64_2 t
    (cupsGetOption "code_verifier" vars) = true ->
  new_token env = Some (tid, uid, gid) ->
  _moauthJSONEncode
    [("access_token", tid); ("expires_in", pretty (max_token_life (w_server w)));
     ("token_type", "access")]
  = Some data ->
  let r := do_token cupsHashData httpEncode64_2 _moauthJSONEncode
             authenticates env (Some vars) w in
  tokens (w_server (final r))
  = delete code
      (<[tid := access_token_for env (w_server w) app.1 t tid uid gid]>
         (tokens (w_server w)))
  /\ tokens (w_server (final r)) !! code = None
  /\ responses w r = [HTTP_STATUS_OK].
Proof.
  intros Hstore Hpkce Hnew Hjson r.
  pose proof do_token_pkce_cases as H. cbv zeta in H. rewrite Hpkce in H.
  rewrite (do_token_exchange_ok w tid uid gid data Hnew Hjson) in H.
  fold r in H. clearbody r. subst r.
  rewrite (Hstore code t Hfound).
  split; [reflexivity|]. split.
  - cbn. apply lookup_delete_eq.
  - rewrite responses_done. destruct (respond_ok env); reflexivity.
Qed.

End AuthorizationCode.




Lemma do_token_any_token_type_witness :
  let env := Sample.env "A1" in
  let server :=
    set_tokens {[ "G1" := Sample.grant MOAUTHD_TOKTYPE_ACCESS ]} Sample.server0 in
  let w := Sample.world_of server in
  let vars := [("grant_type", "authorization_code"); ("client_id", "app1");
               ("code", "G1"); ("code_verifier", Sample.code_verifier)] in
  let r := Sample.do_token env (Some vars) w in
  type (Sample.grant MOAUTHD_TOKTYPE_ACCESS) = MOAUTHD_TOKTYPE_ACCESS
  /\ tokens server !! "G1" = Some (Sample.grant MOAUTHD_TOKTYPE_ACCESS)
  /\ tokens (w_server (final r))
     = delete "G1"
         (<["A1" := access_token_for env server 1%nat
                      (Sample.grant MOAUTHD_TOKTYPE_ACCESS) "A1" 1000 1000]>
            (tokens server))
  /\ tokens (w_server (final r)) !! "G1" = None
  /\ responses w r = [HTTP_STATUS_OK].
Proof.
  intros env server w vars r.
  split; [reflexivity|]. split; [vm_compute; reflexivity|].
  apply (do_token_any_token_type Reference.cupsHashData
           Reference.httpEncode64_2 Reference._moauthJSONEncode
           Reference.authenticates env w vars "app1" "G1"
           (1%nat,
            {| client_id := "app1"; redirect_uri := "https://app/cb";
               client_name := Some "App One"; client_uri := None;
               logo_uri := None; tos_uri := None |})
           (Sample.grant MOAUTHD_TOKTYPE_ACCESS))
    with (tid := "A1") (uid := 1000) (gid := 1000)
         (data := default EmptyString
                    (Reference._moauthJSONEncode
                       [("access_token", "A1");
                        ("expires_in", pretty (max_token_life server));
                        ("token_type", "access")])).
  - reflexivity.
  - reflexivity.
  - reflexivity.
  - vm_compute. reflexivity.
  - vm_compute. reflexivity.
  - reflexivity.
  - vm_compute. reflexivity.
  - intros k t H.
    change (({[ "G1" := Sample.grant MOAUTHD_TOKTYPE_ACCESS ]}
             : gmap string moauthd_token_t) !! k = Some t) in H.
    apply lookup_singleton_Some in H as [<- <-]. reflexivity.
  - vm_compute. reflexivity.
  - reflexivity.
  - reflexivity.
Defined.

(** ** The invariant of the token store *)

Lemma store_ok_empty : store_ok ∅.
Proof. intros k t H. now rewrite lookup_empty in H. Qed.

Lemma store_ok_insert (m : gmap string moauthd_token_t) (t : moauthd_token_t) :
  store_ok m -> store_ok (<[token t := t]> m).
Proof.
  intros Hm k t' H. destruct (decide (token t = k)) as [<-|Hne].
  - rewrite lookup_insert_eq in H. now injection H as <-.
  - rewrite lookup_insert_ne in H by exact Hne. now apply Hm.
Qed.

Lemma store_ok_delete (m : gmap string moauthd_token_t) (k : string) :
  store_ok m -> store_ok (delete k m).
Proof.
  intros Hm k' t H. apply lookup_delete_Some in H as [_ H]. now apply Hm.
Qed.

(** The two operations that change the store keep every token under its
    own identifier. *)
Lemma moauthdCreateToken_store_ok (env : environment) (kind : moauthd_toktype_t)
  (app : option ptr) (user scopes : option string) (w : world) :
  store_ok (tokens (w_server w)) ->
  store_ok
    (tokens (w_server (final (moauthdCreateToken env kind app user scopes w)))).
Proof.
  intros Hok. unfold moauthdCreateToken.
  destruct (new_token env) as [[[id uid] gid]|]; [|exact Hok].
  unfold bind, get_server, put_server, ret. cbn.
  match goal with
  | |- store_ok (<[?k := ?t]> _) => change k with (token t)
  end.
  now apply store_ok_insert.
Qed.

Lemma moauthdDeleteToken_store_ok (t : moauthd_token_t) (w : world) :
  store_ok (tokens (w_server w)) ->
  store_ok (tokens (w_server (final (moauthdDeleteToken t w)))).
Proof. intros Hok. now apply store_ok_delete. Qed.

(** ** Single use of a code *)

Ltac answered :=
  rewrite <- ?app_assoc; rewrite responses_done; reflexivity.

(** An [authorization_code] request is answered 400, or it is answered 200
    with the token found for its code deleted. *)
Lemma do_token_code_cases
  (cupsHashData : string -> list Z) (httpEncode64_2 : Z -> list Z -> string)
  (_moauthJSONEncode : list cups_option_t -> option string)
  (authenticates : moauthd_server_t -> option string -> option string -> bool)
  (env : environment) (w : world) (vars : list cups_option_t) :
  cupsGetOption "grant_type" vars = Some "authorization_code" ->
  let r := do_token cupsHashData httpEncode64_2 _moauthJSONEncode authenticates
             env (Some vars) w in
  responses w r = [HTTP_STATUS_BAD_REQUEST]
  \/ exists code t m,
       cupsGetOption "code" vars = Some code
       /\ tokens (w_server w) !! code = Some t
       /\ tokens (w_server (final r)) = delete (token t) m
       /\ responses w r = [HTTP_STATUS_OK].
Proof.
  intros Hgrant r.
  assert (Hr : r = do_token cupsHashData httpEncode64_2 _moauthJSONEncode
                     authenticates env (Some vars) w) by reflexivity.
  clearbody r. unfold do_token in Hr. rewrite Hgrant in Hr.
  autorewrite with grant_types in Hr.
  destruct (cupsGetOption "client_id" vars) as [id|];
    destruct (cupsGetOption "code" vars) as [code|]; cbn in Hr;
    try (left; subst r; step_handler; answered).
  destruct (moauthdFindApplication (w_server w) id
              (cupsGetOption "redirect_uri" vars)) as [app|].
  2:{ left. subst r.
      destruct (is_null (cupsGetOption "redirect_uri" vars));
        step_handler; answered. }
  unfold bind at 1 in Hr. unfold moauthdFindToken in Hr. cbn in Hr.
  destruct (tokens (w_server w) !! code) as [t|] eqn:Hfound.
  2:{ left. subst r. step_handler. answered. }
  destruct (bool_decide (application t = Some app.1)); cbn in Hr.
  2:{ left. subst r. step_handler. answered. }
  destruct (expires t <=? now env).
  { left. subst r. step_handler. answered. }
  destruct (do_token_verify_spec cupsHashData httpEncode64_2 t
              (cupsGetOption "code_verifier" vars) w) as (ev & E & Hs & Hnil).
  unfold bind at 1 in Hr. rewrite E in Hr. clear E.
  destruct (pkce_accepts cupsHashData httpEncode64_2 t
              (cupsGetOption "code_verifier" vars)); cbn in Hr.
  2:{ left. subst r. step_handler. rewrite <- app_assoc, responses_done.
      rewrite statuses_app, Hs. reflexivity. }
  rewrite (Hnil eq_refl), app_nil_r in Hr.
  unfold do_token_exchange, moauthdCreateToken in Hr.
  destruct (new_token env) as [[[tid uid] gid]|].
  2:{ left. subst r. step_handler. answered. }
  destruct (_moauthJSONEncode
              [("access_token", tid); ("expires_in", pretty (max_token_life (w_server w)));
               ("token_type", "access")])
    as [data|] eqn:Hjson.
  - right. exists code, t. eexists. split; [reflexivity|].
    split; [exact Hfound|]. subst r. step_handler. rewrite do_token_json.
    rewrite Hjson. step_handler.
    destruct (respond_ok env); step_handler;
      [destruct (write_short env); step_handler|];
      (split; [reflexivity|answered]).
  - left. subst r. step_handler. rewrite do_token_json.
    rewrite Hjson. step_handler. answered.
Qed.

(** A request for a code the store does not hold is refused. *)
Lemma do_token_code_missing
  (cupsHashData : string -> list Z) (httpEncode64_2 : Z -> list Z -> string)
  (_moauthJSONEncode : list cups_option_t -> option string)
  (authenticates : moauthd_server_t -> option string -> option string -> bool)
  (env : environment) (w : world) (vars : list cups_option_t) (code : string) :
  cupsGetOption "grant_type" vars = Some "authorization_code" ->
  cupsGetOption "code" vars = Some code ->
  tokens (w_server w) !! code = None ->
  refused w (do_token cupsHashData httpEncode64_2 _moauthJSONEncode
               authenticates env (Some vars) w).
Proof.
  intros Hgrant Hcode Hmissing. unfold do_token. rewrite Hgrant, Hcode.
  autorewrite with grant_types.
  destruct (cupsGetOption "client_id" vars) as [id|]; cbn.
  - destruct (moauthdFindApplication (w_server w) id
                (cupsGetOption "redirect_uri" vars)) as [app|].
    + unfold bind at 1. unfold moauthdFindToken. cbn. rewrite Hmissing.
      step_handler. eexists _, _. rewrite <- app_assoc. split; reflexivity.
    + destruct (is_null (cupsGetOption "redirect_uri" vars)); step_handler;
        eexists _, _; rewrite <- app_assoc; split; reflexivity.
  - step_handler. eexists _, _. rewrite <- app_assoc. split; reflexivity.
Qed.

(** The token of a code that was exchanged is out of the store. *)
Lemma do_token_consumes
  (cupsHashData : string -> list Z) (httpEncode64_2 : Z -> list Z -> string)
  (_moauthJSONEncode : list cups_option_t -> option string)
  (authenticates : moauthd_server_t -> option string -> option string -> bool)
  (env : environment) (w : world) (vars : list cups_option_t) (code : string) :
  store_ok (tokens (w_server w)) ->
  cupsGetOption "grant_type" vars = Some "authorization_code" ->
  cupsGetOption "code" vars = Some code ->
  let r := do_token cupsHashData httpEncode64_2 _moauthJSONEncode authenticates
             env (Some vars) w in
  responses w r = [HTTP_STATUS_OK] ->
  tokens (w_server (final r)) !! code = None.
Proof.
  intros Hstore Hgrant Hcode r Hok.
  destruct (do_token_code_cases cupsHashData httpEncode64_2 _moauthJSONEncode
              authenticates env w vars Hgrant)
    as [H400|(code' & t & m & Hc & Hfound & Hdel & _)].
  - fold r in H400. rewrite H400 in Hok. discriminate.
  - fold r in Hdel. rewrite Hc in Hcode. injection Hcode as ->.
    rewrite Hdel, (Hstore code t Hfound). apply lookup_delete_eq.
Qed.

(** C3: after an [authorization_code] exchange that /token answers 200,
    the token named by [code] is out of the store: looking the code up
    finds nothing, and another exchange of the same code is answered
    400. *)
Theorem do_token_single_use
  (cupsHashData : string -> list Z) (httpEncode64_2 : Z -> list Z -> string)
  (_moauthJSONEncode : list cups_option_t -> option string)
  (authenticates : moauthd_server_t -> option string -> option string -> bool)
  (env : environment) (w : world) (vars : list cups_option_t) (code : string) :
  store_ok (tokens (w_server w)) ->
  cupsGetOption "grant_type" vars = Some "authorization_code" ->
  cupsGetOption "code" vars = Some code ->
  let r := do_token cupsHashData httpEncode64_2 _moauthJSONEncode authenticates
             env (Some vars) w in
  responses w r = [HTTP_STATUS_OK] ->
  moauthdFindToken code (final r) = Done None (final r)
  /\ forall (env' : environment) (vars' : list cups_option_t),
       cupsGetOption "grant_type" vars' = Some "authorization_code" ->
       cupsGetOption "code" vars' = Some code ->
       refused (final r)
         (do_token cupsHashData httpEncode64_2 _moauthJSONEncode authenticates
            env' (Some vars') (final r)).
Proof.
  intros Hstore Hgrant Hcode r Hok.
  pose proof (do_token_consumes cupsHashData httpEncode64_2 _moauthJSONEncode
                authenticates env w vars code Hstore Hgrant Hcode Hok) as Hgone.
  fold r in Hgone. split.
  - unfold moauthdFindToken, bind, get_server, ret. now rewrite Hgone.
  - intros env' vars' Hgrant' Hcode'.
    now apply do_token_code_missing with (code := code).
Qed.

Lemma do_token_single_use_witness :
  let env := Sample.env "A1" in
  let w := Sample.world_of Sample.server1 in
  let vars := [("grant_type", "authorization_code"); ("client_id", "app1");
               ("code", "G1"); ("code_verifier", Sample.code_verifier)] in
  let r := Sample.do_token env (Some vars) w in
  responses w r = [HTTP_STATUS_OK]
  /\ moauthdFindToken "G1" (final r) = Done None (final r)
  /\ forall (env' : environment) (vars' : list cups_option_t),
       cupsGetOption "grant_type" vars' = Some "authorization_code" ->
       cupsGetOption "code" vars' = Some "G1" ->
       refused (final r) (Sample.do_token env' (Some vars') (final r)).
Proof.
  intros env w vars r.
  assert (Hok : responses w r = [HTTP_STATUS_OK]) by (vm_compute; reflexivity).
  split; [exact Hok|].
  apply (do_token_single_use Reference.cupsHashData Reference.httpEncode64_2
           Reference._moauthJSONEncode Reference.authenticates env w vars "G1").
  - intros k t H.
    change (({[ "G1" := Sample.grant MOAUTHD_TOKTYPE_GRANT ]}
             : gmap string moauthd_token_t) !! k = Some t) in H.
    apply lookup_singleton_Some in H as [<- <-]. reflexivity.
  - reflexivity.
  - reflexivity.
  - exact Hok.
Defined.

(** ** The /introspect endpoint *)

Ltac step_introspect :=
  unfold bad_request, moauthdFindToken, moauthdRespondClient,
    httpWrite2_short, moauthdLogc, deref, emit, get_server, get_client,
    bind, ret;
  cbn.

(** For a token bound to a registered application an allowed caller gets
    the 200 response with the fields of the token, when it is encoded. *)
Lemma do_introspect_with_application
  (_moauthJSONEncode : list cups_option_t -> option string)
  (env : environment) (w : world) (vars : list cups_option_t) (id : string)
  (t : moauthd_token_t) (p : ptr) (app : moauthd_application_t) (data : string) :
  introspect_allowed (w_server w) (w_client w) = true ->
  cupsGetOption "token" vars = Some id ->
  tokens (w_server w) !! id = Some t ->
  application t = Some p ->
  application_at (w_server w) p = Some app ->
  _moauthJSONEncode
    ([("active", if now env <? expires t then "true" else "false");
      ("client_id", client_id app); ("exp", pretty (expires t));
      ("iat", pretty (created t))]
     ++ optional "scope" (scopes t) ++ [("token_type", types (type t))]
     ++ optional "username" (user t))
  = Some data ->
  exists v,
    do_introspect _moauthJSONEncode env (Some vars) w
    = Done v {| w_server := w_server w; w_client := w_client w;
                w_events :=
                  w_events w
                  ++ Respond HTTP_STATUS_OK (Some "application/json") None
                       (Z.of_nat (String.length data))
                     :: (if respond_ok env then [Write data] else []) |}.
Proof.
  unfold introspect_allowed. intros Hallowed Hvar Hfound Happ Hat Hjson.
  apply andb_true_iff in Hallowed as [Huser Hgroup].
  apply negb_true_iff in Huser.
  unfold do_introspect. step_introspect. rewrite Huser.
  assert (Hstatus :
            (if negb (introspect_group (w_server w) =? GID_NONE)
             then if existsb (fun g => g =? introspect_group (w_server w))
                       (remote_groups (w_client w))
                  then HTTP_STATUS_OK else HTTP_STATUS_FORBIDDEN
             else HTTP_STATUS_OK) = HTTP_STATUS_OK).
  { destruct (introspect_group (w_server w) =? GID_NONE); [reflexivity|].
    cbn in Hgroup. cbn. now rewrite Hgroup. }
  rewrite Hstatus. cbn. rewrite Hvar, Hfound, Happ. cbn. rewrite Hat. cbn.
  destruct app as [cid ru cn cu lu tu]. cbn in Hjson.
  rewrite do_introspect_json. cbn. rewrite Hjson.
  destruct (respond_ok env); [destruct (write_short env)|]; cbn;
    eexists; rewrite <- ?app_assoc; reflexivity.
Qed.

(** C5: for a stored token without an application, as the password grant
    of /token creates them, the /introspect request of an allowed caller
    gets no 200 response with an empty [client_id]: [do_introspect] reads
    [token->application->client_id] through the [NULL] pointer, and the
    handler ends there without any response. *)
Theorem do_introspect_without_application
  (_moauthJSONEncode : list cups_option_t -> option string)
  (env : environment) (w : world) (vars : list cups_option_t) (id : string)
  (t : moauthd_token_t) :
  introspect_allowed (w_server w) (w_client w) = true ->
  cupsGetOption "token" vars = Some id ->
  tokens (w_server w) !! id = Some t ->
  application t = None ->
  do_introspect _moauthJSONEncode env (Some vars) w = Crash w
  /\ responses w (do_introspect _moauthJSONEncode env (Some vars) w) = [].
Proof.
  unfold introspect_allowed. intros Hallowed Hvar Hfound Happ.
  apply andb_true_iff in Hallowed as [Huser Hgroup].
  apply negb_true_iff in Huser.
  assert (E : do_introspect _moauthJSONEncode env (Some vars) w = Crash w).
  { unfold do_introspect. step_introspect. rewrite Huser.
    assert (Hstatus :
              (if negb (introspect_group (w_server w) =? GID_NONE)
               then if existsb (fun g => g =? introspect_group (w_server w))
                         (remote_groups (w_client w))
                    then HTTP_STATUS_OK else HTTP_STATUS_FORBIDDEN
               else HTTP_STATUS_OK) = HTTP_STATUS_OK).
    { destruct (introspect_group (w_server w) =? GID_NONE); [reflexivity|].
      cbn in Hgroup. cbn. now rewrite Hgroup. }
    rewrite Hstatus. cbn. rewrite Hvar, Hfound, Happ. cbn.
    destruct w; reflexivity. }
  split; [exact E|]. rewrite E. unfold responses. cbn.
  now rewrite drop_all.
Qed.

Lemma do_introspect_without_application_witness :
  let granted :=
    Sample.do_token (Sample.env "P1")
      (Some [("grant_type", "password"); ("username", "alice");
             ("password", "secret")])
      (Sample.world_of Sample.server0) in
  let w := {| w_server := set_introspect_group 27 (w_server (final granted));
              w_client := Sample.alice; w_events := [] |} in
  let t := {| type := MOAUTHD_TOKTYPE_ACCESS; token := "P1"; challenge := None;
              user := Some "alice"; application := None; scopes := None;
              uid := 1000; gid := 1000; created := 1100; expires := 605900 |} in
  responses (Sample.world_of Sample.server0) granted = [HTTP_STATUS_OK]
  /\ tokens (w_server w) !! "P1" = Some t
  /\ Sample.do_introspect (Sample.env "A2") (Some [("token", "P1")]) w = Crash w
  /\ responses w
       (Sample.do_introspect (Sample.env "A2") (Some [("token", "P1")]) w) = [].
Proof.
  intros granted w t.
  assert (Hfound : tokens (w_server w) !! "P1" = Some t)
    by (vm_compute; reflexivity).
  split; [vm_compute; reflexivity|]. split; [exact Hfound|].
  apply (do_introspect_without_application Reference._moauthJSONEncode
           (Sample.env "A2") w [("token", "P1")] "P1" t).
  - vm_compute. reflexivity.
  - reflexivity.
  - exact Hfound.
  - reflexivity.
Defined.

(** ** The Authorization header *)

(** C7 as stated fails: for a request with the header
    [Authorization: Digest dXNlcg==], a scheme that is neither Basic nor
    Bearer, the server logs the scheme and attaches no identity, and then
    answers 401 and leaves the request loop instead of processing the
    request. *)
Lemma unsupported_scheme_answered_401 :
  Sample.moauthdRunClient_authorization (Sample.env "A1") "Digest dXNlcg=="
    (Sample.world_of Sample.server0)
  = Done false
      {| w_server := Sample.server0;
         w_client := set_identity EmptyString 4294967295 new_client;
         w_events :=
           [Logc MOAUTHD_LOGLEVEL_ERROR
              ("Unsupported Authorization scheme " +:+ dquote +:+ "Digest"
               +:+ dquote +:+ ".");
            Respond HTTP_STATUS_UNAUTHORIZED None None 0] |}.
Proof. vm_compute. reflexivity. Qed.

(** C7, amended: for a request whose Authorization header is not empty
    and names a scheme other than Basic and Bearer, the server logs the
    unsupported scheme, attaches no identity, answers 401 and leaves the
    request loop, the server object unchanged. *)
Theorem unsupported_scheme_unauthorized
  (httpDecode64_2 : string -> string)
  (authenticates : moauthd_server_t -> option string -> option string -> bool)
  (getpwnam : string -> option (Z * Z))
  (getgrouplist : string -> Z -> Z -> Z * list Z)
  (env : environment) (w : world) (authorization : string) :
  is_empty authorization = false ->
  String.prefix "Basic " authorization = false ->
  String.prefix "Bearer " authorization = false ->
  moauthdRunClient_authorization httpDecode64_2 authenticates getpwnam
    getgrouplist env authorization w
  = Done false
      {| w_server := w_server w;
         w_client := set_identity EmptyString (to_u32 (-1)) (w_client w);
         w_events :=
           w_events w
           ++ [Logc MOAUTHD_LOGLEVEL_ERROR
                 ("Unsupported Authorization scheme " +:+ dquote
                  +:+ strtok_blank (substring 0 31 authorization)
                  +:+ dquote +:+ ".");
               Respond HTTP_STATUS_UNAUTHORIZED None None 0] |}.
Proof.
  intros Hne Hbasic Hbearer. unfold moauthdRunClient_authorization.
  rewrite Hne, Hbasic, Hbearer.
  unfold moauthdRespondClient, moauthdLogc, emit, get_client, put_client,
    bind, ret.
  cbn. rewrite <- app_assoc. reflexivity.
Qed.

Lemma unsupported_scheme_unauthorized_witness :
  is_empty "Negotiate YIIB" = false
  /\ strtok_blank (substring 0 31 "Negotiate YIIB") = "Negotiate"
  /\ Sample.moauthdRunClient_authorization (Sample.env "A1") "Negotiate YIIB"
       (Sample.world_of Sample.server1)
     = Done false
         {| w_server := Sample.server1;
            w_client := set_identity EmptyString (to_u32 (-1)) new_client;
            w_events :=
              [Logc MOAUTHD_LOGLEVEL_ERROR
                 ("Unsupported Authorization scheme " +:+ dquote
                  +:+ strtok_blank (substring 0 31 "Negotiate YIIB")
                  +:+ dquote +:+ ".");
               Respond HTTP_STATUS_UNAUTHORIZED None None 0] |}.
Proof.
  split; [reflexivity|]. split; [reflexivity|].
  apply (unsupported_scheme_unauthorized Reference.httpDecode64_2
           Reference.authenticates Reference.getpwnam Reference.getgrouplist
           (Sample.env "A1") (Sample.world_of Sample.server1)
           "Negotiate YIIB"); reflexivity.
Defined.

(** ** The code challenge of the client helper *)

(** The array of form variables [moauthAuthorize] builds, as
    [cupsAddOption] keeps it. *)
Lemma moauthAuthorize_vars_sorted
  (cupsHashData : string -> list Z) (httpEncode64_2 : Z -> list Z -> string)
  (redirect_uri client_id : string) (state code_verifier scope : option string) :
  moauthAuthorize_vars cupsHashData httpEncode64_2 redirect_uri client_id
    state code_verifier scope
  = [("client_id", client_id)]
    ++ optional "code_challenge"
         ((fun v => httpEncode64_2 64 (cupsHashData v)) <$> code_verifier)
    ++ [("redirect_uri", redirect_uri); ("response_type", "code")]
    ++ optional "scope" scope ++ optional "state" state.
Proof.
  destruct state, code_verifier, scope; reflexivity.
Qed.

Section CodeChallenge.

Variable cupsHashData : string -> list Z.
Variable httpEncode64_2 : Z -> list Z -> string.
Variable _moauthFormEncode : list cups_option_t -> string.
Variable httpSeparateURI : string -> string * Z * string.
Variable open_url : string -> bool.
Variable _moauthJSONEncode : list cups_option_t -> option string.
Variable authenticates :
  moauthd_server_t -> option string -> option string -> bool.

(** What the two callers rely on: a SHA-256 hash fills the 32 bytes of
    [sha256], and the encoder's output does not depend on the size of a
    buffer that holds all of it, 4 characters for every 3 bytes begun and
    the NUL. *)
Hypothesis cupsHashData_length :
  forall v, length (cupsHashData v) = 32%nat.
Hypothesis httpEncode64_2_fits :
  forall (outlen outlen' : Z) (input : list Z),
    4 * ((Z.of_nat (length input) + 2) / 3) < outlen ->
    4 * ((Z.of_nat (length input) + 2) / 3) < outlen' ->
    httpEncode64_2 outlen input = httpEncode64_2 outlen' input.

Lemma challenge_buffers (v : string) :
  httpEncode64_2 64 (cupsHashData v) = httpEncode64_2 45 (cupsHashData v).
Proof.
  apply httpEncode64_2_fits; rewrite cupsHashData_length; reflexivity.
Qed.

(** C8: for every [code_verifier] there is one [code_challenge] such
    that: the URL [moauthAuthorize] makes, when it fits its 2048 bytes, is
    the authorization endpoint followed by the encoded form variables, the
    [code_challenge] among them; and at /token a request that brings the
    same verifier, for a grant found for the code, bound to the application
    and not expired, is exchanged when the challenge the grant stores is
    that [code_challenge], and answered 400 when it stores another one.
    So the value the helper sends is the value the server recomputes, and a
    grant created with it is exchangeable with the original verifier. *)
Theorem code_challenge_round_trip
  (server : moauth_t) (redirect_uri client_id : string)
  (state scope : option string) (code_verifier : string) :
  exists code_challenge,
    (let '(host, port, resource) :=
       httpSeparateURI (authorization_endpoint server) in
     let url :=
       moauthAuthorize_url host port resource
         (_moauthFormEncode
            ([("client_id", client_id); ("code_challenge", code_challenge);
              ("redirect_uri", redirect_uri); ("response_type", "code")]
             ++ optional "scope" scope ++ optional "state" state)) in
     (moauthAuthorize cupsHashData httpEncode64_2 _moauthFormEncode
        httpSeparateURI open_url (Some server) (Some redirect_uri)
        (Some client_id) state (Some code_verifier) scope).2
     = if 2048 <=? Z.of_nat (String.length url) then None else Some url)
    /\ forall (env : environment) (w : world) (vars : list cups_option_t)
         (id code : string) (app : ptr * moauthd_application_t)
         (t : moauthd_token_t) (stored : string),
         cupsGetOption "grant_type" vars = Some "authorization_code" ->
         cupsGetOption "client_id" vars = Some id ->
         cupsGetOption "code" vars = Some code ->
         cupsGetOption "code_verifier" vars = Some code_verifier ->
         moauthdFindApplication (w_server w) id
           (cupsGetOption "redirect_uri" vars) = Some app ->
         tokens (w_server w) !! code = Some t ->
         application t = Some app.1 ->
         now env < expires t ->
         challenge t = Some stored ->
         let r := do_token cupsHashData httpEncode64_2 _moauthJSONEncode
                    authenticates env (Some vars) w in
         if bool_decide (stored = code_challenge)
         then exchanged _moauthJSONEncode env w app.1 t r
         else refused w r.
Proof.
  exists (httpEncode64_2 64 (cupsHashData code_verifier)). split.
  - unfold moauthAuthorize.
    destruct (httpSeparateURI (authorization_endpoint server))
      as [[host port] resource].
    rewrite moauthAuthorize_vars_sorted. cbn [fmap option_fmap option_map
      optional app].
    destruct (2048 <=? _); [reflexivity|].
    destruct (open_url _); reflexivity.
  - intros env w vars id code app t stored Hgrant Hclient Hcode Hverifier
      Happ Hfound Hbound Hlive Hch r.
    pose proof (do_token_pkce_cases cupsHashData httpEncode64_2
                  _moauthJSONEncode authenticates env w vars id code app t
                  Hgrant Hclient Hcode Happ Hfound Hbound Hlive) as H.
    cbv zeta in H. fold r in H. clearbody r.
    unfold pkce_accepts in H. rewrite Hch, Hverifier in H.
    rewrite challenge_buffers.
    destruct (decide (stored = httpEncode64_2 45 (cupsHashData code_verifier)))
      as [E|E].
    + rewrite bool_decide_eq_true_2 in H by congruence.
      rewrite bool_decide_eq_true_2 by exact E.
      rewrite H. apply do_token_exchange_exchanged.
    + rewrite bool_decide_eq_false_2 in H by congruence.
      rewrite bool_decide_eq_false_2 by exact E. exact H.
Qed.

End CodeChallenge.

Lemma code_challenge_round_trip_witness :
  let env := Sample.env "A1" in
  let w := Sample.world_of Sample.server1 in
  let vars := [("client_id", "app1"); ("code", "G1");
               ("code_verifier", Sample.code_verifier);
               ("grant_type", "authorization_code")] in
  exists code_challenge,
    (let url :=
       moauthAuthorize_url "auth.example.com" 9000 "/authorize"
         (Scene._moauthFormEncode
            [("client_id", "app1"); ("code_challenge", code_challenge);
             ("redirect_uri", "https://app/cb"); ("response_type", "code");
             ("state", "xyz")]) in
     (moauthAuthorize Reference.cupsHashData Reference.httpEncode64_2
        Scene._moauthFormEncode
        (fun _ => ("auth.example.com", 9000, "/authorize")) (fun _ => true)
        (Some {| authorization_endpoint :=
                   "https://auth.example.com:9000/authorize";
                 error := EmptyString |})
        (Some "https://app/cb") (Some "app1") (Some "xyz")
        (Some Sample.code_verifier) None).2
     = if 2048 <=? Z.of_nat (String.length url) then None else Some url)
    /\ if bool_decide (Sample.code_challenge = code_challenge)
       then exchanged Reference._moauthJSONEncode env w 1%nat
              (Sample.grant MOAUTHD_TOKTYPE_GRANT)
              (Sample.do_token env (Some vars) w)
       else refused w (Sample.do_token env (Some vars) w).
Proof.
  intros env w vars.
  destruct (code_challenge_round_trip Reference.cupsHashData
              Reference.httpEncode64_2 Scene._moauthFormEncode
              (fun _ => ("auth.example.com", 9000, "/authorize"))
              (fun _ => true) Reference._moauthJSONEncode
              Reference.authenticates reference_cupsHashData_length
              reference_httpEncode64_2_fits
              {| authorization_endpoint :=
                   "https://auth.example.com:9000/authorize";
                 error := EmptyString |}
              "https://app/cb" "app1" (Some "xyz") None Sample.code_verifier)
    as (code_challenge & Hurl & Htoken).
  exists code_challenge. split; [exact Hurl|].
  apply (Htoken env w vars "app1" "G1"
           (1%nat,
            {| client_id := "app1"; redirect_uri := "https://app/cb";
               client_name := Some "App One"; client_uri := None;
               logo_uri := None; tos_uri := None |})
           (Sample.grant MOAUTHD_TOKTYPE_GRANT) Sample.code_challenge).
  - reflexivity.
  - reflexivity.
  - reflexivity.
  - reflexivity.
  - vm_compute. reflexivity.
  - vm_compute. reflexivity.
  - reflexivity.
  - vm_compute. reflexivity.
  - reflexivity.
Defined.

(** ** Exchanges of one code by several workers *)

Lemma exchange_body_vars (x : exchange) :
  cupsGetOption "grant_type" (exchange_body x) = Some "authorization_code"
  /\ cupsGetOption "client_id" (exchange_body x) = Some (x_client_id x)
  /\ cupsGetOption "code" (exchange_body x) = Some (x_code x)
  /\ cupsGetOption "redirect_uri" (exchange_body x) = x_redirect_uri x
  /\ cupsGetOption "code_verifier" (exchange_body x) = x_verifier x.
Proof.
  destruct x as [id [uri|] code [v|]]; repeat split; reflexivity.
Qed.

Ltac crunch :=
  repeat (progress
            (unfold exchange_step, returning, do_token_exchange,
               do_token_respond, do_token_verify, bad_request,
               moauthdCreateToken, moauthdDeleteToken, moauthdFindToken,
               moauthdRespondClient, httpWrite2_short, moauthdLogc, when,
               deref, emit, get_server, get_client, put_server, put_client,
               cupsAddOption, bind, ret;
             cbn)).

(** A thread that is left alone does what [do_token] does on the request
    of its exchange. *)
Lemma exchange_alone_do_token
  (cupsHashData : string -> list Z) (httpEncode64_2 : Z -> list Z -> string)
  (_moauthJSONEncode : list cups_option_t -> option string)
  (authenticates : moauthd_server_t -> option string -> option string -> bool)
  (env : environment) (x : exchange) (w : world) :
  exchange_alone cupsHashData httpEncode64_2 _moauthJSONEncode env x w
  = do_token cupsHashData httpEncode64_2 _moauthJSONEncode authenticates env
      (Some (exchange_body x)) w.
Proof.
  destruct (exchange_body_vars x) as (Hg & Hi & Hc & Hu & Hv).
  unfold do_token. rewrite Hg, Hi, Hc, Hu, Hv.
  autorewrite with grant_types. unfold exchange_alone. crunch.
  destruct (moauthdFindApplication (w_server w) (x_client_id x)
              (x_redirect_uri x)) as [app|].
  2:{ destruct (is_null (x_redirect_uri x)); crunch; reflexivity. }
  crunch.
  destruct (tokens (w_server w) !! x_code x) as [t|]; crunch; [|reflexivity].
  destruct (bool_decide (application t = Some app.1)); crunch; [|reflexivity].
  destruct (expires t <=? now env); crunch; [reflexivity|].
  destruct (challenge t) as [stored|]; crunch.
  - destruct (x_verifier x) as [v|]; crunch; [|reflexivity].
    destruct (strcmp stored (httpEncode64_2 45 (cupsHashData v)) =? 0); crunch;
      [|reflexivity].
    destruct (new_token env) as [[[tid uid] gid]|]; crunch; [|reflexivity].
    destruct (_moauthJSONEncode _); crunch; [|reflexivity].
    destruct (respond_ok env); crunch; [|reflexivity].
    destruct (write_short env); reflexivity.
  - destruct (new_token env) as [[[tid uid] gid]|]; crunch; [|reflexivity].
    destruct (_moauthJSONEncode _); crunch; [|reflexivity].
    destruct (respond_ok env); crunch; [|reflexivity].
    destruct (write_short env); reflexivity.
Qed.

(** C6 as stated fails: two workers exchange the same grant code G1, and
    their calls into the token store alternate, as nothing in [do_token]
    prevents.  After three calls each, both have found the grant, which is
    still in the store, and each has created an access token of its own;
    after the fourth, the deletion (for the second worker, of a token that
    is deleted already), both requests are answered 200: two successes and
    no 400. *)
Lemma parallel_exchanges_both_succeed :
  let created := Sample.run [0; 1; 0; 1; 0; 1]%nat Sample.two_threads in
  let sys := Sample.run [0; 1; 0; 1; 0; 1; 0; 1]%nat Sample.two_threads in
  omap (fun t => match th_pc t with
                 | AtDeleteToken grant_token access_token =>
                     Some (token grant_token, token access_token)
                 | _ => None
                 end) created.2
  = [("G1", "A1"); ("G1", "A2")]
  /\ type <$> tokens created.1 !! "G1" = Some MOAUTHD_TOKTYPE_GRANT
  /\ map th_pc sys.2 = [Returned 1; Returned 1]
  /\ map (fun t => statuses (th_events t)) sys.2
     = [[HTTP_STATUS_OK]; [HTTP_STATUS_OK]]
  /\ type <$> tokens sys.1 !! "A1" = Some MOAUTHD_TOKTYPE_ACCESS
  /\ type <$> tokens sys.1 !! "A2" = Some MOAUTHD_TOKTYPE_ACCESS.
Proof. vm_compute. repeat split; reflexivity. Qed.

(** The same two workers, the second starting after the first has
    returned. *)
Example parallel_exchanges_one_by_one :
  let sys := Sample.run [0; 0; 0; 0; 1; 1; 1; 1]%nat Sample.two_threads in
  map th_pc sys.2 = [Returned 1; Returned 1]
  /\ map (fun t => statuses (th_events t)) sys.2
     = [[HTTP_STATUS_OK]; [HTTP_STATUS_BAD_REQUEST]].
Proof. vm_compute. split; reflexivity. Qed.

Section InTurn.

Variable cupsHashData : string -> list Z.
Variable httpEncode64_2 : Z -> list Z -> string.
Variable _moauthJSONEncode : list cups_option_t -> option string.
Variable authenticates :
  moauthd_server_t -> option string -> option string -> bool.

Local Abbreviation turn_of :=
  (turn cupsHashData httpEncode64_2 _moauthJSONEncode authenticates).
Local Abbreviation answers_in_turn :=
  (in_turn cupsHashData httpEncode64_2 _moauthJSONEncode authenticates).

Lemma turn_missing (server : moauthd_server_t) (q : environment * exchange) :
  tokens server !! x_code q.2 = None ->
  turn_of server q = (server, [HTTP_STATUS_BAD_REQUEST]).
Proof.
  intros Hmissing.
  destruct (exchange_body_vars q.2) as (Hg & _ & Hc & _).
  destruct (do_token_code_missing cupsHashData httpEncode64_2
              _moauthJSONEncode authenticates q.1
              {| w_server := server; w_client := new_client; w_events := [] |}
              (exchange_body q.2) (x_code q.2) Hg Hc Hmissing)
    as (v & ev & E & Hs).
  unfold turn. rewrite E. cbn [final w_server w_events app fst snd].
  now rewrite Hs.
Qed.

Lemma in_turn_missing (code : string) (qs : list (environment * exchange)) :
  forall server,
    tokens server !! code = None ->
    Forall (fun q => x_code q.2 = code) qs ->
    answers_in_turn server qs = map (fun _ => [HTTP_STATUS_BAD_REQUEST]) qs.
Proof.
  induction qs as [|q qs IH]; intros server Hmissing Hall; [reflexivity|].
  apply Forall_cons in Hall as [Hq Hall]. cbn [in_turn map].
  rewrite turn_missing by now rewrite Hq.
  cbn [fst snd]. now rewrite IH.
Qed.

(** Of the exchanges of one code handled in turn, the first being answered
    200, the others are answered 400. *)
Lemma exchanges_in_turn (server : moauthd_server_t) (code : string)
  (q : environment * exchange) (qs : list (environment * exchange)) :
  store_ok (tokens server) ->
  Forall (fun q' => x_code q'.2 = code) (q :: qs) ->
  (turn_of server q).2 = [HTTP_STATUS_OK] ->
  answers_in_turn server (q :: qs)
  = [HTTP_STATUS_OK] :: map (fun _ => [HTTP_STATUS_BAD_REQUEST]) qs.
Proof.
  intros Hstore Hall Hok. apply Forall_cons in Hall as [Hq Hall].
  cbn [in_turn]. rewrite Hok. f_equal.
  apply in_turn_missing with (code := code); [|exact Hall].
  destruct (exchange_body_vars q.2) as (Hg & _ & Hc & _).
  rewrite Hq in Hc.
  apply (do_token_consumes cupsHashData httpEncode64_2 _moauthJSONEncode
           authenticates q.1
           {| w_server := server; w_client := new_client; w_events := [] |}
           (exchange_body q.2) code Hstore Hg Hc).
  exact Hok.
Qed.

End InTurn.

(** ** Threads that run one after the other *)

Section OneByOne.

Variable cupsHashData : string -> list Z.
Variable httpEncode64_2 : Z -> list Z -> string.
Variable _moauthJSONEncode : list cups_option_t -> option string.
Variable authenticates :
  moauthd_server_t -> option string -> option string -> bool.

Local Abbreviation step_of :=
  (exchange_step cupsHashData httpEncode64_2 _moauthJSONEncode).
Local Abbreviation thread_step_of :=
  (thread_step cupsHashData httpEncode64_2 _moauthJSONEncode).
Local Abbreviation run_of :=
  (run cupsHashData httpEncode64_2 _moauthJSONEncode).

(** No call of a thread on the [authorization_code] path dereferences a
    [NULL] pointer. *)
Lemma exchange_step_done (env : environment) (x : exchange) (p : pc) (w : world) :
  exists p' w', step_of env x p w = Done p' w'.
Proof.
  destruct p as [|app|t|app t|t a|v|]; crunch.
  - destruct (moauthdFindApplication _ _ _); crunch; [eauto|].
    destruct (is_null _); crunch; eauto.
  - destruct (tokens (w_server w) !! x_code x) as [t|]; crunch; [|eauto].
    destruct (bool_decide _); crunch; [|eauto].
    destruct (expires t <=? now env); crunch; [eauto|].
    destruct (challenge t) as [stored|]; crunch; [|eauto].
    destruct (x_verifier x) as [v|]; crunch; [|eauto].
    destruct (strcmp _ _ =? 0); crunch; eauto.
  - eauto.
  - destruct (new_token env) as [[[tid uid] gid]|]; crunch; eauto.
  - destruct (_moauthJSONEncode _); crunch; [|eauto].
    destruct (respond_ok env); crunch; [|eauto].
    destruct (write_short env); eauto.
  - eauto.
  - eauto.
Qed.

Lemma thread_step_at (env : environment) (x : exchange) (p : pc) (w : world) :
  exists p' w',
    step_of env x p w = Done p' w'
    /\ thread_step_of (w_server w) (thread_at env x p w)
       = (w_server w', thread_at env x p' w').
Proof.
  destruct (exchange_step_done env x p w) as (p' & w' & E).
  exists p', w'. split; [exact E|].
  unfold thread_step, thread_at. cbn.
  replace {| w_server := w_server w; w_client := w_client w;
             w_events := w_events w |} with w by (destruct w; reflexivity).
  now rewrite E.
Qed.

(** Four calls of a new thread in a row are one [do_token]. *)
Lemma thread_alone (server : moauthd_server_t) (env : environment) (x : exchange) :
  exists t',
    foldl (fun st _ => thread_step_of st.1 st.2) (server, new_thread env x)
      [tt; tt; tt; tt]
    = ((turn cupsHashData httpEncode64_2 _moauthJSONEncode authenticates
          server (env, x)).1, t')
    /\ statuses (th_events t')
       = (turn cupsHashData httpEncode64_2 _moauthJSONEncode authenticates
            server (env, x)).2.
Proof.
  set (w0 := {| w_server := server; w_client := new_client; w_events := [] |}).
  destruct (thread_step_at env x AtFindApplication w0) as (p1 & w1 & E1 & T1).
  destruct (thread_step_at env x p1 w1) as (p2 & w2 & E2 & T2).
  destruct (thread_step_at env x p2 w2) as (p3 & w3 & E3 & T3).
  destruct (thread_step_at env x p3 w3) as (p4 & w4 & E4 & T4).
  assert (Hfinal : final (do_token cupsHashData httpEncode64_2
                            _moauthJSONEncode authenticates env
                            (Some (exchange_body x)) w0) = w4).
  { rewrite <- exchange_alone_do_token. unfold exchange_alone, bind.
    rewrite E1, E2, E3, E4. destruct p4; reflexivity. }
  exists (thread_at env x p4 w4). unfold turn. cbn [fst snd].
  fold w0. rewrite Hfinal. split; [|reflexivity].
  cbn [foldl fst snd].
  change (new_thread env x) with (thread_at env x AtFindApplication w0).
  change (w_server w0) with server in T1.
  rewrite T1. cbn [fst snd]. rewrite T2. cbn [fst snd].
  rewrite T3. cbn [fst snd]. rewrite T4. reflexivity.
Qed.

Lemma system_step_middle (server : moauthd_server_t) (done rest : list thread)
  (t : thread) :
  system_step cupsHashData httpEncode64_2 _moauthJSONEncode
    (server, done ++ t :: rest) (length done)
  = ((thread_step_of server t).1, done ++ (thread_step_of server t).2 :: rest).
Proof.
  unfold system_step. cbn [fst snd].
  rewrite list_lookup_middle by reflexivity.
  destruct (thread_step_of server t) as [server' t']. cbn [fst snd].
  f_equal. replace (length done) with (length done + 0)%nat at 1 by lia.
  now rewrite insert_app_r.
Qed.

Lemma run_thread_alone (server : moauthd_server_t) (done rest : list thread)
  (env : environment) (x : exchange) :
  exists t',
    run_of [length done; length done; length done; length done]
      (server, done ++ new_thread env x :: rest)
    = ((turn cupsHashData httpEncode64_2 _moauthJSONEncode authenticates
          server (env, x)).1, done ++ t' :: rest)
    /\ statuses (th_events t')
       = (turn cupsHashData httpEncode64_2 _moauthJSONEncode authenticates
            server (env, x)).2.
Proof.
  destruct (thread_alone server env x) as (t' & Hrun & Hst).
  exists t'. split; [|exact Hst].
  unfold run. cbn [foldl] in *.
  rewrite !system_step_middle. cbn [fst snd]. cbn [fst snd] in Hrun.
  rewrite Hrun. reflexivity.
Qed.

(** Threads that run one after the other answer as the same exchanges
    handled in turn by [do_token]. *)
Lemma run_one_by_one_from (qs : list (environment * exchange)) :
  forall (server : moauthd_server_t) (done : list thread),
    exists finished,
      (run_of (flat_map (fun i => [i; i; i; i]) (seq (length done) (length qs)))
         (server, done ++ map (fun q => new_thread q.1 q.2) qs)).2
      = done ++ finished
      /\ map (fun t => statuses (th_events t)) finished
         = in_turn cupsHashData httpEncode64_2 _moauthJSONEncode authenticates
             server qs.
Proof.
  induction qs as [|[env x] qs IH]; intros server done.
  - exists []. split; reflexivity.
  - cbn [length seq flat_map map in_turn fst snd].
    unfold run. rewrite foldl_app.
    destruct (run_thread_alone server done
                (map (fun q => new_thread q.1 q.2) qs) env x)
      as (t' & Hrun & Hst).
    unfold run in Hrun. rewrite Hrun.
    destruct (IH (turn cupsHashData httpEncode64_2 _moauthJSONEncode
                    authenticates server (env, x)).1 (done ++ [t']))
      as (finished & Hfin & Hstatuses).
    rewrite length_app in Hfin. cbn [length] in Hfin.
    rewrite Nat.add_1_r in Hfin. rewrite <- !app_assoc in Hfin.
    cbn [app] in Hfin. unfold run in Hfin.
    exists (t' :: finished). split; [exact Hfin|].
    cbn [map]. now rewrite Hst, Hstatuses.
Qed.

Lemma run_one_by_one (server : moauthd_server_t)
  (qs : list (environment * exchange)) :
  map (fun t => statuses (th_events t))
    (run_of (one_by_one (length qs))
       (server, map (fun q => new_thread q.1 q.2) qs)).2
  = in_turn cupsHashData httpEncode64_2 _moauthJSONEncode authenticates
      server qs.
Proof.
  destruct (run_one_by_one_from qs server []) as (finished & Hfin & Hst).
  unfold one_by_one. cbn [length app] in Hfin. now rewrite Hfin.
Qed.

(** C6, amended: [do_token] takes no lock over the lookup, the checks and
    the deletion of the token, which are separate calls into the store, so
    the consumption of a grant is not atomic; of N workers that exchange
    the same grant code one after the other, none starting before the one
    before it has returned, and the first being answered 200, exactly that
    one succeeds and the other N-1 are answered 400. *)
Theorem exchanges_one_by_one (server : moauthd_server_t) (code : string)
  (q : environment * exchange) (qs : list (environment * exchange)) :
  store_ok (tokens server) ->
  Forall (fun q' => x_code q'.2 = code) (q :: qs) ->
  (turn cupsHashData httpEncode64_2 _moauthJSONEncode authenticates server q).2
  = [HTTP_STATUS_OK] ->
  map (fun t => statuses (th_events t))
    (run_of (one_by_one (length (q :: qs)))
       (server, map (fun q' => new_thread q'.1 q'.2) (q :: qs))).2
  = [HTTP_STATUS_OK] :: map (fun _ => [HTTP_STATUS_BAD_REQUEST]) qs.
Proof.
  intros Hstore Hall Hok. rewrite run_one_by_one.
  now apply exchanges_in_turn with (code := code).
Qed.

End OneByOne.

Lemma exchanges_one_by_one_witness :
  let qs := [(Sample.env "A1", Sample.exchange_G1);
             (Sample.env "A2", Sample.exchange_G1);
             (Sample.env "A3", Sample.exchange_G1)] in
  map (fun t => statuses (th_events t))
    (Sample.run (one_by_one 3)
       (Sample.server1, map (fun q => new_thread q.1 q.2) qs)).2
  = [[HTTP_STATUS_OK]; [HTTP_STATUS_BAD_REQUEST]; [HTTP_STATUS_BAD_REQUEST]].
Proof.
  intros qs.
  apply (exchanges_one_by_one Reference.cupsHashData Reference.httpEncode64_2
           Reference._moauthJSONEncode Reference.authenticates Sample.server1
           "G1" (Sample.env "A1", Sample.exchange_G1)
           [(Sample.env "A2", Sample.exchange_G1);
            (Sample.env "A3", Sample.exchange_G1)]).
  - intros k t H.
    change (({[ "G1" := Sample.grant MOAUTHD_TOKTYPE_GRANT ]}
             : gmap string moauthd_token_t) !! k = Some t) in H.
    apply lookup_singleton_Some in H as [<- <-]. reflexivity.
  - repeat constructor.
  - vm_compute. reflexivity.
Defined.

(** * Further properties *)

(** ** Time values with a unit *)

Lemma digits_app (d u : string) :
  all_digits d = true ->
  match u with String c _ => isdigit c = false | EmptyString => True end ->
  forall acc n,
    digits acc n (d +:+ u)
    = ((digits acc n d).1.1, (n + String.length d)%nat, u).
Proof.
  intros Hd Hu. induction d as [|c d IH]; intros acc n.
  - simpl. rewrite Nat.add_0_r. destruct u as [|x u]; [reflexivity|].
    simpl. now rewrite Hu.
  - simpl in Hd. apply andb_true_iff in Hd as [Hc Hd]. simpl. rewrite Hc.
    rewrite (IH Hd). f_equal. f_equal. lia.
Qed.

Lemma digits_nonneg (d : string) (acc : Z) (n : nat) :
  0 <= acc -> 0 <= (digits acc n d).1.1.
Proof.
  revert acc n.
  induction d as [|c d IH]; intros acc n Hacc; simpl; [exact Hacc|].
  destruct (isdigit c) eqn:Hc; [|exact Hacc].
  apply IH. unfold isdigit in Hc. cbv zeta in Hc.
  apply andb_true_iff in Hc as [Hc _]. apply Z.leb_le in Hc. lia.
Qed.

Lemma to_int_small (z : Z) : 0 <= z < 2147483648 -> to_int z = z.
Proof. intros H. unfold to_int. rewrite Z.mod_small; lia. Qed.

Lemma strtol_digits_unit (d u : string) (f : Z) :
  all_digits d = true ->
  In (u, f) time_units ->
  strtol (d +:+ u)
  = (Z.max LONG_MIN (Z.min LONG_MAX (decimal d)), u).
Proof.
  intros Hd Hu.
  assert (Hlead : match u with
                  | String c _ => isdigit c = false
                  | EmptyString => True
                  end).
  { cbn in Hu. repeat (destruct Hu as [Hu|Hu]; [injection Hu as <- _; reflexivity|]).
    destruct Hu. }
  destruct d as [|c d].
  - cbn in Hu.
    repeat (destruct Hu as [Hu|Hu]; [injection Hu as <- _; reflexivity|]).
    destruct Hu.
  - pose proof Hd as Hall. cbn in Hd. apply andb_true_iff in Hd as [Hc Hd].
    unfold strtol.
    change (String c d +:+ u) with (String c (d +:+ u)).
    cbn [skip_space]. rewrite (isdigit_not_space c Hc).
    rewrite (isdigit_no_sign c (d +:+ u) Hc).
    change (String c (d +:+ u)) with (String c d +:+ u).
    rewrite (digits_app _ _ Hall Hlead). cbn [String.length Nat.add].
    reflexivity.
Qed.

Lemma time_units_cases (u : string) (f : Z) :
  In (u, f) time_units ->
  60 <= f
  /\ forall t,
       (if strcasecmp u "m" =? 0 then to_int (t * 60)
        else if strcasecmp u "h" =? 0 then to_int (t * 3600)
        else if strcasecmp u "d" =? 0 then to_int (t * 86400)
        else if strcasecmp u "w" =? 0 then to_int (t * 604800)
        else -1) = to_int (t * f).
Proof.
  intros Hu. cbn in Hu.
  repeat (destruct Hu as [Hu|Hu];
          [injection Hu as <- <-; split; [lia|reflexivity]|]).
  destruct Hu.
Qed.

Lemma load_config_line_MaxGrantLife
  (other : moauthd_server_t -> string -> option string -> option moauthd_server_t)
  (server : moauthd_server_t) (value : string) :
  load_config_line other server "MaxGrantLife" (Some value)
  = if get_seconds value <? 0 then None
    else Some (set_max_grant_life (get_seconds value) server).
Proof. reflexivity. Qed.

Lemma load_config_line_MaxTokenLife
  (other : moauthd_server_t -> string -> option string -> option moauthd_server_t)
  (server : moauthd_server_t) (value : string) :
  load_config_line other server "MaxTokenLife" (Some value)
  = if get_seconds value <? 0 then None
    else Some (set_max_token_life (get_seconds value) server).
Proof. reflexivity. Qed.

(** X1: a time value made of decimal digits and one of the unit letters
    m, h, d, w in either case is the number times 60, 3600, 86400 or 604800
    seconds, as long as that fits an [int]; without any digit the number is
    0.  Loading the configuration then sets the limit to it. *)
Theorem get_seconds_units
  (other : moauthd_server_t -> string -> option string -> option moauthd_server_t)
  (server : moauthd_server_t) (d u : string) (f : Z) :
  all_digits d = true ->
  In (u, f) time_units ->
  decimal d * f < 2147483648 ->
  get_seconds (d +:+ u) = decimal d * f
  /\ load_config_line other server "MaxGrantLife" (Some (d +:+ u))
     = Some (set_max_grant_life (decimal d * f) server)
  /\ load_config_line other server "MaxTokenLife" (Some (d +:+ u))
     = Some (set_max_token_life (decimal d * f) server).
Proof.
  intros Hd Hu Hfit.
  pose proof (digits_nonneg d 0 0 (Z.le_refl 0)) as Hpos.
  fold (decimal d) in Hpos.
  destruct (time_units_cases u f Hu) as [Hf Hcases].
  assert (Hs : get_seconds (d +:+ u) = decimal d * f).
  { unfold get_seconds. rewrite (strtol_digits_unit d u f Hd Hu).
    assert (Hclamp : Z.max LONG_MIN (Z.min LONG_MAX (decimal d)) = decimal d).
    { unfold LONG_MIN, LONG_MAX. nia. }
    rewrite Hclamp. rewrite (to_int_small (decimal d)) by nia.
    rewrite Hcases. apply to_int_small. split; [|exact Hfit].
    apply Z.mul_nonneg_nonneg; lia. }
  split; [exact Hs|].
  rewrite load_config_line_MaxGrantLife, load_config_line_MaxTokenLife, Hs.
  assert (Hlt : (decimal d * f <? 0) = false)
    by (apply Z.ltb_ge, Z.mul_nonneg_nonneg; lia).
  rewrite Hlt. split; reflexivity.
Qed.

Lemma get_seconds_units_witness :
  get_seconds "5m" = 300
  /\ load_config_line (fun s _ _ => Some s) default_server "MaxGrantLife"
       (Some "5m")
     = Some (set_max_grant_life 300 default_server)
  /\ load_config_line (fun s _ _ => Some s) default_server "MaxTokenLife"
       (Some "5m")
     = Some (set_max_token_life 300 default_server).
Proof.
  apply (get_seconds_units (fun s _ _ => Some s) default_server "5" "m" 60).
  - reflexivity.
  - left. reflexivity.
  - vm_compute. reflexivity.
Defined.

(** ** The application registry *)

Lemma strcmp_cons (x y : ascii) (a b : string) :
  strcmp (String x a) (String y b)
  = if byte_of x =? byte_of y then strcmp a b
    else if byte_of x <? byte_of y then -1 else 1.
Proof. reflexivity. Qed.

Lemma strcmp_antisym (a b : string) : strcmp b a = - strcmp a b.
Proof.
  revert b. induction a as [|x a IH]; intros [|y b]; try reflexivity.
  rewrite !strcmp_cons, IH.
  destruct (Z.eqb_spec (byte_of x) (byte_of y)) as [E|E];
    destruct (Z.eqb_spec (byte_of y) (byte_of x)) as [E'|E']; try lia.
  destruct (Z.ltb_spec (byte_of x) (byte_of y));
    destruct (Z.ltb_spec (byte_of y) (byte_of x)); lia.
Qed.

Lemma strcmp_le_trans (a b c : string) :
  strcmp a b <= 0 -> strcmp b c <= 0 -> strcmp a c <= 0.
Proof.
  revert b c. induction a as [|x a IH]; intros [|y b] [|z c];
    try (cbv; congruence); try (intros; cbv; congruence).
  rewrite !strcmp_cons.
  destruct (Z.eqb_spec (byte_of x) (byte_of y)) as [E1|E1];
    destruct (Z.eqb_spec (byte_of y) (byte_of z)) as [E2|E2];
    destruct (Z.eqb_spec (byte_of x) (byte_of z)) as [E3|E3];
    destruct (Z.ltb_spec (byte_of x) (byte_of y));
    destruct (Z.ltb_spec (byte_of y) (byte_of z));
    destruct (Z.ltb_spec (byte_of x) (byte_of z));
    try lia; try (intros; lia).
  apply IH.
Qed.

Lemma cupsArrayFind_first (apps : list (ptr * moauthd_application_t))
  (key : moauthd_application_t) :
  cupsArrayFind compare_applications apps key
  = List.find (fun e => bool_decide (client_id e.2 = client_id key)) apps.
Proof.
  induction apps as [|e apps IH]; [reflexivity|].
  cbn [cupsArrayFind List.find]. unfold compare_applications at 1.
  rewrite strcmp_eqb, IH.
  destruct (bool_decide_reflect (client_id key = client_id e.2)) as [E|E].
  - now rewrite bool_decide_eq_true_2.
  - now rewrite bool_decide_eq_false_2 by congruence.
Qed.

Lemma moauthdFindApplication_find (server : moauthd_server_t) (id : string)
  (uri : option string) :
  moauthdFindApplication server id uri
  = List.find (fun e => bool_decide (client_id e.2 = id)) (applications server).
Proof.
  destruct uri as [uri|]; cbn [moauthdFindApplication].
  - apply cupsArrayFind_first.
  - induction (applications server) as [|e apps IH]; [reflexivity|].
    cbn [List.find]. destruct e as [p [cid ru cn cu lu tu]]. cbn [snd client_id].
    rewrite strcmp_eqb. rewrite IH. reflexivity.
Qed.

Lemma find_first_match {A} (f : A -> bool) (l : list A) :
  match List.find f l with
  | Some e =>
      exists l1 l2, l = l1 ++ e :: l2 /\ f e = true
                    /\ Forall (fun x => f x = false) l1
  | None => Forall (fun x => f x = false) l
  end.
Proof.
  induction l as [|x l IH]; cbn [List.find]; [constructor|].
  destruct (f x) eqn:Hx.
  - exists [], l. repeat split; [exact Hx|constructor].
  - destruct (List.find f l) as [e|].
    + destruct IH as (l1 & l2 & -> & He & Hl1).
      exists (x :: l1), l2. repeat split; [exact He|].
      constructor; assumption.
    + constructor; assumption.
Qed.

Lemma find_application_first_match (server : moauthd_server_t)
  (id : string) (uri : option string) :
  match moauthdFindApplication server id uri with
  | Some e =>
      exists l1 l2,
        applications server = l1 ++ e :: l2
        /\ client_id e.2 = id
        /\ Forall (fun x => client_id x.2 <> id) l1
  | None => Forall (fun x => client_id x.2 <> id) (applications server)
  end.
Proof.
  rewrite moauthdFindApplication_find.
  pose proof (find_first_match
                (fun e : ptr * moauthd_application_t =>
                   bool_decide (client_id e.2 = id))
                (applications server)) as H.
  destruct (List.find _ (applications server)) as [e|].
  - destruct H as (l1 & l2 & E & He & Hl1). exists l1, l2.
    split; [exact E|]. split; [now apply bool_decide_eq_true in He|].
    eapply Forall_impl; [exact Hl1|].
    intros x Hx. now apply bool_decide_eq_false in Hx.
  - eapply Forall_impl; [exact H|].
    intros x Hx. now apply bool_decide_eq_false in Hx.
Qed.

(** X2: the application found for a client identifier is the first
    element of the array with that identifier, whether a redirect URI is
    given or not; none is found only when no element has the identifier. *)
Theorem moauthdFindApplication_first_match (server : moauthd_server_t)
  (id : string) (uri : option string) :
  match moauthdFindApplication server id uri with
  | Some e =>
      exists l1 l2,
        applications server = l1 ++ e :: l2
        /\ client_id e.2 = id
        /\ Forall (fun x => client_id x.2 <> id) l1
  | None => Forall (fun x => client_id x.2 <> id) (applications server)
  end.
Proof. apply find_application_first_match. Qed.

Lemma cupsArrayAdd_split {A} (compare : A -> A -> Z) (a : list (ptr * A))
  (e : ptr * A) :
  exists l1 l2,
    a = l1 ++ l2 /\ cupsArrayAdd compare a e = l1 ++ e :: l2
    /\ Forall (fun x => 0 <= compare e.2 x.2) l1
    /\ match l2 with
       | [] => True
       | x :: _ => compare e.2 x.2 < 0
       end.
Proof.
  induction a as [|x a IH]; cbn [cupsArrayAdd].
  - exists [], []. repeat split. constructor.
  - destruct (Z.ltb_spec (compare e.2 x.2) 0) as [Hlt|Hge].
    + exists [], (x :: a). repeat split; [constructor|exact Hlt].
    + destruct IH as (l1 & l2 & -> & E & Hl1 & Hl2).
      exists (x :: l1), l2. rewrite E. repeat split; [|exact Hl2].
      constructor; assumption.
Qed.

Lemma fresh_ptr_above {A} (a : list (ptr * A)) (p : ptr) :
  p ∈ a.*1 -> (p < fresh_ptr a)%nat.
Proof.
  unfold fresh_ptr. induction a as [|x a IH]; cbn.
  - intros H. inversion H.
  - intros H. apply elem_of_cons in H as [->|H]; [lia|].
    specialize (IH H). lia.
Qed.



Lemma find_app_skip {A} (f : A -> bool) (l1 l : list A) :
  Forall (fun x => f x = false) l1 -> List.find f (l1 ++ l) = List.find f l.
Proof.
  induction 1 as [|x l1 Hx _ IH]; [reflexivity|].
  cbn. now rewrite Hx.
Qed.



Lemma cupsArrayAdd_registry_ok (apps : list (ptr * moauthd_application_t))
  (temp : moauthd_application_t) :
  registry_ok apps ->
  registry_ok (cupsArrayAdd compare_applications apps (fresh_ptr apps, temp)).
Proof.
  intros [Hsorted Hnodup].
  destruct (cupsArrayAdd_split compare_applications apps (fresh_ptr apps, temp))
    as (l1 & l2 & Eold & Enew & Hl1 & Hl2).
  rewrite Enew. split.
  - rewrite Eold in Hsorted. clear Eold Enew Hnodup.
    set (new := (fresh_ptr apps, temp)) in *. clearbody new.
    induction l1 as [|x l1 IH]; cbn.
    + constructor; [exact Hsorted|].
      destruct l2 as [|y l2]; [constructor|].
      apply StronglySorted_inv in Hsorted as [_ Hy].
      constructor; [lia|].
      eapply Forall_impl; [exact Hy|]. cbn. intros z Hz.
      unfold compare_applications in *.
      eapply strcmp_le_trans; [|exact Hz]. lia.
    + cbn in Hsorted. apply StronglySorted_inv in Hsorted as [Hs Hx].
      apply Forall_cons in Hl1 as [Hnx Hl1].
      constructor; [exact (IH Hs Hl1)|].
      apply Forall_app in Hx as [Hx1 Hx2].
      apply Forall_app. split; [exact Hx1|].
      constructor; [|exact Hx2].
      unfold compare_applications in *.
      rewrite strcmp_antisym. lia.
  - rewrite fmap_app, fmap_cons. apply NoDup_app.
    rewrite Eold, fmap_app in Hnodup.
    apply NoDup_app in Hnodup as (N1 & N12 & N2).
    assert (Hfresh : fresh_ptr apps ∉ l1.*1 ++ l2.*1).
    { rewrite <- fmap_app, <- Eold. intros Hin.
      apply fresh_ptr_above in Hin. lia. }
    split; [exact N1|]. split.
    + intros p Hp Hin. cbn in Hin. apply elem_of_cons in Hin as [->|Hin].
      * apply Hfresh. apply elem_of_app. now left.
      * exact (N12 p Hp Hin).
    + cbn. constructor; [|exact N2].
      intros Hin. apply Hfresh. apply elem_of_app. now right.
Qed.

(** X4: the array of applications stays in the order of the client
    identifiers, with every copy at an address of its own, through every
    registration; it is so before the first one. *)
Theorem moauthdAddApplication_registry_ok (server : moauthd_server_t)
  (id uri : string) (cname curi logo tos : option string) :
  registry_ok (applications server) ->
  registry_ok
    (applications (moauthdAddApplication server id uri cname curi logo tos).1).
Proof.
  intros H. unfold moauthdAddApplication. cbn [fst applications set_applications].
  now apply cupsArrayAdd_registry_ok.
Qed.

Lemma registry_ok_default : registry_ok (applications default_server).
Proof. split; constructor. Qed.

Lemma moauthdAddApplication_registry_ok_witness :
  registry_ok (applications default_server)
  /\ registry_ok
       (applications
          (moauthdAddApplication default_server "app1" "https://app/cb"
             (Some "App One") None None None).1).
Proof.
  split; [exact registry_ok_default|].
  apply (moauthdAddApplication_registry_ok default_server "app1"
           "https://app/cb" (Some "App One") None None None).
  exact registry_ok_default.
Defined.

(** X5: in an ordered array a second registration of a client identifier
    changes nothing for the callers: [moauthdAddApplication] returns the
    application of the first registration, and every lookup of the
    identifier goes on finding that one, whatever the redirect URI of the
    new registration. *)
Theorem moauthdAddApplication_first_registration (server : moauthd_server_t)
  (id uri : string) (cname curi logo tos : option string)
  (e : ptr * moauthd_application_t) :
  registry_ok (applications server) ->
  moauthdFindApplication server id None = Some e ->
  let r := moauthdAddApplication server id uri cname curi logo tos in
  r.2 = Some e /\ forall u, moauthdFindApplication r.1 id u = Some e.
Proof.
  intros [Hsorted _] Hfound r.
  pose proof (find_application_first_match server id None) as Hfirst.
  rewrite Hfound in Hfirst. destruct Hfirst as (k1 & k2 & Eapps & Hid & Hk1).
  unfold moauthdAddApplication in r.
  set (temp := {| client_id := id; redirect_uri := uri; client_name := cname;
                  client_uri := curi; logo_uri := logo; tos_uri := tos |}) in *.
  set (new := (fresh_ptr (applications server), temp)) in *.
  assert (Hadd : exists k2',
            cupsArrayAdd compare_applications (applications server) new
            = k1 ++ e :: k2').
  { rewrite Eapps. rewrite Eapps in Hsorted. clear Eapps Hfound r.
    assert (Hnew : client_id new.2 = id) by reflexivity. clearbody new.
    induction k1 as [|x k1 IH]; cbn [app cupsArrayAdd].
    - unfold compare_applications at 1. rewrite Hnew, <- Hid, strcmp_refl.
      cbn. eauto.
    - cbn in Hsorted. apply StronglySorted_inv in Hsorted as [Hs Hx].
      apply Forall_cons in Hk1 as [Hxid Hk1].
      destruct (IH Hs Hk1) as [k2' E].
      assert (Hge : (compare_applications new.2 x.2 <? 0) = false).
      { apply Z.ltb_ge. apply Forall_app in Hx as [_ Hx].
        apply Forall_cons in Hx as [Hxe _].
        unfold compare_applications in *. rewrite Hnew, <- Hid.
        rewrite strcmp_antisym. lia. }
      rewrite Hge, E. eauto. }
  destruct Hadd as [k2' Eadd].
  assert (Hres : forall u,
            moauthdFindApplication
              (set_applications (k1 ++ e :: k2') server) id u = Some e).
  { intros u. rewrite moauthdFindApplication_find.
    cbn [applications set_applications].
    assert (Hskip : forall l,
              List.find (fun x : ptr * moauthd_application_t =>
                           bool_decide (client_id x.2 = id)) (k1 ++ l)
              = List.find (fun x : ptr * moauthd_application_t =>
                             bool_decide (client_id x.2 = id)) l).
    { intros l. apply find_app_skip.
      eapply Forall_impl; [exact Hk1|].
      intros x Hx. now apply bool_decide_eq_false_2. }
    rewrite Hskip. cbn. now rewrite bool_decide_eq_true_2. }
  subst r. cbn [fst snd]. rewrite Eadd. split.
  - rewrite cupsArrayFind_first. cbn [client_id temp].
    specialize (Hres None). rewrite moauthdFindApplication_find in Hres.
    exact Hres.
  - exact Hres.
Qed.

Lemma moauthdAddApplication_first_registration_witness :
  registry_ok (applications Sample.server0)
  /\ moauthdFindApplication Sample.server0 "app1" None = Some Scene.app1
  /\ let r := moauthdAddApplication Sample.server0 "app1"
                "https://other.example/cb" (Some "Other") None None None in
     r.2 = Some Scene.app1
     /\ forall u, moauthdFindApplication r.1 "app1" u = Some Scene.app1.
Proof.
  assert (Hok : registry_ok (applications Sample.server0)).
  { apply (cupsArrayAdd_registry_ok []). exact registry_ok_default. }
  split; [exact Hok|]. split; [reflexivity|].
  apply (moauthdAddApplication_first_registration Sample.server0 "app1"
           "https://other.example/cb" (Some "Other") None None None Scene.app1).
  - exact Hok.
  - reflexivity.
Defined.

(** ** The Authorization header *)

Lemma substring_0_length (s : string) : substring 0 (String.length s) s = s.
Proof. induction s as [|c s IH]; cbn; [reflexivity|now rewrite IH]. Qed.

Lemma bearer_header (rest : string) :
  is_empty ("Bearer " +:+ rest) = false
  /\ String.prefix "Basic " ("Bearer " +:+ rest) = false
  /\ String.prefix "Bearer " ("Bearer " +:+ rest) = true
  /\ substring 7 (String.length ("Bearer " +:+ rest) - 7) ("Bearer " +:+ rest)
     = rest.
Proof.
  split; [reflexivity|]. split; [reflexivity|].
  split; [destruct rest; reflexivity|].
  change (substring 0 (String.length rest - 0) rest = rest).
  rewrite Nat.sub_0_r. apply substring_0_length.
Qed.

Lemma basic_header (rest : string) :
  is_empty ("Basic " +:+ rest) = false
  /\ String.prefix "Basic " ("Basic " +:+ rest) = true
  /\ substring 6 (String.length ("Basic " +:+ rest) - 6) ("Basic " +:+ rest)
     = rest.
Proof.
  split; [reflexivity|]. split; [destruct rest; reflexivity|].
  change (substring 0 (String.length rest - 0) rest = rest).
  rewrite Nat.sub_0_r. apply substring_0_length.
Qed.

Ltac step_authorization :=
  unfold moauthdRunClient_authorization, authorization_basic,
    authorization_bearer, lookup_groups, moauthdAuthenticateUser,
    moauthdFindToken, cupsArrayRemove_token, moauthdRespondClient,
    moauthdLogc, deref, emit, get_server, get_client, put_server, put_client,
    bind, ret;
  cbn.

(** The groups [lookup_groups] leaves in the client object. *)
Lemma lookup_groups_spec (getgrouplist : string -> Z -> Z -> Z * list Z)
  (user : string) (gid : Z) (w : world) :
  exists ev,
    lookup_groups getgrouplist user gid w
    = Done tt
        {| w_server := w_server w;
           w_client :=
             set_remote_groups (groups_of getgrouplist user gid) (w_client w);
           w_events := w_events w ++ ev |}
    /\ statuses ev = [] /\ authentications ev = [].
Proof.
  unfold lookup_groups, groups_of. unfold get_client, bind.
  destruct (getgrouplist user gid 100) as [r groups]. cbn [fst snd].
  destruct (r =? 0); cbn.
  - exists []. rewrite app_nil_r. repeat split.
  - eexists. unfold moauthdLogc, emit, put_client. cbn.
    repeat split.
Qed.

Section AuthorizationHeader.

Variable httpDecode64_2 : string -> string.
Variable authenticates :
  moauthd_server_t -> option string -> option string -> bool.
Variable getpwnam : string -> option (Z * Z).
Variable getgrouplist : string -> Z -> Z -> Z * list Z.
Variable env : environment.

Local Abbreviation run_authorization :=
  (moauthdRunClient_authorization httpDecode64_2 authenticates getpwnam
     getgrouplist env).

Lemma authorization_bearer_block (rest : string) (w : world) :
  run_authorization ("Bearer " +:+ rest) w
  = identity_required
      (authorization_bearer getgrouplist env rest (anonymous w)).
Proof.
  destruct (bearer_header rest) as (H1 & H2 & H3 & H4).
  unfold moauthdRunClient_authorization. rewrite H1, H2, H3, H4.
  cbn [negb]. unfold get_client at 1. unfold put_client at 1.
  unfold bind at 1 2. fold (anonymous w). unfold bind at 1.
  destruct (authorization_bearer getgrouplist env rest (anonymous w))
    as [[] w1|w1]; [|reflexivity].
  unfold get_client, bind, identity_required.
  destruct (is_empty (remote_user (w_client w1))); reflexivity.
Qed.

Lemma authorization_basic_block (rest : string) (w : world) :
  run_authorization ("Basic " +:+ rest) w
  = identity_required
      (authorization_basic httpDecode64_2 authenticates getpwnam getgrouplist
         rest (anonymous w)).
Proof.
  destruct (basic_header rest) as (H1 & H2 & H3).
  unfold moauthdRunClient_authorization. rewrite H1, H2, H3.
  cbn [negb]. unfold get_client at 1. unfold put_client at 1.
  unfold bind at 1 2. fold (anonymous w). unfold bind at 1.
  destruct (authorization_basic httpDecode64_2 authenticates getpwnam
              getgrouplist rest (anonymous w)) as [[] w1|w1]; [|reflexivity].
  unfold get_client, bind, identity_required.
  destruct (is_empty (remote_user (w_client w1))); reflexivity.
Qed.

(** The [Bearer] branch on a token that passes its checks. *)
Lemma authorization_bearer_valid (rest u : string) (t : moauthd_token_t)
  (w : world) :
  tokens (w_server w) !! skip_space rest = Some t ->
  now env < expires t ->
  type t = MOAUTHD_TOKTYPE_ACCESS ->
  user t = Some u ->
  exists ev,
    authorization_bearer getgrouplist env rest w
    = Done tt
        {| w_server := w_server w;
           w_client :=
             {| remote_user := substring 0 255 u; remote_uid := uid t;
                remote_groups := groups_of getgrouplist u (gid t);
                remote_token := Some t |};
           w_events := w_events w ++ ev |}
    /\ statuses ev = [].
Proof.
  intros Hfound Hlive Hkind Huser.
  assert (Hexp : (expires t <=? now env) = false) by (apply Z.leb_gt; lia).
  unfold authorization_bearer, moauthdFindToken, get_server.
  unfold bind at 1 2 3. cbn [ret]. rewrite Hfound, Hexp, Hkind.
  rewrite bool_decide_eq_true_2 by reflexivity. cbn [negb]. unfold ret at 1.
  rewrite Huser.
  unfold moauthdLogc, emit, get_client, put_client, deref, ret, bind.
  cbn [w_server w_client w_events].
  match goal with
  | |- context [lookup_groups getgrouplist u (gid t) ?w0] =>
      destruct (lookup_groups_spec getgrouplist u (gid t) w0) as (ev & E & Hev & Hau);
      rewrite E
  end.
  cbn. eexists. rewrite <- app_assoc. split; [reflexivity|].
  rewrite statuses_app, Hev. reflexivity.
Qed.

(** X6: a Bearer token that is stored, not expired, of the access kind
    and has a user name authenticates the request: the client object gets
    the user of the token (255 bytes of it at most), its uid, the token
    itself and the groups [getgrouplist] reports (none when it fails),
    nothing is answered, the server object stays as it is and the request
    goes on. *)
Theorem bearer_access_token_accepted (w : world) (rest u : string)
  (t : moauthd_token_t) :
  tokens (w_server w) !! skip_space rest = Some t ->
  now env < expires t ->
  type t = MOAUTHD_TOKTYPE_ACCESS ->
  user t = Some u ->
  u <> EmptyString ->
  exists ev,
    moauthdRunClient_authorization httpDecode64_2 authenticates getpwnam
      getgrouplist env ("Bearer " +:+ rest) w
    = Done true
        {| w_server := w_server w;
           w_client :=
             {| remote_user := substring 0 255 u; remote_uid := uid t;
                remote_groups := groups_of getgrouplist u (gid t);
                remote_token := Some t |};
           w_events := w_events w ++ ev |}
    /\ statuses ev = [].
Proof.
  intros Hfound Hlive Hkind Huser Hne.
  rewrite authorization_bearer_block.
  destruct (authorization_bearer_valid rest u t (anonymous w) Hfound Hlive
              Hkind Huser) as (ev & E & Hev).
  rewrite E. exists ev. split; [|exact Hev].
  unfold identity_required. cbn [w_client remote_user].
  destruct u as [|c u]; [congruence|]. reflexivity.
Qed.

(** An expired Bearer token is taken out of the token store. *)
Lemma bearer_expired_token (w : world) (rest : string)
  (t : moauthd_token_t) :
  tokens (w_server w) !! skip_space rest = Some t ->
  expires t <= now env ->
  moauthdRunClient_authorization httpDecode64_2 authenticates getpwnam
    getgrouplist env ("Bearer " +:+ rest) w
  = Done false
      {| w_server :=
           set_tokens (delete (token t) (tokens (w_server w))) (w_server w);
         w_client := set_identity EmptyString (to_u32 (-1)) (w_client w);
         w_events :=
           w_events w
           ++ [Logc MOAUTHD_LOGLEVEL_ERROR "Bearer token has expired.";
               Respond HTTP_STATUS_UNAUTHORIZED None None 0] |}.
Proof.
  intros Hfound Hexpired.
  assert (Hexp : (expires t <=? now env) = true) by (apply Z.leb_le; lia).
  rewrite authorization_bearer_block.
  unfold authorization_bearer, moauthdFindToken, get_server.
  unfold bind at 1 2 3. cbn [ret anonymous w_server]. rewrite Hfound, Hexp.
  unfold cupsArrayRemove_token, moauthdLogc, emit, get_server, put_server,
    bind, ret, identity_required.
  cbn. rewrite <- app_assoc. reflexivity.
Qed.

(** A token of another kind and an unknown string are refused with the
    store as it is. *)
Lemma bearer_other_token (w : world) (rest : string) :
  match tokens (w_server w) !! skip_space rest with
  | Some t => now env < expires t /\ type t <> MOAUTHD_TOKTYPE_ACCESS
  | None => True
  end ->
  exists ev,
    moauthdRunClient_authorization httpDecode64_2 authenticates getpwnam
      getgrouplist env ("Bearer " +:+ rest) w
    = Done false
        {| w_server := w_server w;
           w_client := set_identity EmptyString (to_u32 (-1)) (w_client w);
           w_events := w_events w ++ ev |}
    /\ statuses ev = [HTTP_STATUS_UNAUTHORIZED].
Proof.
  intros H. rewrite authorization_bearer_block.
  unfold authorization_bearer, moauthdFindToken, get_server.
  unfold bind at 1 2 3. cbn [ret anonymous w_server].
  destruct (tokens (w_server w) !! skip_space rest) as [t|].
  - destruct H as [Hlive Hkind].
    assert (Hexp : (expires t <=? now env) = false) by (apply Z.leb_gt; lia).
    rewrite Hexp. rewrite bool_decide_eq_false_2 by exact Hkind.
    unfold moauthdLogc, emit, bind, ret, identity_required. cbn.
    eexists. rewrite <- app_assoc. split; reflexivity.
  - unfold ret, identity_required. cbn. eexists. split; reflexivity.
Qed.

(** X7: a Bearer token that does not pass is answered 401 without an
    identity.  An expired token, of whatever kind, is taken out of the
    token store when it is presented.  A token that is not of the access
    kind, such as the grant code of an authorization that was not
    exchanged yet, is no Bearer credential, and neither is a string the
    store does not hold: for these the store is left as it is. *)
Theorem bearer_token_refused (w : world) (rest : string) :
  let r := moauthdRunClient_authorization httpDecode64_2 authenticates
             getpwnam getgrouplist env ("Bearer " +:+ rest) w in
  let refused_with server messages :=
    r = Done false
          {| w_server := server;
             w_client := set_identity EmptyString (to_u32 (-1)) (w_client w);
             w_events :=
               w_events w ++ messages
               ++ [Respond HTTP_STATUS_UNAUTHORIZED None None 0] |} in
  match tokens (w_server w) !! skip_space rest with
  | Some t =>
      if expires t <=? now env then
        refused_with
          (set_tokens (delete (token t) (tokens (w_server w))) (w_server w))
          [Logc MOAUTHD_LOGLEVEL_ERROR "Bearer token has expired."]
      else
        type t <> MOAUTHD_TOKTYPE_ACCESS ->
        refused_with (w_server w)
          [Logc MOAUTHD_LOGLEVEL_ERROR "Bearer token is of the wrong type."]
  | None => refused_with (w_server w) []
  end.
Proof.
  intros r refused_with. subst r refused_with. cbv beta.
  rewrite authorization_bearer_block.
  destruct (tokens (w_server w) !! skip_space rest) as [t|] eqn:Hfound;
    [destruct (expires t <=? now env) eqn:Hexp; [|intros Hkind]|];
    unfold authorization_bearer, moauthdFindToken, get_server;
    unfold bind at 1 2 3; cbn [ret anonymous w_server];
    rewrite Hfound, ?Hexp.
  - unfold cupsArrayRemove_token, moauthdLogc, emit, get_server,
      put_server, bind, ret, identity_required.
    cbn. rewrite <- app_assoc. reflexivity.
  - rewrite bool_decide_eq_false_2 by exact Hkind.
    unfold moauthdLogc, emit, bind, ret, identity_required. cbn.
    rewrite <- app_assoc. reflexivity.
  - unfold ret, identity_required. cbn. reflexivity.
Qed.

(** X8: Basic credentials the Authenticator accepts, for a user name
    that is not empty and that [getpwnam] knows, authenticate the request:
    the client object gets the user name (255 bytes of it at most), the uid
    of the password entry and the groups of the user; the Authenticator is
    called once, with the text before the first colon as the user name and
    all the text after it as the password.  The token of an earlier
    request on the connection stays in the client object. *)
Theorem basic_credentials_accepted (w : world)
  (rest username password : string) (pw_uid pw_gid : Z) :
  split_at ":" (httpDecode64_2 (skip_space rest)) = Some (username, password) ->
  authenticates (w_server w) (Some username) (Some password) = true ->
  getpwnam username = Some (pw_uid, pw_gid) ->
  username <> EmptyString ->
  exists ev,
    moauthdRunClient_authorization httpDecode64_2 authenticates getpwnam
      getgrouplist env ("Basic " +:+ rest) w
    = Done true
        {| w_server := w_server w;
           w_client :=
             {| remote_user := substring 0 255 username;
                remote_uid := pw_uid;
                remote_groups :=
                  groups_of getgrouplist (substring 0 255 username) pw_gid;
                remote_token := remote_token (w_client w) |};
           w_events := w_events w ++ ev |}
    /\ statuses ev = []
    /\ authentications ev = [Authenticate (Some username) (Some password)].
Proof.
  intros Hsplit Hauth Hpw Hne. rewrite authorization_basic_block.
  unfold authorization_basic. rewrite Hsplit.
  unfold moauthdAuthenticateUser, get_server, emit. unfold bind at 1 2 3 4.
  cbn [ret anonymous w_server]. rewrite Hauth, Hpw.
  unfold moauthdLogc, emit, get_client, put_client, ret, bind.
  cbn [w_server w_client w_events].
  match goal with
  | |- context [lookup_groups getgrouplist ?u pw_gid ?w0] =>
      destruct (lookup_groups_spec getgrouplist u pw_gid w0) as (ev & E & Hev & Hau);
      rewrite E
  end.
  unfold identity_required. cbn [w_server w_client w_events remote_user
                                  set_remote_groups set_identity].
  assert (Hfull : is_empty (substring 0 255 username) = false).
  { destruct username as [|c u]; [congruence|reflexivity]. }
  rewrite Hfull. eexists. rewrite <- !app_assoc.
  split; [reflexivity|].
  rewrite !statuses_app, !authentications_app, Hev. cbn.
  split; [reflexivity|].
  now rewrite Hau.
Qed.

(** X9: a Basic value without a colon after decoding is answered 401
    without a call of the Authenticator; credentials the Authenticator
    refuses, and credentials it accepts for a user [getpwnam] does not
    know, are answered 401 after the one call.  In every case the request
    has no identity and the server object stays as it is. *)
Theorem basic_credentials_refused (w : world) (rest : string) :
  match split_at ":" (httpDecode64_2 (skip_space rest)) with
  | Some (username, password) =>
      authenticates (w_server w) (Some username) (Some password) = false
      \/ getpwnam username = None
  | None => True
  end ->
  exists ev,
    moauthdRunClient_authorization httpDecode64_2 authenticates getpwnam
      getgrouplist env ("Basic " +:+ rest) w
    = Done false
        {| w_server := w_server w;
           w_client := set_identity EmptyString (to_u32 (-1)) (w_client w);
           w_events := w_events w ++ ev |}
    /\ statuses ev = [HTTP_STATUS_UNAUTHORIZED]
    /\ authentications ev
       = match split_at ":" (httpDecode64_2 (skip_space rest)) with
         | Some (username, password) =>
             [Authenticate (Some username) (Some password)]
         | None => []
         end.
Proof.
  intros H. rewrite authorization_basic_block. unfold authorization_basic.
  destruct (split_at ":" (httpDecode64_2 (skip_space rest)))
    as [[username password]|].
  - unfold moauthdAuthenticateUser, get_server, emit. unfold bind at 1 2 3 4.
    cbn [ret anonymous w_server].
    destruct (authenticates (w_server w) (Some username) (Some password)).
    + destruct H as [H|H]; [discriminate|]. rewrite H.
      unfold moauthdLogc, emit, identity_required. cbn.
      eexists. rewrite <- ?app_assoc.
      repeat (split; [reflexivity|]). reflexivity.
    + unfold moauthdLogc, emit, identity_required. cbn.
      eexists. rewrite <- ?app_assoc.
      repeat (split; [reflexivity|]). reflexivity.
  - unfold moauthdLogc, emit, identity_required. cbn.
    eexists. rewrite <- ?app_assoc.
      repeat (split; [reflexivity|]). reflexivity.
Qed.

(** The three branches for a header that is not empty. *)
Lemma authorization_block (w : world) (h : string) :
  is_empty h = false ->
  run_authorization h w
  = identity_required
      ((if String.prefix "Basic " h then
          authorization_basic httpDecode64_2 authenticates getpwnam
            getgrouplist (substring 6 (String.length h - 6) h)
        else if String.prefix "Bearer " h then
          authorization_bearer getgrouplist env
            (substring 7 (String.length h - 7) h)
        else
          moauthdLogc MOAUTHD_LOGLEVEL_ERROR
            ("Unsupported Authorization scheme " +:+ dquote
             +:+ strtok_blank (substring 0 31 h) +:+ dquote +:+ "."))
         (anonymous w)).
Proof.
  intros Hne. unfold moauthdRunClient_authorization. rewrite Hne.
  cbn [negb]. unfold get_client at 1. unfold put_client at 1.
  unfold bind at 1 2. fold (anonymous w). unfold bind at 1.
  match goal with
  | |- match ?m with _ => _ end = _ => destruct m as [[] w1|w1]
  end; [|reflexivity].
  unfold get_client, bind, identity_required.
  destruct (is_empty (remote_user (w_client w1))); reflexivity.
Qed.

(** A branch answers nothing and leaves the applications as they are;
    only the [Bearer] branch can end in a [NULL] dereference, on a valid
    access token without a user. *)
Lemma authorization_basic_frame (rest : string) (w : world) :
  match authorization_basic httpDecode64_2 authenticates getpwnam getgrouplist
          rest w with
  | Done _ w' =>
      exists ev,
        w_events w' = w_events w ++ ev /\ statuses ev = []
        /\ applications (w_server w') = applications (w_server w)
  | Crash _ => False
  end.
Proof.
  unfold authorization_basic.
  destruct (split_at ":" (httpDecode64_2 (skip_space rest)))
    as [[username password]|].
  - unfold moauthdAuthenticateUser, get_server, emit. unfold bind at 1 2 3 4.
    cbn [ret w_server].
    destruct (authenticates (w_server w) (Some username) (Some password)).
    + destruct (getpwnam username) as [[pw_uid pw_gid]|].
      * unfold moauthdLogc, emit, get_client, put_client, ret, bind.
        cbn [w_server w_client w_events].
        match goal with
        | |- context [lookup_groups getgrouplist ?u pw_gid ?w0] =>
            destruct (lookup_groups_spec getgrouplist u pw_gid w0)
              as (ev & E & Hev & Hau);
            rewrite E
        end.
        cbn. eexists. rewrite <- !app_assoc. split; [reflexivity|].
        rewrite !statuses_app, Hev. split; reflexivity.
      * unfold moauthdLogc, emit. cbn. eexists.
        rewrite <- app_assoc. repeat (split; [reflexivity|]). reflexivity.
    + unfold moauthdLogc, emit. cbn. eexists.
      rewrite <- app_assoc. repeat (split; [reflexivity|]). reflexivity.
  - unfold moauthdLogc, emit. cbn. eexists.
    repeat (split; [reflexivity|]). reflexivity.
Qed.

Lemma authorization_bearer_frame (rest : string) (w : world) :
  match authorization_bearer getgrouplist env rest w with
  | Done _ w' =>
      exists ev,
        w_events w' = w_events w ++ ev /\ statuses ev = []
        /\ applications (w_server w') = applications (w_server w)
  | Crash _ =>
      exists t,
        tokens (w_server w) !! skip_space rest = Some t
        /\ expires t > now env
        /\ type t = MOAUTHD_TOKTYPE_ACCESS
        /\ user t = None
  end.
Proof.
  unfold authorization_bearer, moauthdFindToken, get_server.
  unfold bind at 1 2 3. cbn [ret].
  destruct (tokens (w_server w) !! skip_space rest) as [t|] eqn:Hfound.
  - destruct (Z.leb_spec (expires t) (now env)) as [Hle|Hgt].
    + unfold cupsArrayRemove_token, moauthdLogc, emit, get_server,
        put_server, bind, ret. cbn. eexists.
      repeat (split; [reflexivity|]). reflexivity.
    + destruct (bool_decide_reflect (type t = MOAUTHD_TOKTYPE_ACCESS))
        as [Hkind|Hkind]; cbn [negb].
      * unfold ret at 1. destruct (user t) as [u|] eqn:Huser.
        -- unfold moauthdLogc, emit, get_client, put_client, deref, ret, bind.
           cbn [w_server w_client w_events].
           match goal with
           | |- context [lookup_groups getgrouplist u (gid t) ?w0] =>
               destruct (lookup_groups_spec getgrouplist u (gid t) w0)
                 as (ev & E & Hev & Hau);
               rewrite E
           end.
           cbn. eexists. rewrite <- !app_assoc.
           split; [reflexivity|]. rewrite !statuses_app, Hev.
           split; reflexivity.
        -- unfold moauthdLogc, emit, get_client, put_client, deref,
             ret, bind. cbn. exists t.
           split; [reflexivity|]. split; [lia|]. split; assumption.
      * unfold moauthdLogc, emit, bind, ret. cbn. eexists.
        repeat (split; [reflexivity|]). reflexivity.
  - unfold ret. exists []. rewrite app_nil_r. repeat split.
Qed.

(** X10: whatever the Authorization header of a request is, the request
    goes on exactly when the header is empty or an identity was attached;
    otherwise it is answered 401, and nothing is answered when it goes
    on.  Without a header the identity of the previous request on the
    connection is reset, its token and groups are not.  The applications
    are never changed, and the only way not to come back is a stored,
    valid access token without a user, whose [NULL] name is copied. *)
Theorem authorization_identity_or_401 (w : world) (h : string) :
  match moauthdRunClient_authorization httpDecode64_2 authenticates getpwnam
          getgrouplist env h w with
  | Done b w' =>
      b = is_empty h || negb (is_empty (remote_user (w_client w')))
      /\ statuses (drop (length (w_events w)) (w_events w'))
         = (if b then [] else [HTTP_STATUS_UNAUTHORIZED])
      /\ applications (w_server w') = applications (w_server w)
      /\ (is_empty h = true -> w' = anonymous w)
  | Crash w' =>
      exists t,
        String.prefix "Bearer " h = true
        /\ tokens (w_server w)
             !! skip_space (substring 7 (String.length h - 7) h) = Some t
        /\ expires t > now env
        /\ type t = MOAUTHD_TOKTYPE_ACCESS
        /\ user t = None
  end.
Proof.
  destruct (is_empty h) eqn:Hempty.
  { unfold moauthdRunClient_authorization. rewrite Hempty.
    unfold get_client, put_client, bind, ret. cbn.
    rewrite drop_all. repeat split. }
  rewrite (authorization_block w h Hempty).
  assert (Hdone : forall w1,
            (exists ev,
               w_events w1 = w_events (anonymous w) ++ ev /\ statuses ev = []
               /\ applications (w_server w1)
                  = applications (w_server (anonymous w))) ->
            match identity_required (Done tt w1) with
            | Done b w' =>
                b = false || negb (is_empty (remote_user (w_client w')))
                /\ statuses (drop (length (w_events w)) (w_events w'))
                   = (if b then [] else [HTTP_STATUS_UNAUTHORIZED])
                /\ applications (w_server w') = applications (w_server w)
                /\ (false = true -> w' = anonymous w)
            | Crash _ => False
            end).
  { intros w1 (ev & Eev & Hev & Happs). unfold identity_required.
    cbn [anonymous w_events w_server] in Eev, Happs.
    destruct (is_empty (remote_user (w_client w1))) eqn:Hc;
      cbn [w_events w_client w_server orb negb]; rewrite ?Hc, Eev;
      rewrite <- ?app_assoc, drop_app_length, ?statuses_app, Hev;
      repeat split; try assumption; discriminate. }
  destruct (String.prefix "Basic " h).
  - pose proof (authorization_basic_frame
                  (substring 6 (String.length h - 6) h) (anonymous w)) as F.
    destruct (authorization_basic _ _ _ _ _ _) as [[] w1|w1]; [|destruct F].
    specialize (Hdone w1 F).
    destruct (identity_required (Done tt w1)); [exact Hdone|destruct Hdone].
  - destruct (String.prefix "Bearer " h) eqn:Hbearer.
    + pose proof (authorization_bearer_frame
                    (substring 7 (String.length h - 7) h) (anonymous w)) as F.
      destruct (authorization_bearer _ _ _ _) as [[] w1|w1].
      * specialize (Hdone w1 F).
        destruct (identity_required (Done tt w1));
          [exact Hdone|destruct Hdone].
      * cbn [identity_required]. destruct F as (t & F). exists t.
        split; [reflexivity|]. exact F.
    + unfold moauthdLogc, emit.
      match goal with
      | |- match identity_required (Done tt ?w1) with _ => _ end =>
          assert (F : exists ev,
                    w_events w1 = w_events (anonymous w) ++ ev
                    /\ statuses ev = []
                    /\ applications (w_server w1)
                       = applications (w_server (anonymous w)))
            by (cbn; eexists; repeat (split; [reflexivity|]); reflexivity);
          specialize (Hdone w1 F);
          destruct (identity_required (Done tt w1));
            [exact Hdone|destruct Hdone]
      end.
Qed.

End AuthorizationHeader.

Lemma bearer_access_token_accepted_witness :
  tokens Scene.server2 !! skip_space "A1" = Some Scene.access_token
  /\ exists ev,
       Sample.moauthdRunClient_authorization (Sample.env "A2") "Bearer A1"
         (Sample.world_of Scene.server2)
       = Done true
           {| w_server := Scene.server2;
              w_client :=
                {| remote_user := "alice"; remote_uid := 1000;
                   remote_groups := [1000; 27];
                   remote_token := Some Scene.access_token |};
              w_events := [] ++ ev |}
       /\ statuses ev = [].
Proof.
  split; [vm_compute; reflexivity|].
  apply (bearer_access_token_accepted Reference.httpDecode64_2
           Reference.authenticates Reference.getpwnam Reference.getgrouplist
           (Sample.env "A2") (Sample.world_of Scene.server2) "A1" "alice"
           Scene.access_token).
  - vm_compute. reflexivity.
  - reflexivity.
  - reflexivity.
  - reflexivity.
  - discriminate.
Defined.

Lemma bearer_token_refused_witness :
  tokens Scene.server2 !! "A1" = Some Scene.access_token
  /\ Sample.moauthdRunClient_authorization Scene.late "Bearer A1"
       (Sample.world_of Scene.server2)
     = Done false
         {| w_server :=
              set_tokens (delete "A1" (tokens Scene.server2)) Scene.server2;
            w_client := set_identity EmptyString (to_u32 (-1)) new_client;
            w_events :=
              [Logc MOAUTHD_LOGLEVEL_ERROR "Bearer token has expired.";
               Respond HTTP_STATUS_UNAUTHORIZED None None 0] |}.
Proof.
  assert (Hfound : tokens Scene.server2 !! skip_space "A1"
                   = Some Scene.access_token) by (vm_compute; reflexivity).
  split; [exact Hfound|].
  pose proof (bearer_token_refused Reference.httpDecode64_2
                Reference.authenticates Reference.getpwnam
                Reference.getgrouplist Scene.late
                (Sample.world_of Scene.server2) "A1") as H.
  cbv zeta in H. cbn [w_server Sample.world_of] in H. rewrite Hfound in H.
  exact H.
Defined.

Lemma basic_credentials_accepted_witness :
  Reference.httpDecode64_2 "YWxpY2U6c2VjcmV0" = "alice:secret"
  /\ exists ev,
       Sample.moauthdRunClient_authorization (Sample.env "A2")
         "Basic YWxpY2U6c2VjcmV0" (Sample.world_of Sample.server0)
       = Done true
           {| w_server := Sample.server0;
              w_client :=
                {| remote_user := "alice"; remote_uid := 1000;
                   remote_groups := [1000; 27]; remote_token := None |};
              w_events := [] ++ ev |}
       /\ statuses ev = []
       /\ authentications ev = [Authenticate (Some "alice") (Some "secret")].
Proof.
  split; [vm_compute; reflexivity|].
  apply (basic_credentials_accepted Reference.httpDecode64_2
           Reference.authenticates Reference.getpwnam Reference.getgrouplist
           (Sample.env "A2") (Sample.world_of Sample.server0)
           "YWxpY2U6c2VjcmV0" "alice" "secret" 1000 1000).
  - vm_compute. reflexivity.
  - vm_compute. reflexivity.
  - reflexivity.
  - discriminate.
Defined.

Lemma basic_credentials_refused_witness :
  Reference.httpDecode64_2 "YWxpY2U6d3Jvbmc=" = "alice:wrong"
  /\ exists ev,
       Sample.moauthdRunClient_authorization (Sample.env "A2")
         "Basic YWxpY2U6d3Jvbmc=" (Sample.world_of Sample.server0)
       = Done false
           {| w_server := Sample.server0;
              w_client := set_identity EmptyString (to_u32 (-1)) new_client;
              w_events := [] ++ ev |}
       /\ statuses ev = [HTTP_STATUS_UNAUTHORIZED]
       /\ authentications ev = [Authenticate (Some "alice") (Some "wrong")].
Proof.
  split; [vm_compute; reflexivity|].
  apply (basic_credentials_refused Reference.httpDecode64_2
           Reference.authenticates Reference.getpwnam Reference.getgrouplist
           (Sample.env "A2") (Sample.world_of Sample.server0)
           "YWxpY2U6d3Jvbmc=").
  vm_compute. left. reflexivity.
Defined.

(** ** The /introspect endpoint *)

Section Introspection.

Variable _moauthJSONEncode : list cups_option_t -> option string.
Variable env : environment.

(** The status [do_introspect] starts with. *)
Lemma do_introspect_status (server : moauthd_server_t)
  (client : moauthd_client_t) :
  (if is_empty (remote_user client) then HTTP_STATUS_UNAUTHORIZED
   else if negb (introspect_group server =? GID_NONE) then
          if existsb (fun g => g =? introspect_group server)
               (remote_groups client)
          then HTTP_STATUS_OK else HTTP_STATUS_FORBIDDEN
        else HTTP_STATUS_OK)
  = if introspect_allowed server client then HTTP_STATUS_OK
    else if is_empty (remote_user client) then HTTP_STATUS_UNAUTHORIZED
         else HTTP_STATUS_FORBIDDEN.
Proof.
  unfold introspect_allowed.
  destruct (is_empty (remote_user client)); [reflexivity|].
  destruct (introspect_group server =? GID_NONE); [reflexivity|].
  cbn [negb andb orb].
  destruct (existsb _ (remote_groups client)); reflexivity.
Qed.

Lemma do_introspect_not_allowed (w : world) (body : option (list cups_option_t)) :
  introspect_allowed (w_server w) (w_client w) = false ->
  do_introspect _moauthJSONEncode env body w
  = Done (Z.b2z (respond_ok env))
      {| w_server := w_server w; w_client := w_client w;
         w_events :=
           w_events w
           ++ [Respond
                 (if is_empty (remote_user (w_client w))
                  then HTTP_STATUS_UNAUTHORIZED else HTTP_STATUS_FORBIDDEN)
                 None None 0] |}.
Proof.
  intros Hdenied. unfold do_introspect.
  unfold get_client at 1. unfold bind at 1.
  unfold get_server at 1. unfold bind at 1.
  rewrite do_introspect_status, Hdenied.
  destruct (is_empty (remote_user (w_client w))); reflexivity.
Qed.

(** X11: a caller of /introspect without an identity is answered 401,
    and one outside the [IntrospectGroup] 403, before the message body is
    looked at: the answer is the same whether the request names a stored
    token, an unknown one or none, and the server and client objects stay
    as they are. *)
Theorem do_introspect_denied (w : world) (body : option (list cups_option_t)) :
  introspect_allowed (w_server w) (w_client w) = false ->
  do_introspect _moauthJSONEncode env body w
  = Done (Z.b2z (respond_ok env))
      {| w_server := w_server w; w_client := w_client w;
         w_events :=
           w_events w
           ++ [Respond
                 (if is_empty (remote_user (w_client w))
                  then HTTP_STATUS_UNAUTHORIZED else HTTP_STATUS_FORBIDDEN)
                 None None 0] |}.
Proof. apply do_introspect_not_allowed. Qed.

(** An allowed caller whose request has no message body, no [token]
    variable, or names a token the store does not hold is answered 400 and
    nothing else. *)
Lemma do_introspect_bad_request (w : world)
  (body : option (list cups_option_t)) :
  introspect_allowed (w_server w) (w_client w) = true ->
  match body with
  | Some vars =>
      match cupsGetOption "token" vars with
      | Some id => tokens (w_server w) !! id = None
      | None => True
      end
  | None => True
  end ->
  refused w (do_introspect _moauthJSONEncode env body w).
Proof.
  intros Hallowed Hbody. unfold do_introspect.
  unfold get_client at 1. unfold bind at 1.
  unfold get_server at 1. unfold bind at 1.
  rewrite do_introspect_status, Hallowed. cbn [Z.eqb negb HTTP_STATUS_OK].
  change (negb (HTTP_STATUS_OK =? HTTP_STATUS_OK)) with false. cbv iota.
  destruct body as [vars|].
  - destruct (cupsGetOption "token" vars) as [id|].
    + step_introspect. rewrite Hbody. cbn.
      eexists _, _. rewrite <- app_assoc. split; reflexivity.
    + step_introspect. eexists _, _. rewrite <- app_assoc. split; reflexivity.
  - step_introspect. eexists _, _. split; reflexivity.
Qed.

Ltac read_only_done :=
  intros ->; cbn [final w_server w_client];
  split; [reflexivity|]; split; [reflexivity|];
  rewrite <- ?app_assoc, responses_done; eexists;
  split; [reflexivity|]; cbn; auto.

(** X12: /introspect only reads: however a request ends, the server
    object, with its token store, and the client object are what they
    were, so that even an expired token is reported and not removed.  A
    request that comes back was answered once, with 200, 400, 401 or 403;
    one that ends in a [NULL] dereference was not answered. *)
Theorem do_introspect_read_only (w : world)
  (body : option (list cups_option_t)) :
  let r := do_introspect _moauthJSONEncode env body w in
  w_server (final r) = w_server w
  /\ w_client (final r) = w_client w
  /\ match r with
     | Done _ _ =>
         exists code,
           responses w r = [code]
           /\ In code [HTTP_STATUS_OK; HTTP_STATUS_BAD_REQUEST;
                       HTTP_STATUS_UNAUTHORIZED; HTTP_STATUS_FORBIDDEN]
     | Crash _ => responses w r = []
     end.
Proof.
  intros r.
  assert (Hr : r = do_introspect _moauthJSONEncode env body w) by reflexivity.
  clearbody r.
  destruct (introspect_allowed (w_server w) (w_client w)) eqn:Hallowed.
  2:{ rewrite (do_introspect_not_allowed w body Hallowed) in Hr. subst r.
      cbn [final w_server w_client]. split; [reflexivity|].
      split; [reflexivity|]. rewrite responses_done.
      destruct (is_empty (remote_user (w_client w))); eexists;
        (split; [reflexivity|]); cbn; auto. }
  unfold do_introspect in Hr.
  unfold get_client at 1 in Hr. unfold bind at 1 in Hr.
  unfold get_server at 1 in Hr. unfold bind at 1 in Hr.
  rewrite do_introspect_status, Hallowed in Hr.
  change (negb (HTTP_STATUS_OK =? HTTP_STATUS_OK)) with false in Hr.
  cbv iota in Hr.
  destruct body as [vars|]; [|revert Hr; step_introspect; read_only_done].
  destruct (cupsGetOption "token" vars) as [id|].
  2:{ revert Hr. step_introspect. read_only_done. }
  revert Hr. step_introspect.
  destruct (tokens (w_server w) !! id) as [t|]; [|read_only_done].
  destruct (application t) as [p|]; cbn.
  2:{ intros ->. cbn. unfold responses. cbn. rewrite drop_all. auto. }
  destruct (application_at (w_server w) p) as [app|]; cbn.
  2:{ intros ->. cbn. unfold responses. cbn. rewrite drop_all. auto. }
  destruct app as [cid ru cn cu lu tu]. rewrite do_introspect_json. cbn.
  destruct (_moauthJSONEncode _) as [data|]; cbn; [|read_only_done].
  destruct (respond_ok env); [destruct (write_short env)|]; cbn;
    read_only_done.
Qed.

(** X13: for a stored token bound to a registered application an
    allowed caller is answered 200 with the JSON object of the token:
    [active] is true exactly while the token has not expired, and the
    scope, the client identifier of the application, the user name, the
    kind and the two times follow.  The body is written only when the
    header went out. *)
Theorem do_introspect_reports_token (w : world) (vars : list cups_option_t)
  (id : string) (t : moauthd_token_t) (p : ptr) (app : moauthd_application_t)
  (data : string) :
  introspect_allowed (w_server w) (w_client w) = true ->
  cupsGetOption "token" vars = Some id ->
  tokens (w_server w) !! id = Some t ->
  application t = Some p ->
  application_at (w_server w) p = Some app ->
  _moauthJSONEncode
    ([("active", if now env <? expires t then "true" else "false");
      ("client_id", client_id app); ("exp", pretty (expires t));
      ("iat", pretty (created t))]
     ++ optional "scope" (scopes t) ++ [("token_type", types (type t))]
     ++ optional "username" (user t))
  = Some data ->
  do_introspect _moauthJSONEncode env (Some vars) w
  = Done (if respond_ok env then if write_short env then 0 else 1 else 0)
      {| w_server := w_server w; w_client := w_client w;
         w_events :=
           w_events w
           ++ Respond HTTP_STATUS_OK (Some "application/json") None
                (Z.of_nat (String.length data))
              :: (if respond_ok env then [Write data] else []) |}.
Proof.
  intros Hallowed Hvar Hfound Happ Hat Hjson. unfold do_introspect.
  unfold get_client at 1. unfold bind at 1.
  unfold get_server at 1. unfold bind at 1.
  rewrite do_introspect_status, Hallowed.
  change (negb (HTTP_STATUS_OK =? HTTP_STATUS_OK)) with false. cbv iota.
  rewrite Hvar. step_introspect. rewrite Hfound, Happ. cbn. rewrite Hat. cbn.
  destruct app as [cid ru cn cu lu tu]. cbn in Hjson.
  rewrite do_introspect_json. cbn. rewrite Hjson.
  destruct (respond_ok env); [destruct (write_short env)|]; cbn;
    rewrite <- ?app_assoc; reflexivity.
Qed.

End Introspection.

(** ** The /token endpoint *)

Section TokenRequests.

Variable cupsHashData : string -> list Z.
Variable httpEncode64_2 : Z -> list Z -> string.
Variable _moauthJSONEncode : list cups_option_t -> option string.
Variable authenticates :
  moauthd_server_t -> option string -> option string -> bool.
Variable env : environment.

Local Abbreviation token_request :=
  (do_token cupsHashData httpEncode64_2 _moauthJSONEncode authenticates env).

(** The password grant once the two parameters are not both missing. *)
Lemma do_token_password (w : world) (vars : list cups_option_t) :
  cupsGetOption "grant_type" vars = Some "password" ->
  is_null (cupsGetOption "username" vars)
  && is_null (cupsGetOption "password" vars) = false ->
  token_request (Some vars) w
  = (ok <- moauthdAuthenticateUser authenticates
             (cupsGetOption "username" vars) (cupsGetOption "password" vars) ;;
     if negb ok then bad_request env
     else
       access_token <- moauthdCreateToken env MOAUTHD_TOKTYPE_ACCESS None
                         (cupsGetOption "username" vars)
                         (cupsGetOption "scope" vars) ;;
       do_token_respond _moauthJSONEncode env access_token) w.
Proof.
  intros Hgrant Hgiven. unfold do_token. rewrite Hgrant.
  autorewrite with grant_types. cbn [negb andb]. rewrite Hgiven.
  reflexivity.
Qed.

(** X14: a password grant the Authenticator accepts creates an access
    token for the user name and the scope of the request, bound to no
    application and living [MaxTokenLife] seconds, and answers 200 with the
    JSON object of its identifier, the type [access] and [MaxTokenLife] as
    [expires_in]. *)
Theorem do_token_password_grant (w : world) (vars : list cups_option_t)
  (tid : string) (uid gid : Z) (data : string) :
  cupsGetOption "grant_type" vars = Some "password" ->
  is_null (cupsGetOption "username" vars)
  && is_null (cupsGetOption "password" vars) = false ->
  authenticates (w_server w) (cupsGetOption "username" vars)
    (cupsGetOption "password" vars) = true ->
  new_token env = Some (tid, uid, gid) ->
  _moauthJSONEncode
    [("access_token", tid); ("expires_in", pretty (max_token_life (w_server w)));
     ("token_type", "access")]
  = Some data ->
  exists v,
    token_request (Some vars) w
    = Done v
        {| w_server :=
             set_tokens
               (<[tid := {| type := MOAUTHD_TOKTYPE_ACCESS; token := tid;
                            challenge := None;
                            user := cupsGetOption "username" vars;
                            application := None;
                            scopes := cupsGetOption "scope" vars;
                            uid := uid; gid := gid; created := now env;
                            expires :=
                              now env + max_token_life (w_server w) |}]>
                  (tokens (w_server w)))
               (w_server w);
           w_client := w_client w;
           w_events :=
             w_events w
             ++ Authenticate (cupsGetOption "username" vars)
                  (cupsGetOption "password" vars)
                :: Respond HTTP_STATUS_OK (Some "application/json") None
                     (Z.of_nat (String.length data))
                :: (if respond_ok env then [Write data] else []) |}.
Proof.
  intros Hgrant Hgiven Hauth Hnew Hjson.
  rewrite (do_token_password w vars Hgrant Hgiven).
  step_handler. rewrite Hauth, Hnew. cbn. rewrite do_token_json.
  rewrite Hjson. cbn.
  destruct (respond_ok env); [destruct (write_short env)|]; cbn;
    eexists; rewrite <- ?app_assoc; reflexivity.
Qed.

(** X15: when the token store cannot create the access token of a
    password grant the Authenticator accepted, the [NULL] it returns is
    dereferenced for the response: the request does not come back and is
    not answered, after the one call of the Authenticator. *)
Theorem do_token_password_grant_no_token (w : world)
  (vars : list cups_option_t) :
  cupsGetOption "grant_type" vars = Some "password" ->
  is_null (cupsGetOption "username" vars)
  && is_null (cupsGetOption "password" vars) = false ->
  authenticates (w_server w) (cupsGetOption "username" vars)
    (cupsGetOption "password" vars) = true ->
  new_token env = None ->
  token_request (Some vars) w
  = Crash
      {| w_server := w_server w; w_client := w_client w;
         w_events :=
           w_events w
           ++ [Authenticate (cupsGetOption "username" vars)
                 (cupsGetOption "password" vars)] |}.
Proof.
  intros Hgrant Hgiven Hauth Hnew.
  rewrite (do_token_password w vars Hgrant Hgiven).
  step_handler. rewrite Hauth, Hnew. reflexivity.
Qed.

(** The [authorization_code] grant once the client and the code are
    given and the application is found. *)
Lemma do_token_code (w : world) (vars : list cups_option_t) (id code : string)
  (app : ptr * moauthd_application_t) :
  cupsGetOption "grant_type" vars = Some "authorization_code" ->
  cupsGetOption "client_id" vars = Some id ->
  cupsGetOption "code" vars = Some code ->
  moauthdFindApplication (w_server w) id (cupsGetOption "redirect_uri" vars)
  = Some app ->
  token_request (Some vars) w
  = match tokens (w_server w) !! code with
    | None =>
        (moauthdLogc MOAUTHD_LOGLEVEL_ERROR "Bad code in token request." ;;
         bad_request env) w
    | Some grant_token =>
        (if negb (bool_decide (application grant_token = Some app.1)) then
           moauthdLogc MOAUTHD_LOGLEVEL_ERROR
             "Bad client_id or redirect_uri in token request." ;;
           bad_request env
         else if expires grant_token <=? now env then
           moauthdLogc MOAUTHD_LOGLEVEL_ERROR "Grant token has expired." ;;
           moauthdDeleteToken grant_token ;;
           bad_request env
         else
           verified <- do_token_verify cupsHashData httpEncode64_2 grant_token
                         (cupsGetOption "code_verifier" vars) ;;
           if negb verified then bad_request env
           else do_token_exchange _moauthJSONEncode env app grant_token) w
    end.
Proof.
  intros Hgrant Hclient Hcode Happ. unfold do_token.
  rewrite Hgrant, Hclient, Hcode. autorewrite with grant_types.
  cbn [negb andb orb is_null].
  unfold deref at 1 2. unfold ret at 1 2. unfold bind at 1 2.
  unfold get_server at 1. unfold bind at 1. rewrite Happ.
  unfold moauthdFindToken, get_server. unfold bind at 1 2. cbn [ret].
  destruct (tokens (w_server w) !! code); reflexivity.
Qed.

(** X16: the code of a grant that has expired is refused with 400, and
    the expired token leaves the store with the request. *)
Theorem do_token_expired_grant (w : world) (vars : list cups_option_t)
  (id code : string) (app : ptr * moauthd_application_t)
  (t : moauthd_token_t) :
  cupsGetOption "grant_type" vars = Some "authorization_code" ->
  cupsGetOption "client_id" vars = Some id ->
  cupsGetOption "code" vars = Some code ->
  moauthdFindApplication (w_server w) id (cupsGetOption "redirect_uri" vars)
  = Some app ->
  tokens (w_server w) !! code = Some t ->
  application t = Some app.1 ->
  expires t <= now env ->
  token_request (Some vars) w
  = Done (Z.b2z (respond_ok env))
      {| w_server :=
           set_tokens (delete (token t) (tokens (w_server w))) (w_server w);
         w_client := w_client w;
         w_events :=
           w_events w
           ++ [Logc MOAUTHD_LOGLEVEL_ERROR "Grant token has expired.";
               Respond HTTP_STATUS_BAD_REQUEST None None 0] |}.
Proof.
  intros Hgrant Hclient Hcode Happ Hfound Hbound Hexpired.
  rewrite (do_token_code w vars id code app Hgrant Hclient Hcode Happ).
  rewrite Hfound. rewrite bool_decide_eq_true_2 by exact Hbound.
  assert (Hexp : (expires t <=? now env) = true) by (apply Z.leb_le; lia).
  cbn [negb]. rewrite Hexp. step_handler. rewrite <- app_assoc. reflexivity.
Qed.

(** X17: a code is only exchanged by the application it was granted to:
    for a token bound to another application, or to none, the request is
    answered 400 and the token stays in the store for its application. *)
Theorem do_token_other_application (w : world) (vars : list cups_option_t)
  (id code : string) (app : ptr * moauthd_application_t)
  (t : moauthd_token_t) :
  cupsGetOption "grant_type" vars = Some "authorization_code" ->
  cupsGetOption "client_id" vars = Some id ->
  cupsGetOption "code" vars = Some code ->
  moauthdFindApplication (w_server w) id (cupsGetOption "redirect_uri" vars)
  = Some app ->
  tokens (w_server w) !! code = Some t ->
  application t <> Some app.1 ->
  refused w (token_request (Some vars) w).
Proof.
  intros Hgrant Hclient Hcode Happ Hfound Hother.
  rewrite (do_token_code w vars id code app Hgrant Hclient Hcode Happ).
  rewrite Hfound. rewrite bool_decide_eq_false_2 by exact Hother.
  step_handler. eexists _, _. rewrite <- app_assoc. split; reflexivity.
Qed.

(** A request without a message body, without a [grant_type] or with
    one that is neither [authorization_code] nor [password], and an
    [authorization_code] request without [client_id], without [code] or
    for a client that is not registered, is answered 400 before the token
    store is used, the server and client objects unchanged. *)
Lemma do_token_bad_request (w : world) (body : option (list cups_option_t)) :
  match body with
  | None => True
  | Some vars =>
      match cupsGetOption "grant_type" vars with
      | None => True
      | Some grant_type =>
          (grant_type <> "authorization_code" /\ grant_type <> "password")
          \/ (grant_type = "authorization_code"
              /\ match cupsGetOption "client_id" vars,
                       cupsGetOption "code" vars with
                 | Some id, Some _ =>
                     moauthdFindApplication (w_server w) id
                       (cupsGetOption "redirect_uri" vars) = None
                 | _, _ => True
                 end)
      end
  end ->
  refused w (token_request body w).
Proof.
  intros H. unfold do_token. destruct body as [vars|].
  2:{ step_handler. eexists _, _. split; reflexivity. }
  destruct (cupsGetOption "grant_type" vars) as [grant_type|].
  2:{ step_handler. eexists _, _. rewrite <- app_assoc. split; reflexivity. }
  destruct H as [[Hcode Hpassword]|[-> H]].
  - rewrite !strcmp_eqb.
    rewrite !bool_decide_eq_false_2 by assumption. cbn [negb andb].
    step_handler. eexists _, _. rewrite <- app_assoc. split; reflexivity.
  - autorewrite with grant_types. cbn [negb andb].
    destruct (cupsGetOption "client_id" vars) as [id|];
      destruct (cupsGetOption "code" vars) as [code|]; cbn [is_null orb];
      try (step_handler; eexists _, _; rewrite <- ?app_assoc;
           split; reflexivity).
    unfold deref at 1 2. unfold ret at 1 2. unfold bind at 1 2.
    unfold get_server at 1. unfold bind at 1. rewrite H.
    destruct (is_null (cupsGetOption "redirect_uri" vars)); step_handler;
      eexists _, _; rewrite <- app_assoc; split; reflexivity.
Qed.

Ltac frame_done :=
  intros ->; cbn [final w_server w_client applications set_tokens];
  split; [reflexivity|]; split; [reflexivity|];
  rewrite <- ?app_assoc, ?responses_done; cbn; auto.

(** X18: /token never touches the registered applications nor the
    client object, whatever the request.  A request that comes back was
    answered once, with 200 or with 400; the only request that does not
    come back, and is not answered, is a password grant whose access token
    could not be created. *)
Theorem do_token_frame (w : world) (body : option (list cups_option_t)) :
  let r := token_request body w in
  applications (w_server (final r)) = applications (w_server w)
  /\ w_client (final r) = w_client w
  /\ match r with
     | Done _ _ =>
         responses w r = [HTTP_STATUS_OK]
         \/ responses w r = [HTTP_STATUS_BAD_REQUEST]
     | Crash _ =>
         responses w r = []
         /\ new_token env = None
         /\ exists vars,
              body = Some vars
              /\ cupsGetOption "grant_type" vars = Some "password"
     end.
Proof.
  intros r.
  assert (Hr : r = token_request body w) by reflexivity.
  clearbody r. destruct body as [vars|].
  2:{ revert Hr. unfold do_token. step_handler. frame_done. }
  destruct (cupsGetOption "grant_type" vars) as [grant_type|] eqn:Hgrant.
  2:{ revert Hr. unfold do_token. rewrite Hgrant. step_handler. frame_done. }
  destruct (bool_decide_reflect (grant_type = "password")) as [->|Hnp].
  - destruct (is_null (cupsGetOption "username" vars)
              && is_null (cupsGetOption "password" vars)) eqn:Hgiven.
    + revert Hr. unfold do_token. rewrite Hgrant.
      autorewrite with grant_types. cbn [negb andb]. rewrite Hgiven.
      destruct (is_null (cupsGetOption "username" vars));
        destruct (is_null (cupsGetOption "password" vars));
        step_handler; frame_done.
    + rewrite (do_token_password w vars Hgrant Hgiven) in Hr.
      revert Hr. step_handler.
      destruct (authenticates (w_server w) _ _); cbn; [|frame_done].
      destruct (new_token env) as [[[tid uid] gid]|] eqn:Hnew; cbn.
      2:{ intros ->. cbn. unfold responses. cbn. rewrite drop_app_length.
          repeat split. exists vars. split; [reflexivity|exact Hgrant]. }
      rewrite do_token_json.
      destruct (_moauthJSONEncode _) as [data|]; cbn; [|frame_done].
      destruct (respond_ok env); [destruct (write_short env)|]; cbn;
        frame_done.
  - destruct (bool_decide_reflect (grant_type = "authorization_code"))
      as [->|Hnc].
    2:{ revert Hr. unfold do_token. rewrite Hgrant, !strcmp_eqb.
        rewrite !bool_decide_eq_false_2 by assumption. cbn [negb andb].
        step_handler. frame_done. }
    destruct (cupsGetOption "client_id" vars) as [id|] eqn:Hclient.
    2:{ revert Hr. unfold do_token. rewrite Hgrant, Hclient.
        autorewrite with grant_types. cbn [negb andb is_null orb].
        destruct (is_null (cupsGetOption "code" vars));
          step_handler; frame_done. }
    destruct (cupsGetOption "code" vars) as [code|] eqn:Hcode.
    2:{ revert Hr. unfold do_token. rewrite Hgrant, Hclient, Hcode.
        autorewrite with grant_types. cbn [negb andb is_null orb].
        step_handler. frame_done. }
    destruct (moauthdFindApplication (w_server w) id
                (cupsGetOption "redirect_uri" vars)) as [app|] eqn:Happ.
    2:{ revert Hr. unfold do_token. rewrite Hgrant, Hclient, Hcode.
        autorewrite with grant_types. cbn [negb andb is_null orb].
        unfold deref at 1 2. unfold ret at 1 2. unfold bind at 1 2.
        unfold get_server at 1. unfold bind at 1. rewrite Happ.
        destruct (is_null (cupsGetOption "redirect_uri" vars));
          step_handler; frame_done. }
    rewrite (do_token_code w vars id code app Hgrant Hclient Hcode Happ) in Hr.
    destruct (tokens (w_server w) !! code) as [t|].
    2:{ revert Hr. step_handler. frame_done. }
    destruct (bool_decide (application t = Some app.1)); cbn [negb] in Hr.
    2:{ revert Hr. step_handler. frame_done. }
    destruct (expires t <=? now env).
    { revert Hr. step_handler. frame_done. }
    destruct (do_token_verify_spec cupsHashData httpEncode64_2 t
                (cupsGetOption "code_verifier" vars) w) as (ev & E & Hs & Hnil).
    unfold bind at 1 in Hr. rewrite E in Hr. clear E.
    destruct (pkce_accepts cupsHashData httpEncode64_2 t
                (cupsGetOption "code_verifier" vars)); cbn [negb] in Hr.
    2:{ revert Hr. step_handler. intros ->. cbn.
        split; [reflexivity|]. split; [reflexivity|].
        rewrite <- app_assoc, responses_done, statuses_app, Hs. auto. }
    rewrite (Hnil eq_refl), app_nil_r in Hr.
    revert Hr. unfold do_token_exchange, moauthdCreateToken.
    destruct (new_token env) as [[[tid uid] gid]|]; [|step_handler; frame_done].
    step_handler. rewrite do_token_json.
    destruct (_moauthJSONEncode _) as [data|]; cbn; [|frame_done].
    destruct (respond_ok env); [destruct (write_short env)|]; cbn;
      frame_done.
Qed.

End TokenRequests.

Lemma do_introspect_denied_witness :
  introspect_allowed Scene.server2 new_client = false
  /\ Sample.do_introspect (Sample.env "A2") (Some [("token", "A1")])
       (Sample.world_of Scene.server2)
     = Done 1
         {| w_server := Scene.server2; w_client := new_client;
            w_events := [Respond HTTP_STATUS_UNAUTHORIZED None None 0] |}.
Proof.
  split; [reflexivity|].
  apply (do_introspect_denied Reference._moauthJSONEncode (Sample.env "A2")
           (Sample.world_of Scene.server2) (Some [("token", "A1")])).
  reflexivity.
Defined.


Lemma do_token_password_grant_witness :
  let w := Sample.world_of Sample.server0 in
  let vars := Scene.password_request "secret" in
  exists v data,
    Sample.do_token (Sample.env "P1") (Some vars) w
    = Done v
        {| w_server :=
             set_tokens
               (<["P1" := {| type := MOAUTHD_TOKTYPE_ACCESS; token := "P1";
                             challenge := None; user := Some "alice";
                             application := None; scopes := Some "private";
                             uid := 1000; gid := 1000; created := 1100;
                             expires := 1100 + 604800 |}]>
                  (tokens Sample.server0))
               Sample.server0;
           w_client := new_client;
           w_events :=
             [] ++ Authenticate (Some "alice") (Some "secret")
             :: Respond HTTP_STATUS_OK (Some "application/json") None
                  (Z.of_nat (String.length data))
             :: [Write data] |}.
Proof.
  intros w vars.
  destruct (do_token_password_grant Reference.cupsHashData
              Reference.httpEncode64_2 Reference._moauthJSONEncode
              Reference.authenticates (Sample.env "P1") w vars "P1" 1000 1000
              (default EmptyString
                 (Reference._moauthJSONEncode
                    [("access_token", "P1");
                     ("expires_in", pretty (max_token_life Sample.server0));
                     ("token_type", "access")])))
    as [v Hv].
  - reflexivity.
  - reflexivity.
  - vm_compute. reflexivity.
  - reflexivity.
  - reflexivity.
  - exists v. eexists. exact Hv.
Defined.

Lemma do_token_password_grant_no_token_witness :
  let w := Sample.world_of Sample.server0 in
  let vars := Scene.password_request "secret" in
  Sample.do_token Scene.exhausted (Some vars) w
  = Crash
      {| w_server := Sample.server0; w_client := new_client;
         w_events := [Authenticate (Some "alice") (Some "secret")] |}.
Proof.
  intros w vars.
  apply (do_token_password_grant_no_token Reference.cupsHashData
           Reference.httpEncode64_2 Reference._moauthJSONEncode
           Reference.authenticates Scene.exhausted w vars).
  - reflexivity.
  - reflexivity.
  - vm_compute. reflexivity.
  - reflexivity.
Defined.

Lemma do_token_expired_grant_witness :
  let w := Sample.world_of Sample.server1 in
  tokens Sample.server1 !! "G1" = Some (Sample.grant MOAUTHD_TOKTYPE_GRANT)
  /\ Sample.do_token Scene.late (Some Scene.code_request) w
     = Done 1
         {| w_server :=
              set_tokens (delete "G1" (tokens Sample.server1)) Sample.server1;
            w_client := new_client;
            w_events :=
              [Logc MOAUTHD_LOGLEVEL_ERROR "Grant token has expired.";
               Respond HTTP_STATUS_BAD_REQUEST None None 0] |}.
Proof.
  intros w. split; [vm_compute; reflexivity|].
  apply (do_token_expired_grant Reference.cupsHashData
           Reference.httpEncode64_2 Reference._moauthJSONEncode
           Reference.authenticates Scene.late w Scene.code_request
           "app1" "G1" Scene.app1 (Sample.grant MOAUTHD_TOKTYPE_GRANT)).
  - reflexivity.
  - reflexivity.
  - reflexivity.
  - vm_compute. reflexivity.
  - vm_compute. reflexivity.
  - reflexivity.
  - vm_compute. discriminate.
Defined.

Lemma do_token_other_application_witness :
  let server :=
    (moauthdAddApplication Sample.server1 "app2" "https://two/cb" None None
       None None).1 in
  let w := Sample.world_of server in
  let vars := [("grant_type", "authorization_code"); ("client_id", "app2");
               ("code", "G1"); ("code_verifier", Sample.code_verifier)] in
  tokens server !! "G1" = Some (Sample.grant MOAUTHD_TOKTYPE_GRANT)
  /\ refused w (Sample.do_token (Sample.env "A2") (Some vars) w).
Proof.
  intros server w vars. split; [vm_compute; reflexivity|].
  apply (do_token_other_application Reference.cupsHashData
           Reference.httpEncode64_2 Reference._moauthJSONEncode
           Reference.authenticates (Sample.env "A2") w vars "app2" "G1"
           (2%nat,
            {| client_id := "app2"; redirect_uri := "https://two/cb";
               client_name := None; client_uri := None; logo_uri := None;
               tos_uri := None |})
           (Sample.grant MOAUTHD_TOKTYPE_GRANT)).
  - reflexivity.
  - reflexivity.
  - reflexivity.
  - vm_compute. reflexivity.
  - vm_compute. reflexivity.
  - vm_compute. discriminate.
Defined.


Lemma do_introspect_reports_token_witness :
  let w := {| w_server := Scene.server2; w_client := Sample.alice;
              w_events := [] |} in
  tokens Scene.server2 !! "A1" = Some Scene.access_token
  /\ application_at Scene.server2 1%nat = Some Scene.app1.2
  /\ exists data,
       Reference._moauthJSONEncode
         [("active", "false"); ("client_id", "app1"); ("exp", "605900");
          ("iat", "1100"); ("scope", "private shared");
          ("token_type", "access"); ("username", "alice")] = Some data
       /\ Sample.do_introspect Scene.late (Some [("token", "A1")]) w
          = Done 1
              {| w_server := Scene.server2; w_client := Sample.alice;
                 w_events :=
                   [] ++ Respond HTTP_STATUS_OK (Some "application/json") None
                           (Z.of_nat (String.length data))
                      :: [Write data] |}.
Proof.
  intros w. split; [vm_compute; reflexivity|]. split; [reflexivity|].
  eexists. split; [reflexivity|].
  apply (do_introspect_reports_token Reference._moauthJSONEncode Scene.late
           w [("token", "A1")] "A1" Scene.access_token 1%nat Scene.app1.2).
  - reflexivity.
  - reflexivity.
  - vm_compute. reflexivity.
  - reflexivity.
  - reflexivity.
  - vm_compute. reflexivity.
Defined.

(** ** The /authorize endpoint *)

Ltac step_authorize :=
  unfold do_authorize_missing, do_authorize_unknown, bad_request,
    moauthdAuthenticateUser, moauthdCreateToken, moauthdRespondClient,
    moauthdLogc, when, deref, emit, get_server, get_client, put_server,
    put_client, bind, ret;
  cbn.

Lemma strcmp_code : (strcmp "code" "code" =? 0) = true.
Proof. reflexivity. Qed.

Lemma strcmp_S256 : (strcmp "S256" "S256" =? 0) = true.
Proof. reflexivity. Qed.

Section Authorize.

Variable authenticates :
  moauthd_server_t -> option string -> option string -> bool.
Variable _moauthFormDecode : option string -> list cups_option_t.
Variable moauthdHTMLHeader : string -> string.
Variable moauthdHTMLPrintf : authorize_format -> list string -> string.
Variable moauthdHTMLFooter : string.
Variable env : environment.

Local Abbreviation authorize :=
  (do_authorize authenticates _moauthFormDecode moauthdHTMLHeader
     moauthdHTMLPrintf moauthdHTMLFooter env).

(** The grant [do_authorize] leaves in the store. *)
Local Abbreviation grant_of server app vars tid uid gid :=
  {| type := MOAUTHD_TOKTYPE_GRANT; token := tid;
     challenge := cupsGetOption "code_challenge" vars;
     user := cupsGetOption "username" vars; application := Some app;
     scopes := cupsGetOption "scope" vars; uid := uid; gid := gid;
     created := now env; expires := now env + max_grant_life server |}.

(** The end of a redirect URI: the state, when the request has one. *)
Local Abbreviation state_of vars :=
  (match cupsGetOption "state" vars with
   | Some state => "&state=" +:+ state
   | None => EmptyString
   end).

(** The POST request once the variables are there and the application
    is found. *)
Lemma do_authorize_post (w : world) (query : option string)
  (vars : list cups_option_t) (id : string)
  (app : ptr * moauthd_application_t) :
  cupsGetOption "client_id" vars = Some id ->
  cupsGetOption "response_type" vars = Some "code" ->
  moauthdFindApplication (w_server w) id (cupsGetOption "redirect_uri" vars)
  = Some app ->
  authorize HTTP_STATE_POST query (Some vars) w
  = match cupsGetOption "redirect_uri" vars with
    | None => Crash w
    | Some uri =>
        let prefix := if strchr uri "?" then "&" else "?" in
        (ok <- (if is_null (cupsGetOption "username" vars)
                   || is_null (cupsGetOption "password" vars)
                then ret false
                else moauthdAuthenticateUser authenticates
                       (cupsGetOption "username" vars)
                       (cupsGetOption "password" vars)) ;;
         location <-
           (if negb ok then
              ret (uri +:+ prefix
                   +:+ "error=access_denied&error_description=Bad+username+or+password."
                   +:+ state_of vars)
            else
              created_token <-
                moauthdCreateToken env MOAUTHD_TOKTYPE_GRANT (Some app.1)
                  (cupsGetOption "username" vars)
                  (cupsGetOption "scope" vars) ;;
              match created_token with
              | None =>
                  ret (uri +:+ prefix
                       +:+ "error=server_error&error_description=Unable+to+create+grant."
                       +:+ state_of vars)
              | Some created_token =>
                  match cupsGetOption "code_challenge" vars with
                  | Some _ =>
                      server <- get_server ;;
                      put_server
                        (set_tokens
                           (<[token created_token :=
                                set_challenge
                                  (cupsGetOption "code_challenge" vars)
                                  created_token]>
                              (tokens server))
                           server)
                  | None => ret tt
                  end ;;
                  ret (uri +:+ prefix +:+ "code=" +:+ token created_token
                       +:+ state_of vars)
              end) ;;
         ok <- moauthdRespondClient env HTTP_STATUS_MOVED_TEMPORARILY None
                 (Some (substring 0 2047 location)) 0 0 ;;
         ret (Z.b2z ok)) w
    end.
Proof.
  intros Hclient Hresponse Happ. unfold do_authorize.
  rewrite Hclient, Hresponse, strcmp_code. cbn [negb].
  unfold get_server at 1. unfold bind at 1. rewrite Happ.
  destruct (cupsGetOption "redirect_uri" vars) as [uri|]; reflexivity.
Qed.

(** X19: a POST to /authorize that names a registered client and has no
    [redirect_uri], a variable the handler reads as optional and looks the
    application up without, does not come back: the [NULL] is handed to
    [strchr], and the request gets no answer. *)
Theorem do_authorize_post_without_redirect_uri (w : world)
  (query : option string) (vars : list cups_option_t) (id : string)
  (app : ptr * moauthd_application_t) :
  cupsGetOption "client_id" vars = Some id ->
  cupsGetOption "response_type" vars = Some "code" ->
  cupsGetOption "redirect_uri" vars = None ->
  moauthdFindApplication (w_server w) id None = Some app ->
  do_authorize authenticates _moauthFormDecode moauthdHTMLHeader
    moauthdHTMLPrintf moauthdHTMLFooter env HTTP_STATE_POST query (Some vars) w
  = Crash w.
Proof.
  intros Hclient Hresponse Hredirect Happ.
  rewrite (do_authorize_post w query vars id app Hclient Hresponse);
    rewrite Hredirect; [reflexivity|exact Happ].
Qed.

(** X20: a POST to /authorize with the user name and password of a user
    the Authenticator accepts creates a grant token for that user and the
    scope of the request, bound to the application, carrying the
    [code_challenge] of the request and living [MaxGrantLife] seconds; the
    answer is a redirect (302) to the [redirect_uri] of the request, not
    the registered one, followed by [?] (or [&] when the URI has a query)
    and [code=] with the identifier of the grant, then the state, the
    whole cut at 2047 bytes. *)
Theorem do_authorize_grants (w : world) (query : option string)
  (vars : list cups_option_t) (id uri username password : string)
  (app : ptr * moauthd_application_t) (tid : string) (uid gid : Z) :
  cupsGetOption "client_id" vars = Some id ->
  cupsGetOption "response_type" vars = Some "code" ->
  cupsGetOption "redirect_uri" vars = Some uri ->
  cupsGetOption "username" vars = Some username ->
  cupsGetOption "password" vars = Some password ->
  moauthdFindApplication (w_server w) id (Some uri) = Some app ->
  authenticates (w_server w) (Some username) (Some password) = true ->
  new_token env = Some (tid, uid, gid) ->
  do_authorize authenticates _moauthFormDecode moauthdHTMLHeader
    moauthdHTMLPrintf moauthdHTMLFooter env HTTP_STATE_POST query (Some vars) w
  = Done (Z.b2z (respond_ok env))
      {| w_server :=
           set_tokens
             (<[tid := grant_of (w_server w) app.1 vars tid uid gid]>
                (tokens (w_server w)))
             (w_server w);
         w_client := w_client w;
         w_events :=
           w_events w
           ++ [Authenticate (Some username) (Some password);
               Respond HTTP_STATUS_MOVED_TEMPORARILY None
                 (Some (substring 0 2047
                          (uri +:+ (if strchr uri "?" then "&" else "?")
                           +:+ "code=" +:+ tid +:+ state_of vars)))
                 0] |}.
Proof.
  intros Hclient Hresponse Hredirect Huser Hpassword Happ Hauth Hnew.
  rewrite (do_authorize_post w query vars id app Hclient Hresponse);
    rewrite Hredirect; [|exact Happ].
  rewrite Huser, Hpassword. cbn [is_null orb]. step_authorize.
  rewrite Hauth, Hnew. cbn.
  destruct (cupsGetOption "code_challenge" vars) as [c|]; cbn.
  - rewrite insert_insert_eq. rewrite <- app_assoc. reflexivity.
  - rewrite <- app_assoc. reflexivity.
Qed.

(** X21: a POST to /authorize without a user name, without a password
    or with credentials the Authenticator refuses creates no grant: the
    answer is a redirect to the [redirect_uri] of the request with
    [error=access_denied], and the Authenticator is called only when both
    the user name and the password are there. *)
Theorem do_authorize_denied (w : world) (query : option string)
  (vars : list cups_option_t) (id uri : string)
  (app : ptr * moauthd_application_t) :
  cupsGetOption "client_id" vars = Some id ->
  cupsGetOption "response_type" vars = Some "code" ->
  cupsGetOption "redirect_uri" vars = Some uri ->
  moauthdFindApplication (w_server w) id (Some uri) = Some app ->
  match cupsGetOption "username" vars, cupsGetOption "password" vars with
  | Some username, Some password =>
      authenticates (w_server w) (Some username) (Some password) = false
  | _, _ => True
  end ->
  do_authorize authenticates _moauthFormDecode moauthdHTMLHeader
    moauthdHTMLPrintf moauthdHTMLFooter env HTTP_STATE_POST query (Some vars) w
  = Done (Z.b2z (respond_ok env))
      {| w_server := w_server w; w_client := w_client w;
         w_events :=
           w_events w
           ++ match cupsGetOption "username" vars,
                    cupsGetOption "password" vars with
              | Some username, Some password =>
                  [Authenticate (Some username) (Some password)]
              | _, _ => []
              end
           ++ [Respond HTTP_STATUS_MOVED_TEMPORARILY None
                 (Some (substring 0 2047
                          (uri +:+ (if strchr uri "?" then "&" else "?")
                           +:+ "error=access_denied&error_description=Bad+username+or+password."
                           +:+ state_of vars)))
                 0] |}.
Proof.
  intros Hclient Hresponse Hredirect Happ Hdenied.
  rewrite (do_authorize_post w query vars id app Hclient Hresponse);
    rewrite Hredirect; [|exact Happ].
  destruct (cupsGetOption "username" vars) as [username|];
    destruct (cupsGetOption "password" vars) as [password|];
    cbn [is_null orb]; step_authorize; rewrite ?Hdenied; cbn;
    rewrite <- ?app_assoc; reflexivity.
Qed.

Lemma do_authorize_login_form (w : world) (query : option string) (id : string)
  (app : ptr * moauthd_application_t) :
  let vars := _moauthFormDecode query in
  cupsGetOption "client_id" vars = Some id ->
  cupsGetOption "response_type" vars = Some "code" ->
  match cupsGetOption "code_challenge_method" vars with
  | Some method => method = "S256"
  | None => True
  end ->
  moauthdFindApplication (w_server w) id (cupsGetOption "redirect_uri" vars)
  = Some app ->
  respond_ok env = true ->
  do_authorize authenticates _moauthFormDecode moauthdHTMLHeader
    moauthdHTMLPrintf moauthdHTMLFooter env HTTP_STATE_GET query None w
  = Done 1
      {| w_server := w_server w; w_client := w_client w;
         w_events :=
           w_events w
           ++ [Respond HTTP_STATUS_OK (Some "text/html") None 0;
               Write (moauthdHTMLHeader "Authorization");
               Write (moauthdHTMLPrintf FORM_OPEN
                        [id; redirect_uri app.2; "code";
                         default "private shared"
                           (cupsGetOption "scope" vars)])]
           ++ match cupsGetOption "state" vars with
              | Some state => [Write (moauthdHTMLPrintf FORM_STATE [state])]
              | None => []
              end
           ++ match cupsGetOption "code_challenge" vars with
              | Some challenge =>
                  [Write (moauthdHTMLPrintf FORM_CODE_CHALLENGE [challenge])]
              | None => []
              end
           ++ [Write (moauthdHTMLPrintf FORM_CLOSE []);
               Write moauthdHTMLFooter] |}.
Proof.
  intros vars Hclient Hresponse Hmethod Happ Hok. unfold do_authorize.
  fold vars. rewrite Hclient, Hresponse, strcmp_code. cbn [negb orb].
  assert (Hm : match cupsGetOption "code_challenge_method" vars with
               | Some m => negb (strcmp m "S256" =? 0)
               | None => false
               end = false).
  { destruct (cupsGetOption "code_challenge_method" vars) as [m|];
      [|reflexivity]. subst m. reflexivity. }
  rewrite Hm. unfold get_server at 1. unfold bind at 1. rewrite Happ.
  destruct app as [p [cid ru cn cu lu tu]]. step_authorize. rewrite Hok. cbn.
  destruct (cupsGetOption "state" vars);
    destruct (cupsGetOption "code_challenge" vars); cbn;
    rewrite <- ?app_assoc; reflexivity.
Qed.

(** X22: a GET of /authorize for a registered client with
    [response_type=code], and no [code_challenge_method] or [S256], is
    answered 200 with the login form.  The form carries the client
    identifier, the redirect URI of the registration (whatever the request
    gave), the response type, the scope of the request or
    ["private shared"] without one, and the state and the code challenge
    when the request has them; the challenge method is not carried. *)
Theorem do_authorize_form (w : world) (query : option string) (id : string)
  (app : ptr * moauthd_application_t) :
  let vars := _moauthFormDecode query in
  cupsGetOption "client_id" vars = Some id ->
  cupsGetOption "response_type" vars = Some "code" ->
  match cupsGetOption "code_challenge_method" vars with
  | Some method => method = "S256"
  | None => True
  end ->
  moauthdFindApplication (w_server w) id (cupsGetOption "redirect_uri" vars)
  = Some app ->
  respond_ok env = true ->
  do_authorize authenticates _moauthFormDecode moauthdHTMLHeader
    moauthdHTMLPrintf moauthdHTMLFooter env HTTP_STATE_GET query None w
  = Done 1
      {| w_server := w_server w; w_client := w_client w;
         w_events :=
           w_events w
           ++ [Respond HTTP_STATUS_OK (Some "text/html") None 0;
               Write (moauthdHTMLHeader "Authorization");
               Write (moauthdHTMLPrintf FORM_OPEN
                        [id; redirect_uri app.2; "code";
                         default "private shared"
                           (cupsGetOption "scope" vars)])]
           ++ match cupsGetOption "state" vars with
              | Some state => [Write (moauthdHTMLPrintf FORM_STATE [state])]
              | None => []
              end
           ++ match cupsGetOption "code_challenge" vars with
              | Some challenge =>
                  [Write (moauthdHTMLPrintf FORM_CODE_CHALLENGE [challenge])]
              | None => []
              end
           ++ [Write (moauthdHTMLPrintf FORM_CLOSE []);
               Write moauthdHTMLFooter] |}.
Proof. apply do_authorize_login_form. Qed.

(** X23: the request [moauthAuthorize] writes is one /authorize takes:
    when the server reads the form variables the client helper put in the
    authorization URL, for a registered client, the GET is answered with
    the login form, which carries the code challenge the helper derived
    from the verifier.  The helper never sends a challenge method, and the
    server asks for none. *)
Theorem authorize_request_accepted
  (cupsHashData : string -> list Z) (httpEncode64_2 : Z -> list Z -> string)
  (w : world) (query : option string) (redirect client : string)
  (state verifier scope : option string)
  (app : ptr * moauthd_application_t) :
  _moauthFormDecode query
  = moauthAuthorize_vars cupsHashData httpEncode64_2 redirect client state
      verifier scope ->
  moauthdFindApplication (w_server w) client (Some redirect) = Some app ->
  respond_ok env = true ->
  do_authorize authenticates _moauthFormDecode moauthdHTMLHeader
    moauthdHTMLPrintf moauthdHTMLFooter env HTTP_STATE_GET query None w
  = Done 1
      {| w_server := w_server w; w_client := w_client w;
         w_events :=
           w_events w
           ++ [Respond HTTP_STATUS_OK (Some "text/html") None 0;
               Write (moauthdHTMLHeader "Authorization");
               Write (moauthdHTMLPrintf FORM_OPEN
                        [client; redirect_uri app.2; "code";
                         default "private shared" scope])]
           ++ match state with
              | Some state => [Write (moauthdHTMLPrintf FORM_STATE [state])]
              | None => []
              end
           ++ match verifier with
              | Some verifier =>
                  [Write (moauthdHTMLPrintf FORM_CODE_CHALLENGE
                            [httpEncode64_2 64 (cupsHashData verifier)])]
              | None => []
              end
           ++ [Write (moauthdHTMLPrintf FORM_CLOSE []);
               Write moauthdHTMLFooter] |}.
Proof.
  intros Hdecode Happ Hok.
  assert (Hvars :
            cupsGetOption "client_id" (_moauthFormDecode query) = Some client
            /\ cupsGetOption "response_type" (_moauthFormDecode query)
               = Some "code"
            /\ cupsGetOption "redirect_uri" (_moauthFormDecode query)
               = Some redirect
            /\ cupsGetOption "code_challenge_method" (_moauthFormDecode query)
               = None
            /\ cupsGetOption "scope" (_moauthFormDecode query) = scope
            /\ cupsGetOption "state" (_moauthFormDecode query) = state
            /\ cupsGetOption "code_challenge" (_moauthFormDecode query)
               = (fun v => httpEncode64_2 64 (cupsHashData v)) <$> verifier).
  { rewrite Hdecode, moauthAuthorize_vars_sorted.
    destruct scope as [scope|]; destruct state as [state|];
      destruct verifier as [verifier|]; repeat split; reflexivity. }
  destruct Hvars as (Hclient & Hresponse & Hredirect & Hmethod & Hscope
                     & Hstate & Hchallenge).
  pose proof (do_authorize_login_form w query client app) as H.
  cbv zeta in H. rewrite Hmethod, Hredirect, Hscope, Hstate, Hchallenge in H.
  rewrite (H Hclient Hresponse I Happ Hok).
  destruct verifier; reflexivity.
Qed.


End Authorize.

(** ** From /authorize to /token *)

Section AuthorizeThenToken.

Variable cupsHashData : string -> list Z.
Variable httpEncode64_2 : Z -> list Z -> string.
Variable _moauthJSONEncode : list cups_option_t -> option string.
Variable authenticates :
  moauthd_server_t -> option string -> option string -> bool.
Variable _moauthFormDecode : option string -> list cups_option_t.
Variable moauthdHTMLHeader : string -> string.
Variable moauthdHTMLPrintf : authorize_format -> list string -> string.
Variable moauthdHTMLFooter : string.

(** X24: the code a POST to /authorize hands out is exchanged at /token
    by the same client on any connection, as long as the grant has not
    expired, when the request brings the verifier whose hash, encoded, is
    the [code_challenge] the authorization was asked with: the answer is
    200, the grant leaves the store, and the access token that enters it
    is for the user who logged in and the scope asked at /authorize, bound
    to the application. *)
Theorem authorize_then_token (env1 env2 : environment) (w0 : world)
  (query : option string) (vars1 vars2 : list cups_option_t)
  (id uri username password verifier : string)
  (app : ptr * moauthd_application_t) (gtid : string) (guid ggid : Z)
  (atid : string) (auid agid : Z) (client2 : moauthd_client_t)
  (data : string) :
  cupsGetOption "client_id" vars1 = Some id ->
  cupsGetOption "response_type" vars1 = Some "code" ->
  cupsGetOption "redirect_uri" vars1 = Some uri ->
  cupsGetOption "username" vars1 = Some username ->
  cupsGetOption "password" vars1 = Some password ->
  cupsGetOption "code_challenge" vars1
  = Some (httpEncode64_2 45 (cupsHashData verifier)) ->
  moauthdFindApplication (w_server w0) id (Some uri) = Some app ->
  authenticates (w_server w0) (Some username) (Some password) = true ->
  new_token env1 = Some (gtid, guid, ggid) ->
  cupsGetOption "grant_type" vars2 = Some "authorization_code" ->
  cupsGetOption "client_id" vars2 = Some id ->
  cupsGetOption "code" vars2 = Some gtid ->
  cupsGetOption "code_verifier" vars2 = Some verifier ->
  now env2 < now env1 + max_grant_life (w_server w0) ->
  new_token env2 = Some (atid, auid, agid) ->
  _moauthJSONEncode
    [("access_token", atid); ("expires_in", pretty (max_token_life (w_server w0)));
     ("token_type", "access")]
  = Some data ->
  let r1 := do_authorize authenticates _moauthFormDecode moauthdHTMLHeader
              moauthdHTMLPrintf moauthdHTMLFooter env1 HTTP_STATE_POST query
              (Some vars1) w0 in
  let w1 := {| w_server := w_server (final r1); w_client := client2;
               w_events := [] |} in
  let r2 := do_token cupsHashData httpEncode64_2 _moauthJSONEncode
              authenticates env2 (Some vars2) w1 in
  responses w1 r2 = [HTTP_STATUS_OK]
  /\ tokens (w_server (final r2))
     = delete gtid
         (<[atid := {| type := MOAUTHD_TOKTYPE_ACCESS; token := atid;
                       challenge := None; user := Some username;
                       application := Some app.1;
                       scopes := cupsGetOption "scope" vars1;
                       uid := auid; gid := agid; created := now env2;
                       expires := now env2 + max_token_life (w_server w0) |}]>
            (tokens (w_server (final r1))))
  /\ tokens (w_server (final r2)) !! gtid = None.
Proof.
  intros Hclient1 Hresponse Hredirect Huser Hpassword Hchallenge Happ Hauth
    Hnew1 Hgrant Hclient2 Hcode Hverifier Hlive Hnew2 Hjson r1 w1 r2.
  assert (Hr1 : r1 = do_authorize authenticates _moauthFormDecode
                       moauthdHTMLHeader moauthdHTMLPrintf moauthdHTMLFooter
                       env1 HTTP_STATE_POST query (Some vars1) w0)
    by reflexivity.
  rewrite (do_authorize_grants authenticates _moauthFormDecode
             moauthdHTMLHeader moauthdHTMLPrintf moauthdHTMLFooter env1 w0
             query vars1 id uri username password app gtid guid ggid
             Hclient1 Hresponse Hredirect Huser Hpassword Happ Hauth Hnew1)
    in Hr1.
  clearbody r1. subst r1. cbn [final w_server] in *.
  set (grant := {| type := MOAUTHD_TOKTYPE_GRANT; token := gtid;
                   challenge := cupsGetOption "code_challenge" vars1;
                   user := cupsGetOption "username" vars1;
                   application := Some app.1;
                   scopes := cupsGetOption "scope" vars1;
                   uid := guid; gid := ggid; created := now env1;
                   expires := now env1 + max_grant_life (w_server w0) |}) in *.
  assert (Happ2 : moauthdFindApplication (w_server w1) id
                    (cupsGetOption "redirect_uri" vars2) = Some app).
  { rewrite moauthdFindApplication_find.
    rewrite moauthdFindApplication_find in Happ. exact Happ. }
  assert (Hfound : tokens (w_server w1) !! gtid = Some grant)
    by apply lookup_insert_eq.
  pose proof (do_token_pkce_cases cupsHashData httpEncode64_2
                _moauthJSONEncode authenticates env2 w1 vars2 id gtid app
                grant Hgrant Hclient2 Hcode Happ2 Hfound eq_refl Hlive) as H.
  cbv zeta in H. fold r2 in H.
  assert (Hpkce : pkce_accepts cupsHashData httpEncode64_2 grant
                    (cupsGetOption "code_verifier" vars2) = true).
  { unfold pkce_accepts. cbn [challenge grant]. rewrite Hchallenge, Hverifier.
    now apply bool_decide_eq_true_2. }
  rewrite Hpkce in H.
  rewrite (do_token_exchange_ok _moauthJSONEncode env2 app grant w1 atid auid
             agid data Hnew2 Hjson) in H.
  clearbody r2. subst r2. cbn [final w_server w_client w_events].
  split; [|split].
  - unfold responses. cbn. destruct (respond_ok env2); reflexivity.
  - unfold access_token_for. cbn [tokens set_tokens token user scopes grant
                                   max_token_life w_server w1].
    rewrite Huser. reflexivity.
  - cbn. apply lookup_delete_eq.
Qed.

End AuthorizeThenToken.

Lemma do_authorize_post_without_redirect_uri_witness :
  let vars := [("client_id", "app1"); ("response_type", "code");
               ("username", "alice"); ("password", "secret")] in
  moauthdFindApplication Sample.server0 "app1" None = Some Scene.app1
  /\ Scene.do_authorize (Sample.env "G7") HTTP_STATE_POST None (Some vars)
       (Sample.world_of Sample.server0)
     = Crash (Sample.world_of Sample.server0).
Proof.
  intros vars. split; [reflexivity|].
  apply (do_authorize_post_without_redirect_uri Reference.authenticates
           Scene._moauthFormDecode Scene.moauthdHTMLHeader
           Scene.moauthdHTMLPrintf Scene.moauthdHTMLFooter (Sample.env "G7")
           (Sample.world_of Sample.server0) None vars "app1" Scene.app1);
    reflexivity.
Defined.

Lemma do_authorize_grants_witness :
  Scene.do_authorize (Sample.env "G7") HTTP_STATE_POST None
    (Some (Scene.login "secret")) (Sample.world_of Sample.server0)
  = Done 1
      {| w_server :=
           set_tokens
             (<["G7" := {| type := MOAUTHD_TOKTYPE_GRANT; token := "G7";
                           challenge :=
                             cupsGetOption "code_challenge"
                               (Scene.login "secret");
                           user := Some "alice"; application := Some 1%nat;
                           scopes := Some "private"; uid := 1000; gid := 1000;
                           created := 1100; expires := 1100 + 300 |}]>
                (tokens Sample.server0))
             Sample.server0;
         w_client := new_client;
         w_events :=
           [] ++ [Authenticate (Some "alice") (Some "secret");
                  Respond HTTP_STATUS_MOVED_TEMPORARILY None
                    (Some "https://app/cb?code=G7&state=xyz") 0] |}.
Proof.
  apply (do_authorize_grants Reference.authenticates Scene._moauthFormDecode
           Scene.moauthdHTMLHeader Scene.moauthdHTMLPrintf
           Scene.moauthdHTMLFooter (Sample.env "G7")
           (Sample.world_of Sample.server0) None (Scene.login "secret")
           "app1" "https://app/cb" "alice" "secret" Scene.app1 "G7" 1000 1000).
  - reflexivity.
  - reflexivity.
  - reflexivity.
  - reflexivity.
  - reflexivity.
  - reflexivity.
  - vm_compute. reflexivity.
  - reflexivity.
Defined.

Lemma do_authorize_denied_witness :
  Scene.do_authorize (Sample.env "G7") HTTP_STATE_POST None
    (Some (Scene.login "wrong")) (Sample.world_of Sample.server0)
  = Done 1
      {| w_server := Sample.server0; w_client := new_client;
         w_events :=
           [] ++ [Authenticate (Some "alice") (Some "wrong")]
           ++ [Respond HTTP_STATUS_MOVED_TEMPORARILY None
                 (Some
                    "https://app/cb?error=access_denied&error_description=Bad+username+or+password.&state=xyz")
                 0] |}.
Proof.
  apply (do_authorize_denied Reference.authenticates Scene._moauthFormDecode
           Scene.moauthdHTMLHeader Scene.moauthdHTMLPrintf
           Scene.moauthdHTMLFooter (Sample.env "G7")
           (Sample.world_of Sample.server0) None (Scene.login "wrong")
           "app1" "https://app/cb" Scene.app1).
  - reflexivity.
  - reflexivity.
  - reflexivity.
  - reflexivity.
  - vm_compute. reflexivity.
Defined.

Lemma do_authorize_form_witness :
  let query :=
    Some "client_id=app1&response_type=code&redirect_uri=https://evil.example/cb&state=xyz" in
  Scene._moauthFormDecode query
  = [("client_id", "app1"); ("response_type", "code");
     ("redirect_uri", "https://evil.example/cb"); ("state", "xyz")]
  /\ Scene.do_authorize (Sample.env "G7") HTTP_STATE_GET query None
       (Sample.world_of Sample.server0)
     = Done 1
         {| w_server := Sample.server0; w_client := new_client;
            w_events :=
              [] ++ [Respond HTTP_STATUS_OK (Some "text/html") None 0;
                     Write (Scene.moauthdHTMLHeader "Authorization");
                     Write (Scene.moauthdHTMLPrintf FORM_OPEN
                              ["app1"; "https://app/cb"; "code";
                               "private shared"])]
              ++ [Write (Scene.moauthdHTMLPrintf FORM_STATE ["xyz"])]
              ++ []
              ++ [Write (Scene.moauthdHTMLPrintf FORM_CLOSE []);
                  Write Scene.moauthdHTMLFooter] |}.
Proof.
  intros query. split; [vm_compute; reflexivity|].
  apply (do_authorize_form Reference.authenticates Scene._moauthFormDecode
           Scene.moauthdHTMLHeader Scene.moauthdHTMLPrintf
           Scene.moauthdHTMLFooter (Sample.env "G7")
           (Sample.world_of Sample.server0) query "app1" Scene.app1).
  - vm_compute. reflexivity.
  - vm_compute. reflexivity.
  - vm_compute. exact I.
  - vm_compute. reflexivity.
  - reflexivity.
Defined.

Lemma authorize_then_token_witness :
  let env2 := {| now := 1200; new_token := Some ("A7", 1000, 1000);
                 respond_ok := true; write_short := false |} in
  let r1 := Scene.do_authorize (Sample.env "G7") HTTP_STATE_POST None
              (Some (Scene.login "secret")) (Sample.world_of Sample.server0) in
  let w1 := {| w_server := w_server (final r1); w_client := new_client;
               w_events := [] |} in
  let vars2 := [("grant_type", "authorization_code"); ("client_id", "app1");
                ("code", "G7"); ("code_verifier", Sample.code_verifier)] in
  let r2 := Sample.do_token env2 (Some vars2) w1 in
  responses w1 r2 = [HTTP_STATUS_OK]
  /\ tokens (w_server (final r2))
     = delete "G7"
         (<["A7" := {| type := MOAUTHD_TOKTYPE_ACCESS; token := "A7";
                       challenge := None; user := Some "alice";
                       application := Some 1%nat; scopes := Some "private";
                       uid := 1000; gid := 1000; created := 1200;
                       expires := 1200 + 604800 |}]>
            (tokens (w_server (final r1))))
  /\ tokens (w_server (final r2)) !! "G7" = None.
Proof.
  intros env2 r1 w1 vars2 r2.
  apply (authorize_then_token Reference.cupsHashData Reference.httpEncode64_2
           Reference._moauthJSONEncode Reference.authenticates
           Scene._moauthFormDecode Scene.moauthdHTMLHeader
           Scene.moauthdHTMLPrintf Scene.moauthdHTMLFooter (Sample.env "G7")
           env2 (Sample.world_of Sample.server0) None (Scene.login "secret")
           vars2 "app1" "https://app/cb" "alice" "secret"
           Sample.code_verifier Scene.app1 "G7" 1000 1000 "A7" 1000 1000
           new_client
           (default EmptyString
              (Reference._moauthJSONEncode
                 [("access_token", "A7"); ("expires_in", pretty (max_token_life Sample.server0));
                  ("token_type", "access")]))).
  - reflexivity.
  - reflexivity.
  - reflexivity.
  - reflexivity.
  - reflexivity.
  - reflexivity.
  - reflexivity.
  - vm_compute. reflexivity.
  - reflexivity.
  - reflexivity.
  - reflexivity.
  - reflexivity.
  - reflexivity.
  - vm_compute. reflexivity.
  - reflexivity.
  - reflexivity.
Defined.

Lemma authorize_request_accepted_witness :
  let query := Some (Scene._moauthFormEncode Scene.authorize_vars) in
  Scene.do_authorize (Sample.env "G7") HTTP_STATE_GET query None
    (Sample.world_of Sample.server0)
  = Done 1
      {| w_server := Sample.server0; w_client := new_client;
         w_events :=
           [] ++ [Respond HTTP_STATUS_OK (Some "text/html") None 0;
                  Write (Scene.moauthdHTMLHeader "Authorization");
                  Write (Scene.moauthdHTMLPrintf FORM_OPEN
                           ["app1"; "https://app/cb"; "code";
                            "private shared"])]
           ++ [Write (Scene.moauthdHTMLPrintf FORM_STATE ["xyz"])]
           ++ [Write (Scene.moauthdHTMLPrintf FORM_CODE_CHALLENGE
                        [Reference.httpEncode64_2 64
                           (Reference.cupsHashData Sample.code_verifier)])]
           ++ [Write (Scene.moauthdHTMLPrintf FORM_CLOSE []);
               Write Scene.moauthdHTMLFooter] |}.
Proof.
  intros query.
  apply (authorize_request_accepted Reference.authenticates
           Scene._moauthFormDecode Scene.moauthdHTMLHeader
           Scene.moauthdHTMLPrintf Scene.moauthdHTMLFooter (Sample.env "G7")
           Reference.cupsHashData Reference.httpEncode64_2
           (Sample.world_of Sample.server0) query "https://app/cb" "app1"
           (Some "xyz") (Some Sample.code_verifier) None Scene.app1).
  - vm_compute. reflexivity.
  - reflexivity.
  - reflexivity.
Defined.

(** ** The request loop *)

Lemma append_cons (c : ascii) (s b : string) :
  String c s +:+ b = String c (s +:+ b).
Proof. reflexivity. Qed.

Lemma append_nil (b : string) : EmptyString +:+ b = b.
Proof. reflexivity. Qed.

Lemma prefix_nil (s : string) : String.prefix EmptyString s = true.
Proof. destruct s; reflexivity. Qed.

Lemma prefix_append (s b : string) : String.prefix s (s +:+ b) = true.
Proof.
  induction s as [|c s IH]; [apply prefix_nil|].
  rewrite append_cons. cbn [String.prefix].
  destruct (Ascii.ascii_dec c c) as [_|Hne]; [exact IH|congruence].
Qed.

Lemma strstr_unfold (s sub : string) :
  strstr s sub
  = String.prefix sub s
    || match s with
       | String _ s' => strstr s' sub
       | EmptyString => false
       end.
Proof. destruct s; reflexivity. Qed.

Lemma strstr_append (a sub b : string) : strstr (a +:+ sub +:+ b) sub = true.
Proof.
  induction a as [|c a IH].
  - rewrite append_nil, strstr_unfold, prefix_append. reflexivity.
  - rewrite append_cons, strstr_unfold, IH. apply orb_true_r.
Qed.

Lemma split_at_append (c : ascii) (a s : string) :
  strchr a c = false ->
  split_at c (a +:+ s)
  = match split_at c s with
    | Some (x, y) => Some (a +:+ x, y)
    | None => None
    end.
Proof.
  intros Ha. induction a as [|x a IH].
  - rewrite append_nil. destruct (split_at c s) as [[u v]|]; reflexivity.
  - cbn [strchr] in Ha. destruct (Ascii.eqb x c) eqn:E; [discriminate|].
    rewrite append_cons. cbn [split_at]. rewrite E, (IH Ha).
    destruct (split_at c s) as [[u v]|]; reflexivity.
Qed.

Lemma split_at_last_none (c : ascii) (s : string) :
  strchr s c = false -> split_at_last c s = None.
Proof.
  induction s as [|x s IH]; [reflexivity|].
  cbn [strchr split_at_last]. destruct (Ascii.eqb x c); [discriminate|].
  intros H. now rewrite (IH H).
Qed.

Lemma split_at_last_append (c : ascii) (h ps : string) :
  strchr ps c = false ->
  split_at_last c (h +:+ String c ps) = Some (h, ps).
Proof.
  intros Hps. induction h as [|x h IH].
  - rewrite append_nil. cbn [split_at_last].
    rewrite (split_at_last_none c ps Hps), Ascii.eqb_refl. reflexivity.
  - rewrite append_cons. cbn [split_at_last]. now rewrite IH.
Qed.

Lemma substring_all (n : nat) (s : string) :
  (String.length s <= n)%nat -> substring 0 n s = s.
Proof.
  revert n. induction s as [|c s IH]; intros [|n] H; cbn in *;
    try reflexivity; try lia.
  rewrite IH by lia. reflexivity.
Qed.

(** The two shapes of a [Host:] field: with a port after its last colon,
    and without a colon. *)
Lemma host_value_port (h ps : string) :
  strchr ps ":" = false ->
  (String.length (h +:+ ":" +:+ ps) <= 299)%nat ->
  host_value (h +:+ ":" +:+ ps) = (strip_dot h, atoi ps).
Proof.
  intros Hps Hlen. unfold host_value. rewrite (substring_all _ _ Hlen).
  change (h +:+ ":" +:+ ps) with (h +:+ String ":" ps).
  now rewrite split_at_last_append.
Qed.

Lemma host_value_default (h : string) :
  strchr h ":" = false ->
  (String.length h <= 299)%nat ->
  host_value h = (strip_dot h, 443).
Proof.
  intros Hh Hlen. unfold host_value. rewrite (substring_all _ _ Hlen).
  now rewrite split_at_last_none.
Qed.

Section RequestLoop.

Variable cupsHashData : string -> list Z.
Variable httpEncode64_2 : Z -> list Z -> string.
Variable httpDecode64_2 : string -> string.
Variable _moauthJSONEncode : list cups_option_t -> option string.
Variable authenticates :
  moauthd_server_t -> option string -> option string -> bool.
Variable getpwnam : string -> option (Z * Z).
Variable getgrouplist : string -> Z -> Z -> Z * list Z.
Variable _moauthFormDecode : option string -> list cups_option_t.
Variable moauthdHTMLHeader : string -> string.
Variable moauthdHTMLPrintf : authorize_format -> list string -> string.
Variable moauthdHTMLFooter : string.
Variable moauthdGetFile : http_state_t -> string -> M http_status_t.

Local Abbreviation turn :=
  (moauthdRunClient_request cupsHashData httpEncode64_2 httpDecode64_2
     _moauthJSONEncode authenticates getpwnam getgrouplist _moauthFormDecode
     moauthdHTMLHeader moauthdHTMLPrintf moauthdHTMLFooter moauthdGetFile).

Local Abbreviation method_turn :=
  (moauthdRunClient_method cupsHashData httpEncode64_2 httpDecode64_2
     _moauthJSONEncode authenticates getpwnam getgrouplist _moauthFormDecode
     moauthdHTMLHeader moauthdHTMLPrintf moauthdHTMLFooter moauthdGetFile).

Lemma request_with_method (env : environment) (rq : request) :
  is_method (rq_state rq) = true ->
  turn env rq = method_turn env (rq_state rq) rq.
Proof.
  unfold moauthdRunClient_request.
  destruct (rq_state rq); (discriminate || reflexivity).
Qed.

(** A target that starts with a slash is taken as it is, up to its
    first question mark. *)
Lemma request_target_path (uri_prefix path : string) :
  starts_with "/" path = true ->
  request_target uri_prefix path
  = match split_at "?" path with
    | Some (p, q) => (p, Some q)
    | None => (path, None)
    end.
Proof. intros H. unfold request_target. now rewrite H. Qed.

(** [*] is no target in absolute form, whatever the prefix. *)
Lemma request_target_star (uri_prefix : string) :
  request_target uri_prefix "*" = ("*", None).
Proof.
  unfold request_target.
  assert (H : negb (starts_with "/" "*") && String.prefix uri_prefix "*"
              && bool_decide (String.get (String.length uri_prefix) "*"
                              = Some "/"%char) = false).
  { destruct uri_prefix as [|c [|d p]].
    - rewrite bool_decide_eq_false_2 by discriminate. reflexivity.
    - rewrite bool_decide_eq_false_2 by discriminate. apply andb_false_r.
    - cbn [String.prefix]. destruct (Ascii.ascii_dec c "*"); reflexivity. }
  rewrite H. reflexivity.
Qed.

(** X25: a request whose target has [/../] before any question mark is
    answered 400 whatever its method, and it ends the connection: the
    credentials of the request are not looked at, no handler runs, and the
    requests that follow on the connection are not read. *)
Theorem request_path_with_dot_dot (env : environment) (rq : request)
  (rest : list (environment * request)) (w : world) (a b : string) :
  is_method (rq_state rq) = true ->
  rq_path_info rq = a +:+ "/../" +:+ b ->
  starts_with "/" a = true ->
  strchr a "?" = false ->
  exists path,
    moauthdRunClient cupsHashData httpEncode64_2 httpDecode64_2
      _moauthJSONEncode authenticates getpwnam getgrouplist _moauthFormDecode
      moauthdHTMLHeader moauthdHTMLPrintf moauthdHTMLFooter moauthdGetFile
      ((env, rq) :: rest) w
    = Done tt
        {| w_server := w_server w; w_client := w_client w;
           w_events :=
             w_events w
             ++ [Logc MOAUTHD_LOGLEVEL_INFO
                   (states (rq_state rq) +:+ " " +:+ rq_path_info rq);
                 Logc MOAUTHD_LOGLEVEL_ERROR
                   ("Bad request URI " +:+ dquote +:+ path +:+ dquote +:+ ".");
                 Respond HTTP_STATUS_BAD_REQUEST None None 0;
                 Logc MOAUTHD_LOGLEVEL_INFO "Connection closed."] |}.
Proof.
  intros Hmethod Hpath Hslash Hquery.
  assert (Ha : exists a', a = String "/" a').
  { destruct a as [|c a']; [discriminate|]. cbn in Hslash.
    apply Ascii.eqb_eq in Hslash. subst c. eauto. }
  destruct Ha as [a' ->].
  set (path :=
         match split_at "?" b with
         | Some (x, _) => String "/" a' +:+ "/../" +:+ x
         | None => String "/" a' +:+ "/../" +:+ b
         end).
  exists path.
  assert (Htarget : forall uri_prefix,
            exists q, request_target uri_prefix (rq_path_info rq) = (path, q)).
  { intros uri_prefix. rewrite Hpath, request_target_path by reflexivity.
    rewrite (split_at_append "?" _ _ Hquery).
    rewrite (split_at_append "?" "/../" b eq_refl). subst path.
    destruct (split_at "?" b) as [[x y]|]; eauto. }
  assert (Hbad : bad_request_uri (rq_state rq) path = true).
  { unfold bad_request_uri.
    assert (Hdots : strstr path "/../" = true).
    { subst path. destruct (split_at "?" b) as [[x y]|];
        apply strstr_append. }
    assert (Hstar : (strcmp path "*" =? 0) = false).
    { subst path. destruct (split_at "?" b) as [[x y]|]; reflexivity. }
    rewrite Hdots, Hstar, orb_true_r. reflexivity. }
  cbn [moauthdRunClient]. unfold bind at 1.
  rewrite (request_with_method env rq Hmethod).
  unfold moauthdRunClient_method. unfold get_server at 1. unfold bind at 1.
  unfold moauthdLogc at 1. unfold emit at 1. unfold bind at 1.
  match goal with
  | |- context [request_target ?p (rq_path_info rq)] =>
      destruct (Htarget p) as [q ->]
  end.
  rewrite Hbad.
  unfold moauthdDeleteClient, moauthdRespondClient, moauthdLogc, emit, bind,
    ret.
  cbn. rewrite <- !app_assoc. reflexivity.
Qed.

(** The turn of a request that passes the checks of its target, its
    headers and its [Host] field, and has no [Authorization] field. *)
Lemma method_turn_anonymous (env : environment) (rq : request) (w : world)
  (m : http_state_t) (path server_name host : string)
  (query : option string) :
  (forall uri_prefix,
     request_target uri_prefix (rq_path_info rq) = (path, query)) ->
  bad_request_uri m path = false ->
  rq_update rq = HTTP_STATUS_OK ->
  name (w_server w) = Some server_name ->
  host_value (rq_host rq) = (host, port (w_server w)) ->
  strcasecmp host server_name = 0 ->
  rq_authorization rq = EmptyString ->
  method_turn env m rq w
  = (go <- moauthdRunClient_expect env m (rq_expect rq) ;;
     if negb go then ret false
     else moauthdRunClient_dispatch cupsHashData httpEncode64_2
            _moauthJSONEncode authenticates _moauthFormDecode
            moauthdHTMLHeader moauthdHTMLPrintf moauthdHTMLFooter
            moauthdGetFile env m path query (rq_body rq))
      {| w_server := w_server w;
         w_client := set_identity EmptyString (to_u32 (-1)) (w_client w);
         w_events :=
           w_events w
           ++ [Logc MOAUTHD_LOGLEVEL_INFO
                 (states m +:+ " " +:+ rq_path_info rq)] |}.
Proof.
  intros Htarget Hpath Hupdate Hname Hhost Hcase Hauth.
  unfold moauthdRunClient_method. unfold get_server at 1. unfold bind at 1.
  unfold moauthdLogc at 1. unfold emit at 1. unfold bind at 1.
  rewrite Htarget, Hpath, Hupdate.
  change (negb (HTTP_STATUS_OK =? HTTP_STATUS_OK)) with false. cbv iota.
  cbn [w_server]. rewrite Hname. unfold deref, ret at 1. unfold bind at 1.
  rewrite Hhost, Hcase, !Z.eqb_refl. cbn [negb orb].
  rewrite Hauth. unfold moauthdRunClient_authorization.
  cbn [is_empty negb]. unfold get_client, put_client, ret, bind.
  cbn [w_server w_client w_events negb]. reflexivity.
Qed.

(** X26: a [Host] field is accepted when the text before its last colon,
    less one dot at its end, is the server name in any case, and the number
    after the colon is the port of the server; a field without a colon
    stands for port 443.  An [OPTIONS *] request with such a field and no
    [Authorization] is answered 200, and the connection stays open when
    the response went out. *)
Theorem options_request_answered (env : environment) (rq : request)
  (w : world) (server_name h ps : string) :
  rq_state rq = HTTP_STATE_OPTIONS ->
  rq_path_info rq = "*" ->
  rq_update rq = HTTP_STATUS_OK ->
  rq_authorization rq = EmptyString ->
  name (w_server w) = Some server_name ->
  strcasecmp (strip_dot h) server_name = 0 ->
  (String.length (rq_host rq) <= 299)%nat ->
  (rq_host rq = h +:+ ":" +:+ ps /\ strchr ps ":" = false
   /\ atoi ps = port (w_server w))
  \/ (rq_host rq = h /\ strchr h ":" = false /\ port (w_server w) = 443) ->
  moauthdRunClient_request cupsHashData httpEncode64_2 httpDecode64_2
    _moauthJSONEncode authenticates getpwnam getgrouplist _moauthFormDecode
    moauthdHTMLHeader moauthdHTMLPrintf moauthdHTMLFooter moauthdGetFile
    env rq w
  = Done (respond_ok env)
      {| w_server := w_server w;
         w_client := set_identity EmptyString (to_u32 (-1)) (w_client w);
         w_events :=
           w_events w
           ++ [Logc MOAUTHD_LOGLEVEL_INFO "OPTIONS *";
               Respond HTTP_STATUS_OK None None 0] |}.
Proof.
  intros Hstate Hpath Hupdate Hauth Hname Hcase Hlen Hhost.
  rewrite request_with_method by (rewrite Hstate; reflexivity).
  rewrite Hstate.
  assert (Hvalue : host_value (rq_host rq) = (strip_dot h, port (w_server w))).
  { destruct Hhost as [(E & Hps & Hport)|(E & Hh & Hport)].
    - rewrite E in Hlen |- *. rewrite (host_value_port h ps Hps Hlen).
      now rewrite Hport.
    - rewrite E in Hlen |- *. rewrite (host_value_default h Hh Hlen).
      now rewrite Hport. }
  rewrite (method_turn_anonymous env rq w HTTP_STATE_OPTIONS "*" server_name
             (strip_dot h) None); try assumption; try reflexivity.
  - unfold moauthdRunClient_expect.
    rewrite bool_decide_eq_false_2 by discriminate.
    rewrite andb_false_r, Hpath.
    unfold moauthdRunClient_dispatch, moauthdRespondClient, emit, bind, ret.
    cbn. rewrite <- app_assoc. reflexivity.
  - intros uri_prefix. rewrite Hpath. apply request_target_star.
Qed.

(** X27: an [Expect] field of a POST that is not [100-continue] is
    answered 417, and the request is handled all the same when that
    response went out: the handler of the path runs on the message body and
    sends its own response after the 417.  Here for /token. *)
Theorem expectation_failed_and_handled (env : environment) (rq : request)
  (w : world) (server_name host : string) :
  rq_state rq = HTTP_STATE_POST ->
  rq_path_info rq = "/token" ->
  rq_update rq = HTTP_STATUS_OK ->
  rq_authorization rq = EmptyString ->
  name (w_server w) = Some server_name ->
  host_value (rq_host rq) = (host, port (w_server w)) ->
  strcasecmp host server_name = 0 ->
  rq_expect rq <> 0 ->
  rq_expect rq <> HTTP_STATUS_CONTINUE ->
  respond_ok env = true ->
  moauthdRunClient_request cupsHashData httpEncode64_2 httpDecode64_2
    _moauthJSONEncode authenticates getpwnam getgrouplist _moauthFormDecode
    moauthdHTMLHeader moauthdHTMLPrintf moauthdHTMLFooter moauthdGetFile
    env rq w
  = (r <- do_token cupsHashData httpEncode64_2 _moauthJSONEncode
            authenticates env (rq_body rq) ;;
     ret (negb (r =? 0)))
      {| w_server := w_server w;
         w_client := set_identity EmptyString (to_u32 (-1)) (w_client w);
         w_events :=
           w_events w
           ++ [Logc MOAUTHD_LOGLEVEL_INFO "POST /token";
               Respond HTTP_STATUS_EXPECTATION_FAILED None None 0] |}.
Proof.
  intros Hstate Hpath Hupdate Hauth Hname Hhost Hcase Hexpect Hcontinue Hok.
  rewrite request_with_method by (rewrite Hstate; reflexivity).
  rewrite Hstate.
  rewrite (method_turn_anonymous env rq w HTTP_STATE_POST "/token" server_name
             host None); try assumption; try reflexivity.
  - unfold moauthdRunClient_expect.
    apply Z.eqb_neq in Hexpect, Hcontinue. rewrite Hexpect, Hcontinue.
    rewrite bool_decide_eq_true_2 by reflexivity.
    cbn [negb andb]. rewrite Hpath.
    unfold moauthdRespondClient at 1. unfold emit at 1. unfold bind at 1 2 3.
    unfold ret at 1. rewrite Hok. cbn [negb].
    unfold moauthdRunClient_dispatch.
    change (strcmp "/token" "/authorize" =? 0) with false.
    change (strcmp "/token" "/introspect" =? 0) with false.
    change (strcmp "/token" "/token" =? 0) with true.
    cbv iota. cbn [w_server w_client w_events].
    rewrite <- app_assoc. reflexivity.
  - intros uri_prefix. rewrite Hpath. reflexivity.
Qed.

End RequestLoop.

Lemma request_path_with_dot_dot_witness :
  let rq := Scene.request_for HTTP_STATE_GET "/files/../moauthd.conf?x=1" 0
              None in
  let w := Sample.world_of (Scene.named Sample.server1) in
  exists path,
    Scene.moauthdRunClient
      [(Sample.env "A1", rq);
       (Sample.env "A1",
        Scene.request_for HTTP_STATE_POST "/token" 0
          (Some Scene.code_request))] w
    = Done tt
        {| w_server := Scene.named Sample.server1; w_client := new_client;
           w_events :=
             [] ++ [Logc MOAUTHD_LOGLEVEL_INFO
                      (states HTTP_STATE_GET +:+ " "
                       +:+ "/files/../moauthd.conf?x=1");
                    Logc MOAUTHD_LOGLEVEL_ERROR
                      ("Bad request URI " +:+ dquote +:+ path +:+ dquote
                       +:+ ".");
                    Respond HTTP_STATUS_BAD_REQUEST None None 0;
                    Logc MOAUTHD_LOGLEVEL_INFO "Connection closed."] |}.
Proof.
  intros rq w.
  apply (request_path_with_dot_dot Reference.cupsHashData
           Reference.httpEncode64_2 Reference.httpDecode64_2
           Reference._moauthJSONEncode Reference.authenticates
           Reference.getpwnam Reference.getgrouplist Scene._moauthFormDecode
           Scene.moauthdHTMLHeader Scene.moauthdHTMLPrintf
           Scene.moauthdHTMLFooter (Scene.moauthdGetFile (Sample.env "A1"))
           (Sample.env "A1") rq
           [(Sample.env "A1",
             Scene.request_for HTTP_STATE_POST "/token" 0
               (Some Scene.code_request))]
           w "/files" "moauthd.conf?x=1"); reflexivity.
Defined.

Lemma options_request_answered_witness :
  let rq := Scene.request_for HTTP_STATE_OPTIONS "*" 0 None in
  let w := Sample.world_of (Scene.named Sample.server1) in
  strcasecmp (strip_dot "AUTH.example.COM.") "auth.example.com" = 0
  /\ Scene.moauthdRunClient_request (Sample.env "A1") rq w
     = Done true
         {| w_server := Scene.named Sample.server1;
            w_client := set_identity EmptyString (to_u32 (-1)) new_client;
            w_events :=
              [] ++ [Logc MOAUTHD_LOGLEVEL_INFO "OPTIONS *";
                     Respond HTTP_STATUS_OK None None 0] |}.
Proof.
  intros rq w. split; [reflexivity|].
  apply (options_request_answered Reference.cupsHashData
           Reference.httpEncode64_2 Reference.httpDecode64_2
           Reference._moauthJSONEncode Reference.authenticates
           Reference.getpwnam Reference.getgrouplist Scene._moauthFormDecode
           Scene.moauthdHTMLHeader Scene.moauthdHTMLPrintf
           Scene.moauthdHTMLFooter (Scene.moauthdGetFile (Sample.env "A1"))
           (Sample.env "A1") rq w "auth.example.com" "AUTH.example.COM."
           "9000").
  - reflexivity.
  - reflexivity.
  - reflexivity.
  - reflexivity.
  - reflexivity.
  - reflexivity.
  - cbn. lia.
  - left. split; [reflexivity|]. split; reflexivity.
Defined.

Lemma expectation_failed_and_handled_witness :
  let rq := Scene.request_for HTTP_STATE_POST "/token" 200
              (Some Scene.code_request) in
  let w := Sample.world_of (Scene.named Sample.server1) in
  Scene.moauthdRunClient_request (Sample.env "A1") rq w
  = (r <- Sample.do_token (Sample.env "A1") (Some Scene.code_request) ;;
     ret (negb (r =? 0)))
      {| w_server := Scene.named Sample.server1;
         w_client := set_identity EmptyString (to_u32 (-1)) new_client;
         w_events :=
           [] ++ [Logc MOAUTHD_LOGLEVEL_INFO "POST /token";
                  Respond HTTP_STATUS_EXPECTATION_FAILED None None 0] |}
  /\ statuses
       (w_events (final (Scene.moauthdRunClient_request (Sample.env "A1") rq w)))
     = [HTTP_STATUS_EXPECTATION_FAILED; HTTP_STATUS_OK].
Proof.
  intros rq w. split; [|vm_compute; reflexivity].
  apply (expectation_failed_and_handled Reference.cupsHashData
           Reference.httpEncode64_2 Reference.httpDecode64_2
           Reference._moauthJSONEncode Reference.authenticates
           Reference.getpwnam Reference.getgrouplist Scene._moauthFormDecode
           Scene.moauthdHTMLHeader Scene.moauthdHTMLPrintf
           Scene.moauthdHTMLFooter (Scene.moauthdGetFile (Sample.env "A1"))
           (Sample.env "A1") rq w "auth.example.com" "AUTH.example.COM").
  - reflexivity.
  - reflexivity.
  - reflexivity.
  - reflexivity.
  - reflexivity.
  - reflexivity.
  - reflexivity.
  - discriminate.
  - discriminate.
  - reflexivity.
Defined.

(** ** The client helper and the platform *)

(** X28: where the authorization page is opened with [xdg-open],
    [moauthAuthorize] never returns 1: [waitpid] returns the process
    identifier of the child it waited for, or -1, and the function takes
    every value but 0 for a failure, so that a page that was opened is
    reported as "Unable to open authorization URL." *)
Theorem moauthAuthorize_xdg_open
  (cupsHashData : string -> list Z) (httpEncode64_2 : Z -> list Z -> string)
  (_moauthFormEncode : list cups_option_t -> string)
  (httpSeparateURI : string -> string * Z * string)
  (posix_spawnp : string -> Z * Z) (waitpid : Z -> Z * Z)
  (server : option moauth_t)
  (redirect_uri client_id state code_verifier scope : option string) :
  (forall url, (posix_spawnp url).1 = 0 -> 0 < (posix_spawnp url).2) ->
  (forall pid, 0 < pid -> (waitpid pid).1 = pid \/ (waitpid pid).1 = -1) ->
  let r := moauthAuthorize cupsHashData httpEncode64_2 _moauthFormEncode
             httpSeparateURI (xdg_open posix_spawnp waitpid) server
             redirect_uri client_id state code_verifier scope in
  r.1.1 = 0
  /\ match r.2 with
     | Some url =>
         exists s, server = Some s
                   /\ r.1.2
                      = Some (set_error "Unable to open authorization URL." s)
     | None => True
     end.
Proof.
  intros Hspawn Hwait r.
  assert (Hopen : forall url, xdg_open posix_spawnp waitpid url = false).
  { intros url. unfold xdg_open. specialize (Hspawn url).
    destruct (posix_spawnp url) as [spawned pid]. cbn [fst snd] in Hspawn.
    destruct (Z.eqb_spec spawned 0) as [->|Hne]; [|reflexivity].
    cbn [negb]. specialize (Hwait pid (Hspawn eq_refl)).
    destruct (waitpid pid) as [waited estatus]. cbn [fst] in Hwait.
    destruct (Z.eqb_spec waited 0) as [->|Hw]; [lia|reflexivity]. }
  subst r. unfold moauthAuthorize.
  destruct server as [s|]; [|split; reflexivity].
  destruct redirect_uri as [redirect_uri|]; [|split; reflexivity].
  destruct client_id as [client_id|]; [|split; reflexivity].
  destruct (httpSeparateURI (authorization_endpoint s))
    as [[host port] resource].
  match goal with
  | |- context [2048 <=? ?n] => destruct (2048 <=? n)
  end; [split; reflexivity|].
  rewrite Hopen. cbn. split; [reflexivity|]. eauto.
Qed.

Lemma moauthAuthorize_xdg_open_witness :
  let posix_spawnp := fun _ : string => (0, 4242) in
  let waitpid := fun pid : Z => (pid, 0) in
  let r := moauthAuthorize Reference.cupsHashData Reference.httpEncode64_2
             (fun _ => "response_type=code")
             (fun _ => ("auth.example.com", 9000, "/authorize"))
             (xdg_open posix_spawnp waitpid)
             (Some {| authorization_endpoint :=
                        "https://auth.example.com:9000/authorize";
                      error := EmptyString |})
             (Some "https://app/cb") (Some "app1") None None None in
  r.1.1 = 0
  /\ match r.2 with
     | Some url =>
         exists s,
           Some {| authorization_endpoint :=
                     "https://auth.example.com:9000/authorize";
                   error := EmptyString |} = Some s
           /\ r.1.2
              = Some (set_error "Unable to open authorization URL." s)
     | None => True
     end.
Proof.
  intros posix_spawnp waitpid.
  apply (moauthAuthorize_xdg_open Reference.cupsHashData
           Reference.httpEncode64_2 (fun _ => "response_type=code")
           (fun _ => ("auth.example.com", 9000, "/authorize"))
           posix_spawnp waitpid).
  - intros url _. reflexivity.
  - intros pid _. left. reflexivity.
Defined.

(** ** The configuration file *)






(** ** Connecting to a server *)

Section Connecting.

Import Connection.

Variable httpSeparateURI : string -> uri_t.
Variable httpCopyPeerCredentials : string -> Z -> bool.
Variable cupsGetCredentialsTrust : string -> http_trust_t.
Variable http_get : string -> response_t.
Variable json_string : string -> string -> option string.

(** An [https] URI that [httpSeparateURI] takes apart. *)
Local Abbreviation https uri :=
  (0 <= uri_status (httpSeparateURI uri)
   /\ scheme (httpSeparateURI uri) = "https").

Lemma endpoint_https (metadata field : string) (e : option string) :
  endpoint httpSeparateURI json_string metadata field = Some e ->
  e = json_string metadata field
  /\ forall uri, e = Some uri -> https uri.
Proof.
  unfold endpoint. destruct (json_string metadata field) as [uri|].
  - destruct (Z.ltb_spec (uri_status (httpSeparateURI uri))
                HTTP_URI_STATUS_OK) as [Hlt|Hge]; [discriminate|].
    rewrite strcmp_eqb.
    destruct (bool_decide_reflect (scheme (httpSeparateURI uri) = "https"))
      as [Hs|Hs]; [|discriminate].
    cbn. intros [= <-]. split; [reflexivity|].
    intros u [= <-]. split; [exact Hge|exact Hs].
  - intros [= <-]. split; [reflexivity|]. discriminate.
Qed.

(** X30: [moauthConnect] gives a connection object only for an [https]
    URI whose peer has credentials that are not invalid, changed or
    expired, and only with metadata that came with a body and with a
    content type that is empty or exactly [text/json], from one of the two
    well-known paths or the resource of the URI.  The object has both an
    authorization and a token endpoint, its four endpoints are those of
    the metadata, and each one that is there is an [https] URI. *)
Theorem moauthConnect_endpoints (oauth_uri : string) (server : moauth_t) :
  moauthConnect httpSeparateURI httpCopyPeerCredentials
    cupsGetCredentialsTrust http_get json_string oauth_uri = Some server ->
  https oauth_uri
  /\ ~ In (cupsGetCredentialsTrust (host (httpSeparateURI oauth_uri)))
         [HTTP_TRUST_INVALID; HTTP_TRUST_CHANGED; HTTP_TRUST_EXPIRED]
  /\ (exists path metadata,
        In path ["/.well-known/oauth-authorization-server";
                 "/.well-known/openid-configuration";
                 resource (httpSeparateURI oauth_uri)]
        /\ written (http_get path) = true
        /\ body (http_get path) = Some metadata
        /\ (content_type (http_get path) = EmptyString
            \/ content_type (http_get path) = "text/json")
        /\ authorization_endpoint server
           = json_string metadata "authorization_endpoint"
        /\ introspection_endpoint server
           = json_string metadata "introspection_endpoint"
        /\ registration_endpoint server
           = json_string metadata "registration_endpoint"
        /\ token_endpoint server = json_string metadata "token_endpoint")
  /\ (exists a t, authorization_endpoint server = Some a
                  /\ token_endpoint server = Some t)
  /\ (forall uri,
        In (Some uri)
          [authorization_endpoint server; introspection_endpoint server;
           registration_endpoint server; token_endpoint server] ->
        https uri).
Proof.
  unfold moauthConnect, _moauthConnect.
  destruct (Z.ltb_spec (uri_status (httpSeparateURI oauth_uri))
              HTTP_URI_STATUS_OK) as [Hlt|Hge]; [discriminate|].
  rewrite (strcmp_eqb (scheme (httpSeparateURI oauth_uri))).
  destruct (bool_decide_reflect (scheme (httpSeparateURI oauth_uri) = "https"))
    as [Hs|Hs]; [|discriminate].
  cbn [orb negb].
  destruct (httpCopyPeerCredentials _ _); [|discriminate]. cbn [negb].
  assert (Htrust :
            forall k : option moauth_t,
              match cupsGetCredentialsTrust (host (httpSeparateURI oauth_uri))
              with
              | HTTP_TRUST_OK | HTTP_TRUST_RENEWED | HTTP_TRUST_UNKNOWN =>
                  k
              | _ => None
              end = Some server ->
              k = Some server
              /\ ~ In (cupsGetCredentialsTrust
                         (host (httpSeparateURI oauth_uri)))
                     [HTTP_TRUST_INVALID; HTTP_TRUST_CHANGED;
                      HTTP_TRUST_EXPIRED]).
  { intros k.
    destruct (cupsGetCredentialsTrust (host (httpSeparateURI oauth_uri)));
      try discriminate; intros ->; (split; [reflexivity|]);
      cbn; intros H; repeat (destruct H as [H|H]; [discriminate|]);
      exact H. }
  set (res := resource (httpSeparateURI oauth_uri)).
  intros H.
  assert (Hk : match
                 match cupsGetCredentialsTrust
                         (host (httpSeparateURI oauth_uri)) with
                 | HTTP_TRUST_OK | HTTP_TRUST_RENEWED | HTTP_TRUST_UNKNOWN =>
                     Some res
                 | _ => None
                 end
               with
               | Some _ => True
               | None => False
               end).
  { destruct (cupsGetCredentialsTrust (host (httpSeparateURI oauth_uri)));
      try exact I; discriminate H. }
  assert (Hnot : ~ In (cupsGetCredentialsTrust
                         (host (httpSeparateURI oauth_uri)))
                   [HTTP_TRUST_INVALID; HTTP_TRUST_CHANGED;
                    HTTP_TRUST_EXPIRED]).
  { destruct (cupsGetCredentialsTrust (host (httpSeparateURI oauth_uri)));
      try destruct Hk; cbn; intros K;
      repeat (destruct K as [K|K]; [discriminate|]); exact K. }
  assert (Hres : match cupsGetCredentialsTrust
                         (host (httpSeparateURI oauth_uri)) with
                 | HTTP_TRUST_OK | HTTP_TRUST_RENEWED | HTTP_TRUST_UNKNOWN =>
                     Some res
                 | _ => None
                 end = Some res).
  { destruct (cupsGetCredentialsTrust (host (httpSeparateURI oauth_uri)));
      try reflexivity; destruct Hk. }
  rewrite Hres in H. clear Hres Hk Htrust.
  split; [split; assumption|]. split; [exact Hnot|].
  (* The response the metadata is taken from. *)
  assert (Hmeta :
            forall path content body0,
              In path ["/.well-known/oauth-authorization-server";
                       "/.well-known/openid-configuration"; res] ->
              written (http_get path) = true ->
              content = content_type (http_get path) ->
              body (http_get path) = Some body0 ->
              match
                (if is_empty content || (strcmp content "text/json" =? 0)
                 then
                   match endpoint httpSeparateURI json_string body0
                           "authorization_endpoint" with
                   | None => None
                   | Some a =>
                       match endpoint httpSeparateURI json_string body0
                               "introspection_endpoint" with
                       | None => None
                       | Some i =>
                           match endpoint httpSeparateURI json_string body0
                                   "registration_endpoint" with
                           | None => None
                           | Some r =>
                               match endpoint httpSeparateURI json_string
                                       body0 "token_endpoint" with
                               | None => None
                               | Some t =>
                                   Some {| authorization_endpoint := a;
                                           introspection_endpoint := i;
                                           registration_endpoint := r;
                                           token_endpoint := t |}
                               end
                           end
                       end
                   end
                 else
                   Some {| authorization_endpoint := None;
                           introspection_endpoint := None;
                           registration_endpoint := None;
                           token_endpoint := None |})
              with
              | Some server0 =>
                  if is_null (authorization_endpoint server0)
                     || is_null (token_endpoint server0)
                  then None
                  else Some server0
              | None => None
              end = Some server ->
              (exists path metadata,
                 In path ["/.well-known/oauth-authorization-server";
                          "/.well-known/openid-configuration"; res]
                 /\ written (http_get path) = true
                 /\ body (http_get path) = Some metadata
                 /\ (content_type (http_get path) = EmptyString
                     \/ content_type (http_get path) = "text/json")
                 /\ authorization_endpoint server
                    = json_string metadata "authorization_endpoint"
                 /\ introspection_endpoint server
                    = json_string metadata "introspection_endpoint"
                 /\ registration_endpoint server
                    = json_string metadata "registration_endpoint"
                 /\ token_endpoint server
                    = json_string metadata "token_endpoint")
              /\ (exists a t, authorization_endpoint server = Some a
                              /\ token_endpoint server = Some t)
              /\ (forall uri,
                    In (Some uri)
                      [authorization_endpoint server;
                       introspection_endpoint server;
                       registration_endpoint server;
                       token_endpoint server] ->
                    https uri)).
  { intros path content body0 Hin Hw -> Hb.
    destruct (is_empty (content_type (http_get path))
              || (strcmp (content_type (http_get path)) "text/json" =? 0))
      eqn:Hjson; [|discriminate].
    destruct (endpoint httpSeparateURI json_string body0
                "authorization_endpoint") as [a|] eqn:Ea; [|discriminate].
    destruct (endpoint httpSeparateURI json_string body0
                "introspection_endpoint") as [i|] eqn:Ei; [|discriminate].
    destruct (endpoint httpSeparateURI json_string body0
                "registration_endpoint") as [r|] eqn:Er; [|discriminate].
    destruct (endpoint httpSeparateURI json_string body0 "token_endpoint")
      as [t|] eqn:Et; [|discriminate].
    cbn [authorization_endpoint token_endpoint].
    destruct a as [a|]; [|discriminate]. destruct t as [t|]; [|discriminate].
    cbn [is_null orb]. intros [= <-].
    apply endpoint_https in Ea as [Ea Ha], Ei as [Ei Hi], Er as [Er Hr],
      Et as [Et Ht].
    split; [|split].
    - exists path, body0. split; [exact Hin|]. split; [exact Hw|].
      split; [exact Hb|]. split.
      + apply orb_true_iff in Hjson as [He|Hc].
        * left. destruct (content_type (http_get path)); [reflexivity|].
          discriminate He.
        * right. rewrite strcmp_eqb in Hc.
          now apply bool_decide_eq_true in Hc.
      + cbn. repeat split; assumption.
    - exists a, t. split; reflexivity.
    - cbn. intros uri K.
      repeat (destruct K as [K|K]; [eauto|]). destruct K. }
  revert H. unfold get_well_known.
  assert (Hin1 : In "/.well-known/oauth-authorization-server"
                   ["/.well-known/oauth-authorization-server";
                    "/.well-known/openid-configuration"; res])
    by (left; reflexivity).
  assert (Hin2 : In "/.well-known/openid-configuration"
                   ["/.well-known/oauth-authorization-server";
                    "/.well-known/openid-configuration"; res])
    by (right; left; reflexivity).
  assert (Hin3 : In res ["/.well-known/oauth-authorization-server";
                         "/.well-known/openid-configuration"; res])
    by (right; right; left; reflexivity).
  set (r1 := http_get "/.well-known/oauth-authorization-server") in *.
  set (r2 := http_get "/.well-known/openid-configuration") in *.
  set (r3 := http_get res) in *.
  assert (E1 : r1 = http_get "/.well-known/oauth-authorization-server")
    by reflexivity.
  assert (E2 : r2 = http_get "/.well-known/openid-configuration")
    by reflexivity.
  assert (E3 : r3 = http_get res) by reflexivity.
  clearbody r1 r2 r3.
  destruct (strcmp res "/" =? 0); cbn [andb].
  - destruct (written r1) eqn:W1;
      [destruct (status r1 =? HTTP_STATUS_OK) eqn:S1|
       change (HTTP_STATUS_ERROR =? HTTP_STATUS_OK) with false];
      cbv iota; cbn [is_null];
      try (destruct (body r1) as [b1|] eqn:B1; cbn [is_null];
           [subst r1;
            apply (Hmeta _ _ b1 Hin1 W1 eq_refl B1)|]);
      (destruct (written r2) eqn:W2;
       [destruct (status r2 =? HTTP_STATUS_OK) eqn:S2|
        change (HTTP_STATUS_ERROR =? HTTP_STATUS_OK) with false];
       cbv iota; cbn [is_null];
       try (destruct (body r2) as [b2|] eqn:B2; cbn [is_null];
            [subst r2;
             apply (Hmeta _ _ b2 Hin2 W2 eq_refl B2)|]);
       (destruct (written r3) eqn:W3;
        [destruct (body r3) as [b3|] eqn:B3;
         [subst r3; apply (Hmeta _ _ b3 Hin3 W3 eq_refl B3)|]|];
        try discriminate;
        repeat match goal with
               | |- context [match ?c with Some _ => _ | None => _ end] =>
                   destruct c
               end; discriminate)).
  - cbn [is_null].
    destruct (written r3) eqn:W3;
      [destruct (body r3) as [b3|] eqn:B3;
       [subst r3; apply (Hmeta _ _ b3 Hin3 W3 eq_refl B3)|]|];
      discriminate.
Qed.

End Connecting.

Lemma moauthConnect_endpoints_witness :
  Scene.moauthConnect "https://auth.example.com:9000"
  = Some {| Connection.authorization_endpoint :=
              Some "https://auth.example.com:9000/authorize";
            Connection.introspection_endpoint := None;
            Connection.registration_endpoint := None;
            Connection.token_endpoint :=
              Some "https://auth.example.com:9000/token" |}
  /\ Connection.scheme (Scene.httpSeparateURI "https://auth.example.com:9000")
     = "https"
  /\ forall uri,
       In (Some uri)
         [Some "https://auth.example.com:9000/authorize"; None; None;
          Some "https://auth.example.com:9000/token"] ->
       0 <= Connection.uri_status (Scene.httpSeparateURI uri)
       /\ Connection.scheme (Scene.httpSeparateURI uri) = "https".
Proof.
  assert (H : Scene.moauthConnect "https://auth.example.com:9000"
              = Some {| Connection.authorization_endpoint :=
                          Some "https://auth.example.com:9000/authorize";
                        Connection.introspection_endpoint := None;
                        Connection.registration_endpoint := None;
                        Connection.token_endpoint :=
                          Some "https://auth.example.com:9000/token" |})
    by (vm_compute; reflexivity).
  split; [exact H|].
  destruct (moauthConnect_endpoints Scene.httpSeparateURI (fun _ _ => true)
              (fun _ => Connection.HTTP_TRUST_OK) Scene.http_get
              Scene.json_string "https://auth.example.com:9000" _ H)
    as ([_ Hs] & _ & _ & _ & Hall).
  split; [exact Hs|exact Hall].
Defined.
